(** * Premises processing graph: per-row state machine

    A shallow embedding of [graph/state.py], [graph/nodes/*.py] and the
    graph wiring of [graph/orchestrator.py], followed by the properties of
    the specification, proved or refuted on it, and by further properties
    of the nodes, of the reply handling of the two language-model tools
    ([graph/tools/llm_confidence.py], [graph/tools/llm_occupancy.py]), of
    the error file of [write_output_node] and of the checks of
    [golden_set/evaluator.py].

    Conventions of the embedding.
    - Python [str] is [string] (8-bit characters); the character classes of
      [str.strip], [str.lower], [str.upper], [str.title], [\s] and [\d] are
      the ASCII part of Python's.
    - A Python [float] coordinate is the rational [Q] that it denotes.
      Comparisons of [float]s are exact; their arithmetic ([-], [+], [**])
      rounds as the platform does and is a parameter of the embedding, like
      the conversions between [float] and [str].
    - A Python [dict] whose keys are data is an insertion-ordered association
      list with unique keys ([dict]); a [dict] with a fixed key set is a
      record.
    - A node returns a partial update (a list of field assignments) which the
      graph engine merges into the state before the router runs, as LangGraph
      does for a [TypedDict] state without reducers.
    - The external collaborators (geocoder, place search, records store,
      scorer, classifier) are the members of the class [Collaborators],
      functions of their arguments; every call to one of them is recorded in
      a call log.
    - An exception that a node would raise ends the run ([Raised]); the step
      budget of the engine is a parameter ([fuel]).
    - [str] of an integer is total: the integers that the program prints
      (scores, bounds) are taken to be within the limit on the digits of a
      conversion.  [int] of a string, which reads the replies of a language
      model, has the limit ([py_int]). *)

From Stdlib Require Import List String Ascii Bool Arith ZArith QArith Lia.
From Stdlib Require Import DecimalString DecimalZ.
Import ListNotations.

Local Close Scope Q_scope.
Local Open Scope nat_scope.
Local Open Scope string_scope.
Local Open Scope list_scope.

(** ** Python string operations *)

Module Py.

Definition code (c : ascii) : nat := nat_of_ascii c.

Definition is_upper (c : ascii) : bool := (65 <=? code c)%nat && (code c <=? 90)%nat.
Definition is_lower (c : ascii) : bool := (97 <=? code c)%nat && (code c <=? 122)%nat.
Definition is_alpha (c : ascii) : bool := is_upper c || is_lower c.
Definition is_digit (c : ascii) : bool := (48 <=? code c)%nat && (code c <=? 57)%nat.

(** [str.isspace] on one character: TAB, LF, VT, FF, CR, FS, GS, RS, US and
    the space. *)
Definition is_space (c : ascii) : bool :=
  ((9 <=? code c)%nat && (code c <=? 13)%nat)
  || ((28 <=? code c)%nat && (code c <=? 32)%nat).

Definition lower_char (c : ascii) : ascii :=
  if is_upper c then ascii_of_nat (code c + 32) else c.
Definition upper_char (c : ascii) : ascii :=
  if is_lower c then ascii_of_nat (code c - 32) else c.

(** [s.lower()] and [s.upper()]. *)
Fixpoint lower (s : string) : string :=
  match s with
  | EmptyString => EmptyString
  | String c r => String (lower_char c) (lower r)
  end.

Fixpoint upper (s : string) : string :=
  match s with
  | EmptyString => EmptyString
  | String c r => String (upper_char c) (upper r)
  end.

(** [s.lstrip()], [s.rstrip()] and [s.strip()]. *)
Fixpoint lstrip (s : string) : string :=
  match s with
  | EmptyString => EmptyString
  | String c r => if is_space c then lstrip r else s
  end.

Fixpoint rstrip (s : string) : string :=
  match s with
  | EmptyString => EmptyString
  | String c r =>
      match rstrip r with
      | EmptyString => if is_space c then EmptyString else String c EmptyString
      | r' => String c r'
      end
  end.

Definition strip (s : string) : string := rstrip (lstrip s).

(** [bool(s)]: a string is truthy when it is not empty. *)
Definition truthy (s : string) : bool :=
  match s with EmptyString => false | _ => true end.

(** [sub in s]. *)
Fixpoint contains (sub s : string) : bool :=
  prefix sub s
  || match s with
     | EmptyString => false
     | String _ r => contains sub r
     end.

(** [any(x in s for x in subs)]. *)
Definition any_in (subs : list string) (s : string) : bool :=
  existsb (fun x => contains x s) subs.

(** [s in l] for a list or a set of strings. *)
Definition mem (s : string) (l : list string) : bool :=
  existsb (String.eqb s) l.

(** [s.title()]: a letter that follows a letter is lower-cased, any other
    letter is upper-cased. *)
Fixpoint title_from (prev_cased : bool) (s : string) : string :=
  match s with
  | EmptyString => EmptyString
  | String c r =>
      if is_alpha c
      then String (if prev_cased then lower_char c else upper_char c)
                  (title_from true r)
      else String c (title_from false r)
  end.

Definition title (s : string) : string := title_from false s.

(** [re.sub(r'\s+', ' ', s)]: every maximal run of white space becomes one
    space. *)
Fixpoint collapse_from (in_run : bool) (s : string) : string :=
  match s with
  | EmptyString => EmptyString
  | String c r =>
      if is_space c
      then if in_run then collapse_from true r
           else String " " (collapse_from true r)
      else String c (collapse_from false r)
  end.

Definition collapse_spaces (s : string) : string := collapse_from false s.

(** [re.match(r'^\d+\s', s)], as a truth value. *)
Fixpoint digits_then_space (seen_digit : bool) (s : string) : bool :=
  match s with
  | EmptyString => false
  | String c r =>
      if is_digit c then digits_then_space true r
      else seen_digit && is_space c
  end.

Definition starts_with_number (s : string) : bool := digits_then_space false s.

(** [s.split(',')[0]]. *)
Fixpoint before_comma (s : string) : string :=
  match s with
  | EmptyString => EmptyString
  | String c r => if Ascii.eqb c ","%char then EmptyString else String c (before_comma r)
  end.

(** The position where [$] matches: the end of the string, or just before a
    line feed that is the last character. *)
Definition at_dollar (rest : string) : bool :=
  match rest with
  | EmptyString => true
  | String c EmptyString => Ascii.eqb c "010"%char
  | _ => false
  end.

(** [n] characters of the class [cls] at the head of [s]; the rest of [s]
    when they are there. *)
Fixpoint take_class (cls : ascii -> bool) (n : nat) (s : string) : option string :=
  match n with
  | O => Some s
  | S n' =>
      match s with
      | String c r => if cls c then take_class cls n' r else None
      | EmptyString => None
      end
  end.

(** [re.match(r'^[A-Z]{2}$', s)], as a truth value. *)
Definition match_state_code (s : string) : bool :=
  match take_class is_upper 2 s with
  | Some rest => at_dollar rest
  | None => false
  end.

(** [re.match(r'^\d{5}(-\d{4})?$', s)], as a truth value.  The optional group
    is tried first; when it fails the matcher backtracks to the position
    after the five digits. *)
Definition match_zip (s : string) : bool :=
  match take_class is_digit 5 s with
  | Some rest =>
      match rest with
      | String "-"%char r =>
          match take_class is_digit 4 r with
          | Some rest' => at_dollar rest' || at_dollar rest
          | None => at_dollar rest
          end
      | _ => at_dollar rest
      end
  | None => false
  end.

(** [str(n)] for an [int]. *)
Definition str_int (z : Z) : string := NilZero.string_of_int (Z.to_int z).

(** [sep.join(l)]. *)
Definition join (sep : string) (l : list string) : string := String.concat sep l.

End Py.

(** ** Insertion-ordered dictionaries *)

Section Dict.
Context {V : Type}.

Definition dict := list (string * V).

(** [d.get(k)]. *)
Fixpoint dget (k : string) (d : dict) : option V :=
  match d with
  | [] => None
  | (k', v) :: r => if String.eqb k k' then Some v else dget k r
  end.

(** [d.get(k, dflt)]. *)
Definition dget_or (k : string) (dflt : V) (d : dict) : V :=
  match dget k d with Some v => v | None => dflt end.

(** [d[k] = v]: a present key keeps its position, a new one goes last. *)
Fixpoint dset (k : string) (v : V) (d : dict) : dict :=
  match d with
  | [] => [(k, v)]
  | (k', v') :: r =>
      if String.eqb k k' then (k', v) :: r else (k', v') :: dset k v r
  end.

(** [d.setdefault(k, v)], for its effect on [d]. *)
Definition setdefault (k : string) (v : V) (d : dict) : dict :=
  match dget k d with Some _ => d | None => dset k v d end.

(** [d.keys()]. *)
Definition keys (d : dict) : list string := map fst d.

(** [d1 == d2]: the same keys with the same values, in any order. *)
Definition dict_eq (d1 d2 : dict) : Prop := forall k, dget k d1 = dget k d2.
End Dict.

Arguments dict : clear implicits.


(** ** Data model ([graph/state.py] and the shapes the nodes build) *)

(** A row as [csv.DictReader] yields it for a line with as many cells as
    the header: header to text.  The rows of the other lines, which hold
    [None], are the [CsvRow]s further down; the graph is modelled on the
    rows of text. *)
Definition RawRow := dict string.

(** The normalized row that [parse_row_node] builds. *)
Definition Row := dict string.

(** One element of the provider's [address_components] list. *)
Record AddressComponent := {
  ac_types : list string;
  ac_long_name : string;
  ac_short_name : string
}.

(** The dictionary [geocode_address] returns on a hit. *)
Record GeocodeResult := {
  g_latitude : Q;
  g_longitude : Q;
  g_formatted_address : string;
  g_address_components : list AddressComponent
}.

(** The dictionary [search_place] returns on a hit, which is also the shape of
    the synthetic address-only result (that one has no [place_id]).  The
    provider may leave a coordinate out ([None]).  The record is that of a
    result with a name: a result whose name the provider left out is not in
    it, and on such a one [standardize_node] raises. *)
Record PlaceResult := {
  p_place_id : option string;
  p_name : string;
  p_formatted_address : string;
  p_latitude : option Q;
  p_longitude : option Q;
  p_types : list string;
  p_address_components : list AddressComponent
}.

(** A record of the records store, as [query_premises_by_location] returns
    it. *)
Record Premise := {
  prem_id : option Z;
  prem_premise_name : string;
  prem_address_line_1 : string
}.

(** A row of the states table. *)
Record StateRecord := { st_id : Z }.

Record OccupancyType := {
  occupancy_type_id : Z;
  occupancy_type_name : string
}.

(** The [new_record] handed to the scorer. *)
Record NewRecord := {
  nr_name : string;
  nr_address_line_1 : string;
  nr_city : string;
  nr_state : string
}.

(** The output record of [format_output_node]; a key with a space in it has
    an underscore here. *)
Record OutputRow := {
  Id : string;
  Reference_Number : string;
  Unique_Reference_Number : string;
  Building_Number : string;
  Premise_Name : string;
  Address_Line_1 : string;
  Address_Line_2 : string;
  Postal_Code : string;
  Status : string;
  AHJ_Name : string;
  AHJ_Geofence_Name : string;
  Record_Type : string;
  Country : string;
  State : string;
  City : string;
  System_Type : string;
  Internal_System_Type : string;
  Preferred_Communication_Type : string;
  Parent_Premises : string;
  Premise_Occupancy : string;
  Contact_Name : string;
  Contact_Email : string;
  Contact_Number : string;
  Latitude : string;
  Longitude : string;
  Fire_Station_Number : string;
  Has_Knox_Box : string;
  Knox_Box_Location : string;
  Knox_Box_Description : string;
  Enable_Geofence_Auto_Assign : string;
  Country_ShortName : string;
  Parent_Reference : string;
  Labels : string;
  _confidence_score : option Z;
  _duplicate_checked : bool
}.

(** An entry of the error accumulator: the keys of the current row and
    [error_reason]; a value is [None] when the state held no message. *)
Definition ErrorEntry := dict (option string).

Record DuplicateEntry := {
  source_name : string;
  source_address : string;
  dup_standardized_name : string;
  dup_matched_premise_id : option Z;
  dup_confidence_score : option Z;
  reason : string
}.

(** [PremiseState]. *)
Record PremiseState := {
  csv_rows : list RawRow;
  current_row_index : nat;
  current_row : Row;
  places_result : option PlaceResult;
  places_found : bool;
  standardized_name : string;
  standardized_address : dict string;
  latitude : option Q;
  longitude : option Q;
  places_type : option string;
  existing_premises : list Premise;
  duplicate_found : bool;
  confidence_score : option Z;
  matched_premise_id : option Z;
  state_id : option Z;
  state_code : option string;
  occupancy_type_options : list OccupancyType;
  selected_occupancy_type : option OccupancyType;
  output_row : option OutputRow;
  successful_rows : list OutputRow;
  error_rows : list ErrorEntry;
  duplicate_log : list DuplicateEntry;
  verification_passed : bool;
  validation_errors : list string;
  next_step : string;
  error_message : option string
}.

(** One [key: value] pair of the dictionary a node returns. *)
Inductive FieldUpdate :=
| U_csv_rows (v : list RawRow)
| U_current_row_index (v : nat)
| U_current_row (v : Row)
| U_places_result (v : option PlaceResult)
| U_places_found (v : bool)
| U_standardized_name (v : string)
| U_standardized_address (v : dict string)
| U_latitude (v : option Q)
| U_longitude (v : option Q)
| U_places_type (v : option string)
| U_existing_premises (v : list Premise)
| U_duplicate_found (v : bool)
| U_confidence_score (v : option Z)
| U_matched_premise_id (v : option Z)
| U_state_id (v : option Z)
| U_state_code (v : option string)
| U_occupancy_type_options (v : list OccupancyType)
| U_selected_occupancy_type (v : option OccupancyType)
| U_output_row (v : option OutputRow)
| U_successful_rows (v : list OutputRow)
| U_error_rows (v : list ErrorEntry)
| U_duplicate_log (v : list DuplicateEntry)
| U_verification_passed (v : bool)
| U_validation_errors (v : list string)
| U_next_step (v : string)
| U_error_message (v : option string).

(** The partial update a node returns. *)
Definition Update := list FieldUpdate.

(** Writing one key of the state; every other key keeps its value. *)
Definition apply_field (u : FieldUpdate) (s : PremiseState) : PremiseState :=
  match u with
  | U_csv_rows v =>
      {| csv_rows := v; current_row_index := current_row_index s;
         current_row := current_row s; places_result := places_result s;
         places_found := places_found s;
         standardized_name := standardized_name s;
         standardized_address := standardized_address s;
         latitude := latitude s; longitude := longitude s;
         places_type := places_type s;
         existing_premises := existing_premises s;
         duplicate_found := duplicate_found s;
         confidence_score := confidence_score s;
         matched_premise_id := matched_premise_id s; state_id := state_id s;
         state_code := state_code s;
         occupancy_type_options := occupancy_type_options s;
         selected_occupancy_type := selected_occupancy_type s;
         output_row := output_row s; successful_rows := successful_rows s;
         error_rows := error_rows s; duplicate_log := duplicate_log s;
         verification_passed := verification_passed s;
         validation_errors := validation_errors s; next_step := next_step s;
         error_message := error_message s |}
  | U_current_row_index v =>
      {| csv_rows := csv_rows s; current_row_index := v;
         current_row := current_row s; places_result := places_result s;
         places_found := places_found s;
         standardized_name := standardized_name s;
         standardized_address := standardized_address s;
         latitude := latitude s; longitude := longitude s;
         places_type := places_type s;
         existing_premises := existing_premises s;
         duplicate_found := duplicate_found s;
         confidence_score := confidence_score s;
         matched_premise_id := matched_premise_id s; state_id := state_id s;
         state_code := state_code s;
         occupancy_type_options := occupancy_type_options s;
         selected_occupancy_type := selected_occupancy_type s;
         output_row := output_row s; successful_rows := successful_rows s;
         error_rows := error_rows s; duplicate_log := duplicate_log s;
         verification_passed := verification_passed s;
         validation_errors := validation_errors s; next_step := next_step s;
         error_message := error_message s |}
  | U_current_row v =>
      {| csv_rows := csv_rows s; current_row_index := current_row_index s;
         current_row := v; places_result := places_result s;
         places_found := places_found s;
         standardized_name := standardized_name s;
         standardized_address := standardized_address s;
         latitude := latitude s; longitude := longitude s;
         places_type := places_type s;
         existing_premises := existing_premises s;
         duplicate_found := duplicate_found s;
         confidence_score := confidence_score s;
         matched_premise_id := matched_premise_id s; state_id := state_id s;
         state_code := state_code s;
         occupancy_type_options := occupancy_type_options s;
         selected_occupancy_type := selected_occupancy_type s;
         output_row := output_row s; successful_rows := successful_rows s;
         error_rows := error_rows s; duplicate_log := duplicate_log s;
         verification_passed := verification_passed s;
         validation_errors := validation_errors s; next_step := next_step s;
         error_message := error_message s |}
  | U_places_result v =>
      {| csv_rows := csv_rows s; current_row_index := current_row_index s;
         current_row := current_row s; places_result := v;
         places_found := places_found s;
         standardized_name := standardized_name s;
         standardized_address := standardized_address s;
         latitude := latitude s; longitude := longitude s;
         places_type := places_type s;
         existing_premises := existing_premises s;
         duplicate_found := duplicate_found s;
         confidence_score := confidence_score s;
         matched_premise_id := matched_premise_id s; state_id := state_id s;
         state_code := state_code s;
         occupancy_type_options := occupancy_type_options s;
         selected_occupancy_type := selected_occupancy_type s;
         output_row := output_row s; successful_rows := successful_rows s;
         error_rows := error_rows s; duplicate_log := duplicate_log s;
         verification_passed := verification_passed s;
         validation_errors := validation_errors s; next_step := next_step s;
         error_message := error_message s |}
  | U_places_found v =>
      {| csv_rows := csv_rows s; current_row_index := current_row_index s;
         current_row := current_row s; places_result := places_result s;
         places_found := v; standardized_name := standardized_name s;
         standardized_address := standardized_address s;
         latitude := latitude s; longitude := longitude s;
         places_type := places_type s;
         existing_premises := existing_premises s;
         duplicate_found := duplicate_found s;
         confidence_score := confidence_score s;
         matched_premise_id := matched_premise_id s; state_id := state_id s;
         state_code := state_code s;
         occupancy_type_options := occupancy_type_options s;
         selected_occupancy_type := selected_occupancy_type s;
         output_row := output_row s; successful_rows := successful_rows s;
         error_rows := error_rows s; duplicate_log := duplicate_log s;
         verification_passed := verification_passed s;
         validation_errors := validation_errors s; next_step := next_step s;
         error_message := error_message s |}
  | U_standardized_name v =>
      {| csv_rows := csv_rows s; current_row_index := current_row_index s;
         current_row := current_row s; places_result := places_result s;
         places_found := places_found s; standardized_name := v;
         standardized_address := standardized_address s;
         latitude := latitude s; longitude := longitude s;
         places_type := places_type s;
         existing_premises := existing_premises s;
         duplicate_found := duplicate_found s;
         confidence_score := confidence_score s;
         matched_premise_id := matched_premise_id s; state_id := state_id s;
         state_code := state_code s;
         occupancy_type_options := occupancy_type_options s;
         selected_occupancy_type := selected_occupancy_type s;
         output_row := output_row s; successful_rows := successful_rows s;
         error_rows := error_rows s; duplicate_log := duplicate_log s;
         verification_passed := verification_passed s;
         validation_errors := validation_errors s; next_step := next_step s;
         error_message := error_message s |}
  | U_standardized_address v =>
      {| csv_rows := csv_rows s; current_row_index := current_row_index s;
         current_row := current_row s; places_result := places_result s;
         places_found := places_found s;
         standardized_name := standardized_name s; standardized_address := v;
         latitude := latitude s; longitude := longitude s;
         places_type := places_type s;
         existing_premises := existing_premises s;
         duplicate_found := duplicate_found s;
         confidence_score := confidence_score s;
         matched_premise_id := matched_premise_id s; state_id := state_id s;
         state_code := state_code s;
         occupancy_type_options := occupancy_type_options s;
         selected_occupancy_type := selected_occupancy_type s;
         output_row := output_row s; successful_rows := successful_rows s;
         error_rows := error_rows s; duplicate_log := duplicate_log s;
         verification_passed := verification_passed s;
         validation_errors := validation_errors s; next_step := next_step s;
         error_message := error_message s |}
  | U_latitude v =>
      {| csv_rows := csv_rows s; current_row_index := current_row_index s;
         current_row := current_row s; places_result := places_result s;
         places_found := places_found s;
         standardized_name := standardized_name s;
         standardized_address := standardized_address s; latitude := v;
         longitude := longitude s; places_type := places_type s;
         existing_premises := existing_premises s;
         duplicate_found := duplicate_found s;
         confidence_score := confidence_score s;
         matched_premise_id := matched_premise_id s; state_id := state_id s;
         state_code := state_code s;
         occupancy_type_options := occupancy_type_options s;
         selected_occupancy_type := selected_occupancy_type s;
         output_row := output_row s; successful_rows := successful_rows s;
         error_rows := error_rows s; duplicate_log := duplicate_log s;
         verification_passed := verification_passed s;
         validation_errors := validation_errors s; next_step := next_step s;
         error_message := error_message s |}
  | U_longitude v =>
      {| csv_rows := csv_rows s; current_row_index := current_row_index s;
         current_row := current_row s; places_result := places_result s;
         places_found := places_found s;
         standardized_name := standardized_name s;
         standardized_address := standardized_address s;
         latitude := latitude s; longitude := v;
         places_type := places_type s;
         existing_premises := existing_premises s;
         duplicate_found := duplicate_found s;
         confidence_score := confidence_score s;
         matched_premise_id := matched_premise_id s; state_id := state_id s;
         state_code := state_code s;
         occupancy_type_options := occupancy_type_options s;
         selected_occupancy_type := selected_occupancy_type s;
         output_row := output_row s; successful_rows := successful_rows s;
         error_rows := error_rows s; duplicate_log := duplicate_log s;
         verification_passed := verification_passed s;
         validation_errors := validation_errors s; next_step := next_step s;
         error_message := error_message s |}
  | U_places_type v =>
      {| csv_rows := csv_rows s; current_row_index := current_row_index s;
         current_row := current_row s; places_result := places_result s;
         places_found := places_found s;
         standardized_name := standardized_name s;
         standardized_address := standardized_address s;
         latitude := latitude s; longitude := longitude s; places_type := v;
         existing_premises := existing_premises s;
         duplicate_found := duplicate_found s;
         confidence_score := confidence_score s;
         matched_premise_id := matched_premise_id s; state_id := state_id s;
         state_code := state_code s;
         occupancy_type_options := occupancy_type_options s;
         selected_occupancy_type := selected_occupancy_type s;
         output_row := output_row s; successful_rows := successful_rows s;
         error_rows := error_rows s; duplicate_log := duplicate_log s;
         verification_passed := verification_passed s;
         validation_errors := validation_errors s; next_step := next_step s;
         error_message := error_message s |}
  | U_existing_premises v =>
      {| csv_rows := csv_rows s; current_row_index := current_row_index s;
         current_row := current_row s; places_result := places_result s;
         places_found := places_found s;
         standardized_name := standardized_name s;
         standardized_address := standardized_address s;
         latitude := latitude s; longitude := longitude s;
         places_type := places_type s; existing_premises := v;
         duplicate_found := duplicate_found s;
         confidence_score := confidence_score s;
         matched_premise_id := matched_premise_id s; state_id := state_id s;
         state_code := state_code s;
         occupancy_type_options := occupancy_type_options s;
         selected_occupancy_type := selected_occupancy_type s;
         output_row := output_row s; successful_rows := successful_rows s;
         error_rows := error_rows s; duplicate_log := duplicate_log s;
         verification_passed := verification_passed s;
         validation_errors := validation_errors s; next_step := next_step s;
         error_message := error_message s |}
  | U_duplicate_found v =>
      {| csv_rows := csv_rows s; current_row_index := current_row_index s;
         current_row := current_row s; places_result := places_result s;
         places_found := places_found s;
         standardized_name := standardized_name s;
         standardized_address := standardized_address s;
         latitude := latitude s; longitude := longitude s;
         places_type := places_type s;
         existing_premises := existing_premises s; duplicate_found := v;
         confidence_score := confidence_score s;
         matched_premise_id := matched_premise_id s; state_id := state_id s;
         state_code := state_code s;
         occupancy_type_options := occupancy_type_options s;
         selected_occupancy_type := selected_occupancy_type s;
         output_row := output_row s; successful_rows := successful_rows s;
         error_rows := error_rows s; duplicate_log := duplicate_log s;
         verification_passed := verification_passed s;
         validation_errors := validation_errors s; next_step := next_step s;
         error_message := error_message s |}
  | U_confidence_score v =>
      {| csv_rows := csv_rows s; current_row_index := current_row_index s;
         current_row := current_row s; places_result := places_result s;
         places_found := places_found s;
         standardized_name := standardized_name s;
         standardized_address := standardized_address s;
         latitude := latitude s; longitude := longitude s;
         places_type := places_type s;
         existing_premises := existing_premises s;
         duplicate_found := duplicate_found s; confidence_score := v;
         matched_premise_id := matched_premise_id s; state_id := state_id s;
         state_code := state_code s;
         occupancy_type_options := occupancy_type_options s;
         selected_occupancy_type := selected_occupancy_type s;
         output_row := output_row s; successful_rows := successful_rows s;
         error_rows := error_rows s; duplicate_log := duplicate_log s;
         verification_passed := verification_passed s;
         validation_errors := validation_errors s; next_step := next_step s;
         error_message := error_message s |}
  | U_matched_premise_id v =>
      {| csv_rows := csv_rows s; current_row_index := current_row_index s;
         current_row := current_row s; places_result := places_result s;
         places_found := places_found s;
         standardized_name := standardized_name s;
         standardized_address := standardized_address s;
         latitude := latitude s; longitude := longitude s;
         places_type := places_type s;
         existing_premises := existing_premises s;
         duplicate_found := duplicate_found s;
         confidence_score := confidence_score s; matched_premise_id := v;
         state_id := state_id s; state_code := state_code s;
         occupancy_type_options := occupancy_type_options s;
         selected_occupancy_type := selected_occupancy_type s;
         output_row := output_row s; successful_rows := successful_rows s;
         error_rows := error_rows s; duplicate_log := duplicate_log s;
         verification_passed := verification_passed s;
         validation_errors := validation_errors s; next_step := next_step s;
         error_message := error_message s |}
  | U_state_id v =>
      {| csv_rows := csv_rows s; current_row_index := current_row_index s;
         current_row := current_row s; places_result := places_result s;
         places_found := places_found s;
         standardized_name := standardized_name s;
         standardized_address := standardized_address s;
         latitude := latitude s; longitude := longitude s;
         places_type := places_type s;
         existing_premises := existing_premises s;
         duplicate_found := duplicate_found s;
         confidence_score := confidence_score s;
         matched_premise_id := matched_premise_id s; state_id := v;
         state_code := state_code s;
         occupancy_type_options := occupancy_type_options s;
         selected_occupancy_type := selected_occupancy_type s;
         output_row := output_row s; successful_rows := successful_rows s;
         error_rows := error_rows s; duplicate_log := duplicate_log s;
         verification_passed := verification_passed s;
         validation_errors := validation_errors s; next_step := next_step s;
         error_message := error_message s |}
  | U_state_code v =>
      {| csv_rows := csv_rows s; current_row_index := current_row_index s;
         current_row := current_row s; places_result := places_result s;
         places_found := places_found s;
         standardized_name := standardized_name s;
         standardized_address := standardized_address s;
         latitude := latitude s; longitude := longitude s;
         places_type := places_type s;
         existing_premises := existing_premises s;
         duplicate_found := duplicate_found s;
         confidence_score := confidence_score s;
         matched_premise_id := matched_premise_id s; state_id := state_id s;
         state_code := v; occupancy_type_options := occupancy_type_options s;
         selected_occupancy_type := selected_occupancy_type s;
         output_row := output_row s; successful_rows := successful_rows s;
         error_rows := error_rows s; duplicate_log := duplicate_log s;
         verification_passed := verification_passed s;
         validation_errors := validation_errors s; next_step := next_step s;
         error_message := error_message s |}
  | U_occupancy_type_options v =>
      {| csv_rows := csv_rows s; current_row_index := current_row_index s;
         current_row := current_row s; places_result := places_result s;
         places_found := places_found s;
         standardized_name := standardized_name s;
         standardized_address := standardized_address s;
         latitude := latitude s; longitude := longitude s;
         places_type := places_type s;
         existing_premises := existing_premises s;
         duplicate_found := duplicate_found s;
         confidence_score := confidence_score s;
         matched_premise_id := matched_premise_id s; state_id := state_id s;
         state_code := state_code s; occupancy_type_options := v;
         selected_occupancy_type := selected_occupancy_type s;
         output_row := output_row s; successful_rows := successful_rows s;
         error_rows := error_rows s; duplicate_log := duplicate_log s;
         verification_passed := verification_passed s;
         validation_errors := validation_errors s; next_step := next_step s;
         error_message := error_message s |}
  | U_selected_occupancy_type v =>
      {| csv_rows := csv_rows s; current_row_index := current_row_index s;
         current_row := current_row s; places_result := places_result s;
         places_found := places_found s;
         standardized_name := standardized_name s;
         standardized_address := standardized_address s;
         latitude := latitude s; longitude := longitude s;
         places_type := places_type s;
         existing_premises := existing_premises s;
         duplicate_found := duplicate_found s;
         confidence_score := confidence_score s;
         matched_premise_id := matched_premise_id s; state_id := state_id s;
         state_code := state_code s;
         occupancy_type_options := occupancy_type_options s;
         selected_occupancy_type := v; output_row := output_row s;
         successful_rows := successful_rows s; error_rows := error_rows s;
         duplicate_log := duplicate_log s;
         verification_passed := verification_passed s;
         validation_errors := validation_errors s; next_step := next_step s;
         error_message := error_message s |}
  | U_output_row v =>
      {| csv_rows := csv_rows s; current_row_index := current_row_index s;
         current_row := current_row s; places_result := places_result s;
         places_found := places_found s;
         standardized_name := standardized_name s;
         standardized_address := standardized_address s;
         latitude := latitude s; longitude := longitude s;
         places_type := places_type s;
         existing_premises := existing_premises s;
         duplicate_found := duplicate_found s;
         confidence_score := confidence_score s;
         matched_premise_id := matched_premise_id s; state_id := state_id s;
         state_code := state_code s;
         occupancy_type_options := occupancy_type_options s;
         selected_occupancy_type := selected_occupancy_type s;
         output_row := v; successful_rows := successful_rows s;
         error_rows := error_rows s; duplicate_log := duplicate_log s;
         verification_passed := verification_passed s;
         validation_errors := validation_errors s; next_step := next_step s;
         error_message := error_message s |}
  | U_successful_rows v =>
      {| csv_rows := csv_rows s; current_row_index := current_row_index s;
         current_row := current_row s; places_result := places_result s;
         places_found := places_found s;
         standardized_name := standardized_name s;
         standardized_address := standardized_address s;
         latitude := latitude s; longitude := longitude s;
         places_type := places_type s;
         existing_premises := existing_premises s;
         duplicate_found := duplicate_found s;
         confidence_score := confidence_score s;
         matched_premise_id := matched_premise_id s; state_id := state_id s;
         state_code := state_code s;
         occupancy_type_options := occupancy_type_options s;
         selected_occupancy_type := selected_occupancy_type s;
         output_row := output_row s; successful_rows := v;
         error_rows := error_rows s; duplicate_log := duplicate_log s;
         verification_passed := verification_passed s;
         validation_errors := validation_errors s; next_step := next_step s;
         error_message := error_message s |}
  | U_error_rows v =>
      {| csv_rows := csv_rows s; current_row_index := current_row_index s;
         current_row := current_row s; places_result := places_result s;
         places_found := places_found s;
         standardized_name := standardized_name s;
         standardized_address := standardized_address s;
         latitude := latitude s; longitude := longitude s;
         places_type := places_type s;
         existing_premises := existing_premises s;
         duplicate_found := duplicate_found s;
         confidence_score := confidence_score s;
         matched_premise_id := matched_premise_id s; state_id := state_id s;
         state_code := state_code s;
         occupancy_type_options := occupancy_type_options s;
         selected_occupancy_type := selected_occupancy_type s;
         output_row := output_row s; successful_rows := successful_rows s;
         error_rows := v; duplicate_log := duplicate_log s;
         verification_passed := verification_passed s;
         validation_errors := validation_errors s; next_step := next_step s;
         error_message := error_message s |}
  | U_duplicate_log v =>
      {| csv_rows := csv_rows s; current_row_index := current_row_index s;
         current_row := current_row s; places_result := places_result s;
         places_found := places_found s;
         standardized_name := standardized_name s;
         standardized_address := standardized_address s;
         latitude := latitude s; longitude := longitude s;
         places_type := places_type s;
         existing_premises := existing_premises s;
         duplicate_found := duplicate_found s;
         confidence_score := confidence_score s;
         matched_premise_id := matched_premise_id s; state_id := state_id s;
         state_code := state_code s;
         occupancy_type_options := occupancy_type_options s;
         selected_occupancy_type := selected_occupancy_type s;
         output_row := output_row s; successful_rows := successful_rows s;
         error_rows := error_rows s; duplicate_log := v;
         verification_passed := verification_passed s;
         validation_errors := validation_errors s; next_step := next_step s;
         error_message := error_message s |}
  | U_verification_passed v =>
      {| csv_rows := csv_rows s; current_row_index := current_row_index s;
         current_row := current_row s; places_result := places_result s;
         places_found := places_found s;
         standardized_name := standardized_name s;
         standardized_address := standardized_address s;
         latitude := latitude s; longitude := longitude s;
         places_type := places_type s;
         existing_premises := existing_premises s;
         duplicate_found := duplicate_found s;
         confidence_score := confidence_score s;
         matched_premise_id := matched_premise_id s; state_id := state_id s;
         state_code := state_code s;
         occupancy_type_options := occupancy_type_options s;
         selected_occupancy_type := selected_occupancy_type s;
         output_row := output_row s; successful_rows := successful_rows s;
         error_rows := error_rows s; duplicate_log := duplicate_log s;
         verification_passed := v; validation_errors := validation_errors s;
         next_step := next_step s; error_message := error_message s |}
  | U_validation_errors v =>
      {| csv_rows := csv_rows s; current_row_index := current_row_index s;
         current_row := current_row s; places_result := places_result s;
         places_found := places_found s;
         standardized_name := standardized_name s;
         standardized_address := standardized_address s;
         latitude := latitude s; longitude := longitude s;
         places_type := places_type s;
         existing_premises := existing_premises s;
         duplicate_found := duplicate_found s;
         confidence_score := confidence_score s;
         matched_premise_id := matched_premise_id s; state_id := state_id s;
         state_code := state_code s;
         occupancy_type_options := occupancy_type_options s;
         selected_occupancy_type := selected_occupancy_type s;
         output_row := output_row s; successful_rows := successful_rows s;
         error_rows := error_rows s; duplicate_log := duplicate_log s;
         verification_passed := verification_passed s;
         validation_errors := v; next_step := next_step s;
         error_message := error_message s |}
  | U_next_step v =>
      {| csv_rows := csv_rows s; current_row_index := current_row_index s;
         current_row := current_row s; places_result := places_result s;
         places_found := places_found s;
         standardized_name := standardized_name s;
         standardized_address := standardized_address s;
         latitude := latitude s; longitude := longitude s;
         places_type := places_type s;
         existing_premises := existing_premises s;
         duplicate_found := duplicate_found s;
         confidence_score := confidence_score s;
         matched_premise_id := matched_premise_id s; state_id := state_id s;
         state_code := state_code s;
         occupancy_type_options := occupancy_type_options s;
         selected_occupancy_type := selected_occupancy_type s;
         output_row := output_row s; successful_rows := successful_rows s;
         error_rows := error_rows s; duplicate_log := duplicate_log s;
         verification_passed := verification_passed s;
         validation_errors := validation_errors s; next_step := v;
         error_message := error_message s |}
  | U_error_message v =>
      {| csv_rows := csv_rows s; current_row_index := current_row_index s;
         current_row := current_row s; places_result := places_result s;
         places_found := places_found s;
         standardized_name := standardized_name s;
         standardized_address := standardized_address s;
         latitude := latitude s; longitude := longitude s;
         places_type := places_type s;
         existing_premises := existing_premises s;
         duplicate_found := duplicate_found s;
         confidence_score := confidence_score s;
         matched_premise_id := matched_premise_id s; state_id := state_id s;
         state_code := state_code s;
         occupancy_type_options := occupancy_type_options s;
         selected_occupancy_type := selected_occupancy_type s;
         output_row := output_row s; successful_rows := successful_rows s;
         error_rows := error_rows s; duplicate_log := duplicate_log s;
         verification_passed := verification_passed s;
         validation_errors := validation_errors s; next_step := next_step s;
         error_message := v |}
  end.

(** Merging a node's update into the state, key by key. *)
Definition apply_update (u : Update) (s : PremiseState) : PremiseState :=
  fold_left (fun acc f => apply_field f acc) u s.

(** ** Call log of the external collaborators *)

Inductive Call :=
| Call_geocode_address (address city state : string)
| Call_search_place (query : string) (lat lng : Q)
| Call_get_state_by_code (code : string)
| Call_get_state_by_name (name : string)
| Call_query_premises_by_location (lat lng : Q) (sid : option Z) (radius : Q)
| Call_get_occupancy_types_by_state (code : string)
| Call_score_duplicate_confidence (new_record : NewRecord) (existing : Premise)
| Call_classify_occupancy_type (ptype : option string) (business_name : string)
                               (options : list OccupancyType).

(** A computation that calls collaborators: its value and the calls it made,
    oldest first. *)
Definition Ext (A : Type) : Type := A * list Call.

Definition ret {A} (a : A) : Ext A := (a, []).

Definition bind {A B} (m : Ext A) (f : A -> Ext B) : Ext B :=
  let (a, l) := m in let (b, l') := f a in (b, l ++ l').

Definition call {A} (c : Call) (answer : A) : Ext A := (answer, [c]).

Notation "x <- m ;; k" := (bind m (fun x => k))
  (at level 61, m at next level, right associativity).

Definition is_query_premises (c : Call) : bool :=
  match c with Call_query_premises_by_location _ _ _ _ => true | _ => false end.

(** ** Truth values of optional numbers *)

(** [bool(x)] for an [Optional[float]]: [None] and zero are falsy. *)
Definition truthy_float (x : option Q) : bool :=
  match x with
  | Some q => negb (Qeq_bool q 0)
  | None => false
  end.

(** [bool(x)] for an [Optional[str]]. *)
Definition truthy_opt (x : option string) : bool :=
  match x with
  | Some s => Py.truthy s
  | None => false
  end.

(** [str(x)] for an [Optional[int]]. *)
Definition str_opt_int (x : option Z) : string :=
  match x with
  | Some z => Py.str_int z
  | None => "None"
  end.

(** ** [graph/nodes/parse_row.py] *)

(** One turn of the loop over [raw_row.keys()]. *)
Definition normalize_field (normalized_row : Row) (key value : string) : Row :=
  let key_lower := Py.strip (Py.lower key) in
  if Py.any_in ["premise_name"; "business_name"; "company_name";
                "facility_name"; "location_name"] key_lower
     || (String.eqb key_lower "name" || String.eqb key_lower "business")
  then dset "name" (Py.strip value) normalized_row
  else if Py.any_in ["address"; "street"; "location"] key_lower
          && negb (Py.contains "name" key_lower)
  then dset "address" (Py.strip value) normalized_row
  else if Py.any_in ["city"; "municipality"; "town"] key_lower
  then dset "city" (Py.strip value) normalized_row
  else if Py.contains "state" key_lower || String.eqb key_lower "st"
  then dset "state" (Py.strip value) normalized_row
  else if Py.contains "postal" key_lower || Py.contains "zip" key_lower
  then dset "postal_code" (Py.strip value) normalized_row
  else normalized_row.

(** The field normalizer: the loop, then the five [setdefault]s. *)
Definition normalize_row (raw_row : RawRow) : Row :=
  let normalized_row :=
    fold_left (fun acc kv => normalize_field acc (fst kv) (snd kv)) raw_row [] in
  setdefault "postal_code" ""
    (setdefault "state" ""
      (setdefault "city" ""
        (setdefault "address" ""
          (setdefault "name" "" normalized_row)))).

Definition parse_row_node (s : PremiseState) : Update :=
  match nth_error (csv_rows s) (current_row_index s) with
  | None =>
      (* current_index >= len(csv_rows) *)
      [U_next_step "write_output"; U_error_message None]
  | Some raw_row =>
      [U_current_row (normalize_row raw_row);
       U_current_row_index (current_row_index s);
       U_next_step "places_search";
       U_error_message None]
  end.

(** ** [graph/nodes/error_handler.py] *)

(** [{**row, 'error_reason': message}]. *)
Definition with_error_reason (row : dict string) (message : option string)
  : ErrorEntry :=
  dset "error_reason" message (map (fun kv => (fst kv, Some (snd kv))) row).

Definition error_handler_node (s : PremiseState) : Update :=
  let error_entry := with_error_reason (current_row s) (error_message s) in
  [U_error_rows (error_rows s ++ [error_entry]);
   U_next_step "next_row";
   U_error_message None].

(** ** [graph/nodes/log_duplicate.py] *)

Definition log_duplicate_node (s : PremiseState) : Update :=
  let duplicate_entry :=
    {| source_name := dget_or "name" "" (current_row s);
       source_address := dget_or "address" "" (current_row s);
       dup_standardized_name := standardized_name s;
       dup_matched_premise_id := matched_premise_id s;
       dup_confidence_score := confidence_score s;
       reason := ("High confidence match (score: "
                  ++ str_opt_int (confidence_score s) ++ ")")%string |} in
  [U_duplicate_log (duplicate_log s ++ [duplicate_entry]);
   U_next_step "next_row";
   U_error_message None].

(** ** [graph/nodes/next_row.py] *)

Definition next_row_node (s : PremiseState) : Update :=
  [U_current_row_index (current_row_index s + 1);
   U_current_row [];
   U_places_result None;
   U_places_found false;
   U_existing_premises [];
   U_confidence_score None;
   U_matched_premise_id None;
   U_next_step "parse_row";
   U_error_message None].

(** ** [graph/nodes/write_output.py]

    The three files are written from the accumulators, which the node only
    reads; its update of the state is this one. *)

Definition write_output_node (s : PremiseState) : Update :=
  [U_next_step "END"; U_error_message None].

(** ** [GooglePlacesTool.parse_address_components] *)

Definition parse_component (parsed : dict string) (component : AddressComponent)
  : dict string :=
  let types := ac_types component in
  if Py.mem "street_number" types
  then dset "street_number" (ac_long_name component) parsed
  else if Py.mem "route" types
  then dset "route" (ac_long_name component) parsed
  else if Py.mem "locality" types
  then dset "city" (ac_long_name component) parsed
  else if Py.mem "administrative_area_level_1" types
  then dset "state_code" (ac_short_name component)
         (dset "state" (ac_long_name component) parsed)
  else if Py.mem "postal_code" types
  then dset "postal_code" (ac_long_name component) parsed
  else parsed.

Definition parse_address_components (address_components : list AddressComponent)
  : dict string :=
  let parsed := fold_left parse_component address_components [] in
  let street_num := dget_or "street_number" "" parsed in
  let route := dget_or "route" "" parsed in
  if Py.truthy street_num && Py.truthy route
  then dset "address_line_1" (street_num ++ " " ++ route)%string parsed
  else if Py.truthy route
  then dset "address_line_1" route parsed
  else dset "address_line_1" "" parsed.

(** ** [graph/nodes/standardize.py] *)

(** The branch taken when identity resolution supplied a result. *)
Definition standardize_with_places (current_row : Row) (places_result : PlaceResult)
  : string * dict string :=
  let places_name := Py.strip (p_name places_result) in
  let original_name := Py.strip (dget_or "name" "" current_row) in
  let standardized_name :=
    if Py.truthy places_name && Py.starts_with_number places_name
    then (if Py.truthy original_name then Py.title original_name else places_name)
    else (if Py.truthy places_name then places_name else Py.title original_name) in
  let standardized_name := Py.collapse_spaces standardized_name in
  let parsed_address :=
    parse_address_components (p_address_components places_result) in
  let formatted_addr := p_formatted_address places_result in
  let parsed_address :=
    if negb (truthy_opt (dget "address_line_1" parsed_address))
    then dset "address_line_1"
           (if Py.truthy formatted_addr then Py.before_comma formatted_addr else "")
           parsed_address
    else parsed_address in
  (standardized_name,
   [("address_line_1",
     dget_or "address_line_1" (dget_or "address" "" current_row) parsed_address);
    ("city", dget_or "city" (dget_or "city" "" current_row) parsed_address);
    ("state", dget_or "state" (dget_or "state" "" current_row) parsed_address);
    ("state_code",
     dget_or "state_code" (dget_or "state" "" current_row) parsed_address);
    ("postal_code",
     dget_or "postal_code" (dget_or "postal_code" "" current_row) parsed_address)]).

(** The branch taken otherwise: title-cased user name, user address fields
    passed through. *)
Definition standardize_fallback (current_row : Row) : string * dict string :=
  let standardized_name := Py.title (dget_or "name" "" current_row) in
  let standardized_name := Py.collapse_spaces standardized_name in
  (standardized_name,
   [("address_line_1", dget_or "address" "" current_row);
    ("city", dget_or "city" "" current_row);
    ("state", dget_or "state" "" current_row);
    ("state_code", dget_or "state" "" current_row);
    ("postal_code", dget_or "postal_code" "" current_row)]).

(** Which branch [standardize_node] takes: [if places_found and
    places_result]. *)
Definition standardize_branch (s : PremiseState) : option PlaceResult :=
  if places_found s then places_result s else None.

Definition standardize_node (s : PremiseState) : Update :=
  let '(standardized_name, standardized_address) :=
    match standardize_branch s with
    | Some places_result => standardize_with_places (current_row s) places_result
    | None => standardize_fallback (current_row s)
    end in
  [U_standardized_name standardized_name;
   U_standardized_address standardized_address;
   U_next_step "database_query";
   U_error_message None].

(** ** Parsed floats *)

(** The value of [float(x)]: a finite number or one of the three others. *)
Inductive pyfloat :=
| PFin (q : Q)
| PInf
| PNegInf
| PNaN.

(** [lo <= x <= hi]. *)
Definition in_range (lo hi : Q) (x : pyfloat) : bool :=
  match x with
  | PFin q => Qle_bool lo q && Qle_bool q hi
  | _ => false
  end.

(** [x == 0]. *)
Definition is_zero (x : pyfloat) : bool :=
  match x with
  | PFin q => Qeq_bool q 0
  | _ => false
  end.

(** ** The graph's nodes *)

Inductive Node :=
| N_parse_row
| N_places_search
| N_standardize
| N_database_query
| N_confidence_scoring
| N_occupancy_classification
| N_format_output
| N_verify_output
| N_log_duplicate
| N_error_handler
| N_next_row
| N_write_output
| N_END.

Definition Node_eqb (a b : Node) : bool :=
  match a, b with
  | N_parse_row, N_parse_row
  | N_places_search, N_places_search
  | N_standardize, N_standardize
  | N_database_query, N_database_query
  | N_confidence_scoring, N_confidence_scoring
  | N_occupancy_classification, N_occupancy_classification
  | N_format_output, N_format_output
  | N_verify_output, N_verify_output
  | N_log_duplicate, N_log_duplicate
  | N_error_handler, N_error_handler
  | N_next_row, N_next_row
  | N_write_output, N_write_output
  | N_END, N_END => true
  | _, _ => false
  end.

(** ** [graph/nodes/places_search.py]: constants and pure parts *)

Definition VALID_US_STATE_CODES : list string :=
  ["AL"; "AK"; "AZ"; "AR"; "CA"; "CO"; "CT"; "DE"; "FL"; "GA";
   "HI"; "ID"; "IL"; "IN"; "IA"; "KS"; "KY"; "LA"; "ME"; "MD";
   "MA"; "MI"; "MN"; "MS"; "MO"; "MT"; "NE"; "NV"; "NH"; "NJ";
   "NM"; "NY"; "NC"; "ND"; "OH"; "OK"; "OR"; "PA"; "RI"; "SC";
   "SD"; "TN"; "TX"; "UT"; "VT"; "VA"; "WA"; "WV"; "WI"; "WY";
   "DC"].

Definition NON_BUSINESS_TYPES : list string :=
  ["street_address"; "route"; "intersection"; "political";
   "country"; "administrative_area_level_1"; "administrative_area_level_2";
   "administrative_area_level_3"; "administrative_area_level_4";
   "administrative_area_level_5"; "locality"; "sublocality";
   "neighborhood"; "premise"; "subpremise"; "postal_code";
   "natural_feature"; "airport"; "park"; "point_of_interest"].

(** The update of the three rejecting returns. *)
Definition places_rejected (message : string) : Update :=
  [U_places_result None;
   U_places_found false;
   U_latitude None;
   U_longitude None;
   U_places_type None;
   U_next_step "error_handler";
   U_error_message (Some message)].

(** The synthetic address-only result: the user's name on the geocoded
    address and coordinates, typed [premise]. *)
Definition address_only_result (name : string) (geocode_result : GeocodeResult)
  : PlaceResult :=
  {| p_place_id := None;
     p_name := name;
     p_formatted_address := g_formatted_address geocode_result;
     p_latitude := Some (g_latitude geocode_result);
     p_longitude := Some (g_longitude geocode_result);
     p_types := ["premise"];
     p_address_components := g_address_components geocode_result |}.

(** The update of the two returns that use geocoded data only. *)
Definition places_address_only (name : string) (geocode_result : GeocodeResult)
  : Update :=
  [U_places_result (Some (address_only_result name geocode_result));
   U_places_found true;
   U_latitude (Some (g_latitude geocode_result));
   U_longitude (Some (g_longitude geocode_result));
   U_places_type (Some "premise");
   U_next_step "standardize";
   U_error_message None].

(** The free-text query of the place search. *)
Definition search_query (name address city state_code : string) : string :=
  (if Py.truthy name
   then name ++ ", " ++ address ++ ", " ++ city ++ ", " ++ state_code
   else address ++ ", " ++ city ++ ", " ++ state_code)%string.

(** [result_types and result_types.issubset(NON_BUSINESS_TYPES)]. *)
Definition address_only_types (types : list string) : bool :=
  match types with
  | [] => false
  | _ => forallb (fun t => Py.mem t NON_BUSINESS_TYPES) types
  end.

(** [result.get('types', ['establishment'])[0] if result.get('types') else
    'establishment']. *)
Definition first_type (types : list string) : string :=
  match types with
  | t :: _ => t
  | [] => "establishment"
  end.

(** ** [graph/nodes/format_output.py] and [graph/nodes/verify_output.py]:
    pure parts *)

(** [not value or str(value).strip() == '']. *)
Definition is_blank (value : string) : bool :=
  negb (Py.truthy value) || String.eqb (Py.strip value) "".

(** The [required_fields] dictionary of [verify_output_node], in its order. *)
Definition required_fields (output_row : OutputRow) : list (string * string) :=
  [("Premise Name", Premise_Name output_row);
   ("Address Line 1", Address_Line_1 output_row);
   ("City", City output_row);
   ("State", State output_row);
   ("Postal Code", Postal_Code output_row);
   ("Status", Status output_row);
   ("Latitude", Latitude output_row);
   ("Longitude", Longitude output_row);
   ("Premise Occupancy", Premise_Occupancy output_row)].

Definition missing_field_errors (output_row : OutputRow) : list string :=
  map (fun fv => ("Missing required field: " ++ fst fv)%string)
      (filter (fun fv => is_blank (snd fv)) (required_fields output_row)).

Definition state_errors (output_row : OutputRow) : list string :=
  let state := State output_row in
  if Py.truthy state && negb (Py.match_state_code state)
  then [("Invalid state code: " ++ state ++ " (must be 2 uppercase letters)")%string]
  else [].

Definition postal_errors (output_row : OutputRow) : list string :=
  let postal := Postal_Code output_row in
  if Py.truthy postal && negb (Py.match_zip postal)
  then [("Invalid postal code format: " ++ postal)%string]
  else [].

Definition status_errors (output_row : OutputRow) : list string :=
  let status := Status output_row in
  if negb (Py.mem status ["Active"; "Inactive"])
  then [("Invalid status: " ++ status ++ " (must be 'Active' or 'Inactive')")%string]
  else [].

Definition country_errors (output_row : OutputRow) : list string :=
  let country := Country output_row in
  let country_short := Country_ShortName output_row in
  (if Py.truthy country && negb (String.eqb country "USA")
   then [("Invalid country: " ++ country ++ " (must be 'USA')")%string]
   else [])
  ++ (if Py.truthy country_short && negb (String.eqb country_short "US")
      then [("Invalid country short name: " ++ country_short
             ++ " (must be 'US')")%string]
      else []).

(** ** The external collaborators

    The interface the nodes consume: [GooglePlacesTool], [LIVDatabaseTool],
    [LLMConfidenceTool], [LLMOccupancyTool], and Python's [float]s: their
    conversions from and to [str] and their arithmetic. *)

Class Collaborators := {
  geocode_address : string -> string -> string -> option GeocodeResult;
  search_place : string -> Q -> Q -> option PlaceResult;
  get_state_by_code : string -> option StateRecord;
  get_state_by_name : string -> option StateRecord;
  query_premises_by_location : Q -> Q -> option Z -> Q -> list Premise;
  get_occupancy_types_by_state : string -> list OccupancyType;
  score_duplicate_confidence : NewRecord -> Premise -> Z;
  classify_occupancy_type :
    option string -> string -> list OccupancyType -> option Z;
  (** [str(x)] for a [float] *)
  str_float : Q -> string;
  (** [float(s)] for a [str]; [None] is [ValueError] *)
  parse_float : string -> option pyfloat;
  (** [x - y], [x + y] and [x ** y] on [float]s, as the platform rounds
      them, where the result is finite *)
  float_sub : Q -> Q -> Q;
  float_add : Q -> Q -> Q;
  float_pow : Q -> Q -> Q
}.

(** [str(x)] for the value of [float(...)], as the f-strings print it. *)
Definition str_pyfloat `{Collaborators} (x : pyfloat) : string :=
  match x with
  | PFin q => str_float q
  | PInf => "inf"
  | PNegInf => "-inf"
  | PNaN => "nan"
  end.

Section Nodes.

Context `{Collaborators}.

(** *** The distance check of [places_search_node] *)

(** The [float] that the literal [0.05] denotes. *)
Definition float_0_05 : Q := (3602879701896397 # 72057594037927936)%Q.

(** [((places_lat - geocode_lat) ** 2 + (places_lng - geocode_lng) ** 2)
    ** 0.5], in [float] arithmetic. *)
Definition distance (places_lat places_lng geocode_lat geocode_lng : Q) : Q :=
  float_pow
    (float_add (float_pow (float_sub places_lat geocode_lat) 2%Q)
               (float_pow (float_sub places_lng geocode_lng) 2%Q))
    (1 # 2)%Q.

(** [distance > 0.05]. *)
Definition too_far (places_lat places_lng geocode_lat geocode_lng : Q) : bool :=
  negb (Qle_bool (distance places_lat places_lng geocode_lat geocode_lng)
                 float_0_05).

(** The distance check on the candidate: it runs only [if places_lat and
    places_lng], and drops a candidate that is too far. *)
Definition drop_distant (result : option PlaceResult) (geocode_result : GeocodeResult)
  : option PlaceResult :=
  match result with
  | Some r =>
      match p_latitude r, p_longitude r with
      | Some places_lat, Some places_lng =>
          if truthy_float (Some places_lat) && truthy_float (Some places_lng)
          then if too_far places_lat places_lng
                          (g_latitude geocode_result) (g_longitude geocode_result)
               then None
               else Some r
          else Some r
      | _, _ => Some r
      end
  | None => None
  end.

(** *** [places_search_node] *)

Definition places_search_node (s : PremiseState) : Ext Update :=
  let current_row := current_row s in
  let address := dget_or "address" "" current_row in
  let city := dget_or "city" "" current_row in
  let state_code := Py.upper (dget_or "state" "" current_row) in
  if negb (Py.truthy address) || negb (Py.truthy city) || negb (Py.truthy state_code)
  then ret (places_rejected "Incomplete address information")
  else if negb (Py.mem state_code VALID_US_STATE_CODES)
  then ret (places_rejected ("Invalid US state code: " ++ state_code)%string)
  else
    geocode_result <-
      call (Call_geocode_address address city state_code)
           (geocode_address address city state_code) ;;
    match geocode_result with
    | None =>
        ret (places_rejected
               ("Address not found: " ++ address ++ ", " ++ city
                ++ ", " ++ state_code)%string)
    | Some geocode_result =>
        let name := dget_or "name" "" current_row in
        let query := search_query name address city state_code in
        result <-
          call (Call_search_place query (g_latitude geocode_result)
                                  (g_longitude geocode_result))
               (search_place query (g_latitude geocode_result)
                             (g_longitude geocode_result)) ;;
        match drop_distant result geocode_result with
        | Some result =>
            if address_only_types (p_types result)
            then ret (places_address_only name geocode_result)
            else
              ret [U_places_result (Some result);
                   U_places_found true;
                   U_latitude (Some (g_latitude geocode_result));
                   U_longitude (Some (g_longitude geocode_result));
                   U_places_type (Some (first_type (p_types result)));
                   U_next_step "standardize";
                   U_error_message None]
        | None => ret (places_address_only name geocode_result)
        end
    end.

(** *** [database_query_node] *)

(** The state identifier: by code, then by full name when the code misses. *)
Definition lookup_state_id (standardized_address : dict string) (state_code : string)
  : Ext (option Z) :=
  if Py.truthy state_code
  then
    state_record <-
      call (Call_get_state_by_code state_code) (get_state_by_code state_code) ;;
    state_record <-
      match state_record with
      | Some r => ret (Some r)
      | None =>
          let state_name := dget_or "state" "" standardized_address in
          if Py.truthy state_name
          then call (Call_get_state_by_name state_name)
                    (get_state_by_name state_name)
          else ret None
      end ;;
    ret (option_map st_id state_record)
  else ret None.

(** The spatial query, made only [if latitude and longitude]. *)
Definition nearby_premises (latitude longitude : option Q) (sid : option Z)
  : Ext (list Premise) :=
  match latitude, longitude with
  | Some lat, Some lng =>
      if truthy_float (Some lat) && truthy_float (Some lng)
      then call (Call_query_premises_by_location lat lng sid (1 # 1000))
                (query_premises_by_location lat lng sid (1 # 1000))
      else ret []
  | _, _ => ret []
  end.

Definition database_query_node (s : PremiseState) : Ext Update :=
  let standardized_address := standardized_address s in
  let state_code := dget_or "state_code" "" standardized_address in
  sid <- lookup_state_id standardized_address state_code ;;
  existing_premises <- nearby_premises (latitude s) (longitude s) sid ;;
  match existing_premises with
  | _ :: _ =>
      ret [U_existing_premises existing_premises;
           U_duplicate_found true;
           U_state_id sid;
           U_state_code (Some state_code);
           U_next_step "confidence_scoring";
           U_error_message None]
  | [] =>
      ret [U_existing_premises [];
           U_duplicate_found false;
           U_state_id sid;
           U_state_code (Some state_code);
           U_next_step "occupancy_classification";
           U_error_message None]
  end.

(** *** [confidence_scoring_node] *)

(** The [new_record] of the comparison: the user's own name when there is
    one, the standardized one otherwise. *)
Definition new_record_of (s : PremiseState) : NewRecord :=
  let original_name := Py.strip (dget_or "name" "" (current_row s)) in
  {| nr_name := if Py.truthy original_name then original_name
                else standardized_name s;
     nr_address_line_1 := dget_or "address_line_1" "" (standardized_address s);
     nr_city := dget_or "city" "" (standardized_address s);
     nr_state := dget_or "state" "" (standardized_address s) |}.

Definition confidence_scoring_node (s : PremiseState) : Ext Update :=
  match existing_premises s with
  | [] =>
      ret [U_confidence_score None;
           U_matched_premise_id None;
           U_next_step "occupancy_classification";
           U_error_message None]
  | existing :: _ =>
      let new_record := new_record_of s in
      score <-
        call (Call_score_duplicate_confidence new_record existing)
             (score_duplicate_confidence new_record existing) ;;
      let next :=
        if (8 <=? score)%Z then "log_duplicate" else "occupancy_classification" in
      ret [U_confidence_score (Some score);
           U_matched_premise_id (prem_id existing);
           U_next_step next;
           U_error_message None]
  end.

(** *** [occupancy_classification_node] *)

(** The first option whose identifier is the selected one. *)
Definition find_occupancy (selected_id : Z) (options : list OccupancyType)
  : option OccupancyType :=
  find (fun opt => Z.eqb (occupancy_type_id opt) selected_id) options.

Definition occupancy_classification_node (s : PremiseState) : Ext Update :=
  occupancy_options <-
    match state_code s with
    | Some code =>
        if Py.truthy code
        then call (Call_get_occupancy_types_by_state code)
                  (get_occupancy_types_by_state code)
        else ret []
    | None => ret []
    end ;;
  match occupancy_options with
  | [] =>
      ret [U_occupancy_type_options [];
           U_selected_occupancy_type None;
           U_next_step "format_output";
           U_error_message (Some "No occupancy types available for state")]
  | _ :: _ =>
      selected_id <-
        call (Call_classify_occupancy_type (places_type s) (standardized_name s)
                                           occupancy_options)
             (classify_occupancy_type (places_type s) (standardized_name s)
                                      occupancy_options) ;;
      let selected_occupancy :=
        match selected_id with
        | Some i => if Z.eqb i 0 then None else find_occupancy i occupancy_options
        | None => None
        end in
      ret [U_occupancy_type_options occupancy_options;
           U_selected_occupancy_type selected_occupancy;
           U_next_step "format_output";
           U_error_message None]
  end.

(** *** [format_output_node] *)

(** [str(x) if x else '']. *)
Definition format_coordinate (x : option Q) : string :=
  match x with
  | Some q => if truthy_float (Some q) then str_float q else ""
  | None => ""
  end.

Definition build_output_row (s : PremiseState) : OutputRow :=
  {| Id := "";
     Reference_Number := "";
     Unique_Reference_Number := "";
     Building_Number := "";
     Premise_Name := standardized_name s;
     Address_Line_1 := dget_or "address_line_1" "" (standardized_address s);
     Address_Line_2 := "";
     Postal_Code := dget_or "postal_code" "" (standardized_address s);
     Status := "Active";
     AHJ_Name := "";
     AHJ_Geofence_Name := "";
     Record_Type := "Standard";
     Country := "USA";
     State := if truthy_opt (state_code s)
              then match state_code s with Some c => c | None => "" end
              else dget_or "state_code" "" (standardized_address s);
     City := dget_or "city" "" (standardized_address s);
     System_Type := "";
     Internal_System_Type := "";
     Preferred_Communication_Type := "Email";
     Parent_Premises := "";
     Premise_Occupancy :=
       match selected_occupancy_type s with
       | Some o => occupancy_type_name o
       | None => ""
       end;
     Contact_Name := "";
     Contact_Email := "";
     Contact_Number := "";
     Latitude := format_coordinate (latitude s);
     Longitude := format_coordinate (longitude s);
     Fire_Station_Number := "";
     Has_Knox_Box := "No";
     Knox_Box_Location := "";
     Knox_Box_Description := "";
     Enable_Geofence_Auto_Assign := "No";
     Country_ShortName := "US";
     Parent_Reference := "";
     Labels := "";
     _confidence_score := confidence_score s;
     _duplicate_checked :=
       match confidence_score s with Some _ => true | None => false end |}.

Definition format_output_node (s : PremiseState) : Update :=
  [U_output_row (Some (build_output_row s));
   U_next_step "verify_output";
   U_error_message None].

(** *** [verify_output_node] *)

(** The [try] block: both conversions, then the three checks; a conversion
    that raises leaves the one message of the [except] clause. *)
Definition coordinate_errors (output_row : OutputRow) : list string :=
  match parse_float (Latitude output_row), parse_float (Longitude output_row) with
  | Some lat, Some lng =>
      (if negb (in_range (-90) 90 lat)
       then [("Invalid latitude: " ++ str_pyfloat lat ++ " (must be -90 to 90)")%string]
       else [])
      ++ (if negb (in_range (-180) 180 lng)
          then [("Invalid longitude: " ++ str_pyfloat lng
                 ++ " (must be -180 to 180)")%string]
          else [])
      ++ (if is_zero lat && is_zero lng
          then ["Coordinates are 0,0 (likely invalid)"]
          else [])
  | _, _ => ["Latitude/Longitude must be valid numbers"]
  end.

(** The collected [validation_errors], in the order the checks run. *)
Definition collect_validation_errors (output_row : OutputRow) : list string :=
  missing_field_errors output_row
  ++ coordinate_errors output_row
  ++ state_errors output_row
  ++ postal_errors output_row
  ++ status_errors output_row
  ++ country_errors output_row.

(** [None] is the [AttributeError] of [output_row.get] on a state that holds
    no output record. *)
Definition verify_output_node (s : PremiseState) : option Update :=
  match output_row s with
  | None => None
  | Some output_row =>
      let validation_errors := collect_validation_errors output_row in
      match validation_errors with
      | _ :: _ =>
          let error_message := Py.join "; " validation_errors in
          Some [U_verification_passed false;
                U_validation_errors validation_errors;
                U_next_step "error_handler";
                U_error_message
                  (Some ("Output validation failed: " ++ error_message)%string)]
      | [] =>
          Some [U_successful_rows (successful_rows s ++ [output_row]);
                U_verification_passed true;
                U_validation_errors [];
                U_next_step "next_row";
                U_error_message None]
      end
  end.

End Nodes.

(** ** [graph/nodes/routers.py] *)

Definition route_after_parse (s : PremiseState) : Node :=
  if String.eqb (next_step s) "write_output" then N_write_output
  else N_places_search.

Definition route_after_places (s : PremiseState) : Node :=
  if String.eqb (next_step s) "standardize" then N_standardize
  else N_error_handler.

Definition route_after_database (s : PremiseState) : Node :=
  if String.eqb (next_step s) "confidence_scoring" then N_confidence_scoring
  else N_occupancy_classification.

Definition route_after_confidence (s : PremiseState) : Node :=
  if String.eqb (next_step s) "log_duplicate" then N_log_duplicate
  else N_occupancy_classification.

Definition route_after_verify (s : PremiseState) : Node :=
  if String.eqb (next_step s) "next_row" then N_next_row
  else N_error_handler.

Definition route_next_row (s : PremiseState) : Node :=
  let csv_rows := csv_rows s in
  let current_index := current_row_index s in
  let next_index := current_index + 1 in
  if (next_index <? List.length csv_rows)%nat then N_parse_row else N_write_output.

(** ** [graph/orchestrator.py] *)

(** The edges of [create_premises_graph]: the node that follows [n].  A
    router reads the state that already holds [n]'s update; the five routers
    that test [next_step] depend on it, for [next_step] is written by the
    node they follow. *)
Definition edge (n : Node) (s : PremiseState) : Node :=
  match n with
  | N_parse_row => route_after_parse s
  | N_places_search => route_after_places s
  | N_database_query => route_after_database s
  | N_confidence_scoring => route_after_confidence s
  | N_verify_output => route_after_verify s
  | N_next_row => route_next_row s
  | N_standardize => N_database_query
  | N_occupancy_classification => N_format_output
  | N_format_output => N_verify_output
  | N_error_handler => N_next_row
  | N_log_duplicate => N_next_row
  | N_write_output => N_END
  | N_END => N_END
  end.

(** The state [run_premises_processing] starts from. *)
Definition initial_state (csv_rows : list RawRow) : PremiseState :=
  {| csv_rows := csv_rows;
     current_row_index := 0;
     current_row := [];
     places_result := None;
     places_found := false;
     standardized_name := "";
     standardized_address := [];
     latitude := None;
     longitude := None;
     places_type := None;
     existing_premises := [];
     duplicate_found := false;
     confidence_score := None;
     matched_premise_id := None;
     state_id := None;
     state_code := None;
     occupancy_type_options := [];
     selected_occupancy_type := None;
     output_row := None;
     successful_rows := [];
     error_rows := [];
     duplicate_log := [];
     verification_passed := false;
     validation_errors := [];
     next_step := "parse_row";
     error_message := None |}.

(** How a run ends: at the stopping node, by an exception of a node, or
    with the step budget used up. *)
Inductive Outcome :=
| Finished (s : PremiseState) (log : list Call)
| Raised
| OutOfFuel.

Section Engine.

Context `{Collaborators}.

(** The function registered for a node ([workflow.add_node]); [None] when it
    raises.  [END] has no function. *)
Definition run_node (n : Node) (s : PremiseState) : option (Ext Update) :=
  match n with
  | N_parse_row => Some (ret (parse_row_node s))
  | N_places_search => Some (places_search_node s)
  | N_standardize => Some (ret (standardize_node s))
  | N_database_query => Some (database_query_node s)
  | N_confidence_scoring => Some (confidence_scoring_node s)
  | N_occupancy_classification => Some (occupancy_classification_node s)
  | N_format_output => Some (ret (format_output_node s))
  | N_verify_output => option_map ret (verify_output_node s)
  | N_log_duplicate => Some (ret (log_duplicate_node s))
  | N_error_handler => Some (ret (error_handler_node s))
  | N_next_row => Some (ret (next_row_node s))
  | N_write_output => Some (ret (write_output_node s))
  | N_END => Some (ret [])
  end.

(** One step of the graph: run the node, merge its update, follow the
    edge. *)
Definition step (n : Node) (s : PremiseState)
  : option (Node * PremiseState * list Call) :=
  match run_node n s with
  | Some (u, calls) =>
      let s' := apply_update u s in
      Some (edge n s', s', calls)
  | None => None
  end.

(** Stepping from [n] until a node that [stop] accepts is about to run. *)
Fixpoint run_until (stop : Node -> bool) (fuel : nat) (n : Node) (s : PremiseState)
  : Outcome :=
  if stop n then Finished s []
  else
    match fuel with
    | O => OutOfFuel
    | S fuel' =>
        match step n s with
        | None => Raised
        | Some (n', s', calls) =>
            match run_until stop fuel' n' s' with
            | Finished s'' log => Finished s'' (calls ++ log)
            | o => o
            end
        end
    end.

(** [graph.invoke(initial_state)]: from the entry point to [END]. *)
Definition run_premises_processing (fuel : nat) (csv_rows : list RawRow) : Outcome :=
  run_until (Node_eqb N_END) fuel N_parse_row (initial_state csv_rows).

(** The number of entries in the three accumulators. *)
Definition accumulated (s : PremiseState) : nat :=
  List.length (successful_rows s) + List.length (error_rows s)
  + List.length (duplicate_log s).

End Engine.

(** ** [graph/tools/llm_confidence.py] and [graph/tools/llm_occupancy.py]

    The two tools send a prompt to a language model and read a number off
    its reply.  The prompt is a text built from the tool's arguments, so the
    model is a function of these arguments here; its value is the content of
    the reply, or [None] when the call raises. *)

(** The digits at the head of [s]. *)
Fixpoint digit_run (s : string) : string :=
  match s with
  | EmptyString => EmptyString
  | String c r => if Py.is_digit c then String c (digit_run r) else EmptyString
  end.

(** [re.findall(r'\d+', s)[0]] when the list is not empty: the first maximal
    run of digits. *)
Fixpoint first_digits (s : string) : option string :=
  match s with
  | EmptyString => None
  | String c r =>
      if Py.is_digit c then Some (String c (digit_run r)) else first_digits r
  end.

(** The number that a run of digits writes. *)
Definition int_of_digits (d : string) : Z :=
  match NilZero.uint_of_string d with
  | Some u => Z.of_uint u
  | None => 0%Z
  end.

(** The limit on the length of a string that [int] converts
    ([sys.int_info.default_max_str_digits]). *)
Definition INT_MAX_STR_DIGITS : Z := 4300.

(** [int(d)] for a run of digits; [None] is the [ValueError] for a run that
    is longer than the limit. *)
Definition py_int (d : string) : option Z :=
  if (Z.of_nat (String.length d) <=? INT_MAX_STR_DIGITS)%Z
  then Some (int_of_digits d)
  else None.

Module LLMConfidenceTool.

(** [score_duplicate_confidence]: the first number of the reply, brought into
    1..10; 3 when the call raises, when the reply holds no number and when
    the conversion of the number raises. *)
Definition score_duplicate_confidence
    (llm : NewRecord -> Premise -> option string)
    (new_record : NewRecord) (existing_record : Premise) : Z :=
  match llm new_record existing_record with
  | Some content =>
      let score_text := Py.strip content in
      match first_digits score_text with
      | Some number =>
          match py_int number with
          | Some score =>
              if (score <? 1)%Z then 1%Z
              else if (10 <? score)%Z then 10%Z
              else score
          | None => 3%Z
          end
      | None => 3%Z
      end
  | None => 3%Z
  end.

End LLMConfidenceTool.

Module LLMOccupancyTool.

(** [classify_occupancy_type]: the first number of the reply when it is the
    identifier of an option, the identifier of the first option otherwise
    and when the [try] block raises; [None] without options. *)
Definition classify_occupancy_type
    (llm : option string -> string -> list OccupancyType -> option string)
    (places_type : option string) (business_name : string)
    (occupancy_options : list OccupancyType) : option Z :=
  match occupancy_options with
  | [] => None
  | first_option :: _ =>
      match llm places_type business_name occupancy_options with
      | Some content =>
          let response_text := Py.strip content in
          match first_digits response_text with
          | Some number =>
              match py_int number with
              | Some id =>
                  let valid_ids := map occupancy_type_id occupancy_options in
                  if existsb (Z.eqb id) valid_ids then Some id
                  else Some (occupancy_type_id first_option)
              | None => Some (occupancy_type_id first_option)
              end
          | None => Some (occupancy_type_id first_option)
          end
      | None => Some (occupancy_type_id first_option)
      end
  end.

End LLMOccupancyTool.

(** The collaborators [C] with the scorer and the classifier of the two
    tools, over the language models [scorer] and [classifier]. *)
Definition with_llm_tools (C : Collaborators)
    (scorer : NewRecord -> Premise -> option string)
    (classifier : option string -> string -> list OccupancyType -> option string)
  : Collaborators :=
  {| geocode_address := @geocode_address C;
     search_place := @search_place C;
     get_state_by_code := @get_state_by_code C;
     get_state_by_name := @get_state_by_name C;
     query_premises_by_location := @query_premises_by_location C;
     get_occupancy_types_by_state := @get_occupancy_types_by_state C;
     score_duplicate_confidence :=
       LLMConfidenceTool.score_duplicate_confidence scorer;
     classify_occupancy_type :=
       LLMOccupancyTool.classify_occupancy_type classifier;
     str_float := @str_float C;
     parse_float := @parse_float C;
     float_sub := @float_sub C;
     float_add := @float_add C;
     float_pow := @float_pow C |}.

(** ** The rows of [load_csv]

    [csv.DictReader] gives a row the headers as keys.  A line with fewer
    cells than the header has [None] for its missing cells, and a line with
    more has its surplus cells, as a list, under the key [None].  A
    [RawRow] is the row of a line with as many cells as the header. *)

Inductive CsvValue :=
| Cell (text : string)
| NoCell
| Surplus (cells : list string).

Definition CsvRow := list (option string * CsvValue).

(** [raw_row[key].strip()]; [None] is the [AttributeError] on a value that
    is not text. *)
Definition strip_cell (value : CsvValue) : option string :=
  match value with
  | Cell text => Some (Py.strip text)
  | NoCell | Surplus _ => None
  end.

(** One turn of the loop over [raw_row.keys()] in [parse_row_node], on a row
    as the reader yields it; [None] is the [AttributeError] of [key.lower()]
    on the key [None] and of [raw_row[key].strip()]. *)
Definition normalize_csv_field (normalized_row : Row) (key : option string)
    (value : CsvValue) : option Row :=
  match key with
  | None => None
  | Some key =>
      let key_lower := Py.strip (Py.lower key) in
      if Py.any_in ["premise_name"; "business_name"; "company_name";
                    "facility_name"; "location_name"] key_lower
         || (String.eqb key_lower "name" || String.eqb key_lower "business")
      then option_map (fun v => dset "name" v normalized_row) (strip_cell value)
      else if Py.any_in ["address"; "street"; "location"] key_lower
              && negb (Py.contains "name" key_lower)
      then option_map (fun v => dset "address" v normalized_row) (strip_cell value)
      else if Py.any_in ["city"; "municipality"; "town"] key_lower
      then option_map (fun v => dset "city" v normalized_row) (strip_cell value)
      else if Py.contains "state" key_lower || String.eqb key_lower "st"
      then option_map (fun v => dset "state" v normalized_row) (strip_cell value)
      else if Py.contains "postal" key_lower || Py.contains "zip" key_lower
      then option_map (fun v => dset "postal_code" v normalized_row)
                      (strip_cell value)
      else Some normalized_row
  end.

(** The loop of [parse_row_node] over the keys of the row. *)
Definition normalize_csv_loop (raw_row : CsvRow) (normalized_row : option Row)
  : option Row :=
  fold_left (fun acc kv =>
               match acc with
               | Some normalized_row =>
                   normalize_csv_field normalized_row (fst kv) (snd kv)
               | None => None
               end) raw_row normalized_row.

(** The field normalizer of [parse_row_node] on a row as the reader yields
    it: the loop, then the five [setdefault]s. *)
Definition normalize_csv_row (raw_row : CsvRow) : option Row :=
  match normalize_csv_loop raw_row (Some []) with
  | Some normalized_row =>
      Some (setdefault "postal_code" ""
             (setdefault "state" ""
               (setdefault "city" ""
                 (setdefault "address" ""
                   (setdefault "name" "" normalized_row)))))
  | None => None
  end.

(** The row that the reader yields for a line of as many cells as the
    header. *)
Definition text_row (raw_row : RawRow) : CsvRow :=
  map (fun kv => (Some (fst kv), Cell (snd kv))) raw_row.

(** ** The error file of [write_output_node]

    [csv.DictWriter(f, fieldnames=error_rows[0].keys())], [writeheader] and
    [writerows(error_rows)], when [error_rows] is not empty.  A file is its
    header and its lines, each a list of cells before quoting. *)

Inductive CsvFile :=
| NotWritten
| WriteRaised
| Written (header : list string) (lines : list (list string)).

Section DictWriter.

Context {V : Type}.

(** How the writer prints a value. *)
Variable cell : V -> string.

(** [DictWriter._dict_to_list]: [ValueError] for a key that is not a field
    name; the values of the field names in order, the empty string for a
    missing key. *)
Definition dict_to_list (fieldnames : list string) (rowdict : dict V)
  : option (list string) :=
  if forallb (fun k => Py.mem k fieldnames) (keys rowdict)
  then Some (map (fun key => match dget key rowdict with
                             | Some v => cell v
                             | None => ""
                             end) fieldnames)
  else None.

(** [DictWriter.writerows]. *)
Fixpoint writerows (fieldnames : list string) (rowdicts : list (dict V))
  : option (list (list string)) :=
  match rowdicts with
  | [] => Some []
  | rowdict :: rest =>
      match dict_to_list fieldnames rowdict with
      | Some line => option_map (cons line) (writerows fieldnames rest)
      | None => None
      end
  end.

(** [if rows: ... fieldnames = rows[0].keys() ... writer.writerows(rows)]. *)
Definition write_csv (rows : list (dict V)) : CsvFile :=
  match rows with
  | [] => NotWritten
  | first :: _ =>
      let fieldnames := keys first in
      match writerows fieldnames rows with
      | Some lines => Written fieldnames lines
      | None => WriteRaised
      end
  end.

End DictWriter.

(** The [csv] module writes [None] as the empty string. *)
Definition csv_cell (v : option string) : string :=
  match v with Some x => x | None => "" end.

(** [output/errors.csv] as [write_output_node] writes it. *)
Definition errors_csv (s : PremiseState) : CsvFile :=
  write_csv csv_cell (error_rows s).

(** ** [golden_set/evaluator.py]

    The validation of a test case's [checks] against the final state of a
    run, as [GoldenSetEvaluator.run_test_case] does it after the graph has
    returned.  The [checks] of the golden data are a dictionary read from a
    file; the keys the evaluator looks up are fields here, with the flags as
    booleans and the bounds as integers, and [chk_other] counts the keys it
    never looks up. *)

Module GoldenSetEvaluator.

Record Checks := {
  chk_places_found : option bool;
  chk_duplicate_detected : option bool;
  chk_confidence_score_min : option Z;
  chk_confidence_score_max : option Z;
  chk_in_errors : option bool;
  chk_in_duplicates_log : option bool;
  chk_in_processed : option bool;
  chk_other : nat
}.

Record TestResult := {
  passed : bool;
  checks_passed : nat;
  checks_total : nat;
  failures : list string
}.

(** [1] for a key that is present. *)
Definition present {A} (x : option A) : nat :=
  match x with Some _ => 1 | None => 0 end.

(** [len(checks)]. *)
Definition len_checks (checks : Checks) : nat :=
  present (chk_places_found checks)
  + present (chk_duplicate_detected checks)
  + present (chk_confidence_score_min checks)
  + present (chk_confidence_score_max checks)
  + present (chk_in_errors checks)
  + present (chk_in_duplicates_log checks)
  + present (chk_in_processed checks)
  + chk_other checks.

(** [str(b)] for a [bool]. *)
Definition str_bool (b : bool) : string := if b then "True" else "False".

(** [bool(l)] for a list. *)
Definition nonempty {A} (l : list A) : bool :=
  match l with [] => false | _ :: _ => true end.

(** [checks_passed] and [failures] as the checks go by. *)
Definition Tally := (nat * list string)%type.

(** One [if name in checks:] block that compares a flag. *)
Definition check_flag (name : string) (expected : option bool) (actual : bool)
    (tally : Tally) : Tally :=
  match expected with
  | None => tally
  | Some expected =>
      if Bool.eqb expected actual
      then (S (fst tally), snd tally)
      else (fst tally,
            snd tally
            ++ [(name ++ ": expected " ++ str_bool expected
                 ++ ", got " ++ str_bool actual)%string])
  end.

(** The flag that the evaluator compares with [duplicate_detected]. *)
Definition duplicate_detected (final_state : PremiseState) : bool :=
  match duplicate_log final_state with
  | _ :: _ => true
  | [] => existsb _duplicate_checked (successful_rows final_state)
  end.

(** The score that the evaluator compares with the bounds: the one of the
    last entry of the duplicate log when there is an entry, the first one
    that a processed row carries otherwise. *)
Definition extracted_score (final_state : PremiseState) : option Z :=
  match duplicate_log final_state with
  | _ :: _ =>
      last (map dup_confidence_score (duplicate_log final_state)) None
  | [] =>
      match find (fun row => match _confidence_score row with
                             | Some _ => true
                             | None => false
                             end) (successful_rows final_state) with
      | Some row => _confidence_score row
      | None => None
      end
  end.

(** The block of the two bounds. *)
Definition check_score (checks : Checks) (final_state : PremiseState)
    (tally : Tally) : Tally :=
  match chk_confidence_score_min checks, chk_confidence_score_max checks with
  | None, None => tally
  | min, max =>
      let min_score := match min with Some v => v | None => 0%Z end in
      let max_score := match max with Some v => v | None => 10%Z end in
      match extracted_score final_state with
      | Some score =>
          if (min_score <=? score)%Z && (score <=? max_score)%Z
          then (S (fst tally), snd tally)
          else (fst tally,
                snd tally
                ++ [("confidence_score: " ++ Py.str_int score
                     ++ " not in range " ++ Py.str_int min_score
                     ++ "-" ++ Py.str_int max_score)%string])
      | None =>
          if negb (match chk_duplicate_detected checks with
                   | Some v => v
                   | None => false
                   end)
          then (S (fst tally), snd tally)
          else (fst tally,
                snd tally ++ ["confidence_score: expected score, got None"])
      end
  end.

(** The checks of [run_test_case] on the final state of the run. *)
Definition validate (checks : Checks) (final_state : PremiseState) : TestResult :=
  let checks_total := len_checks checks in
  let error_rows := error_rows final_state in
  let duplicate_log := duplicate_log final_state in
  let successful_rows := successful_rows final_state in
  let tally : Tally := (0, []) in
  let tally :=
    check_flag "places_found" (chk_places_found checks)
               (negb (nonempty error_rows)) tally in
  let tally :=
    check_flag "duplicate_detected" (chk_duplicate_detected checks)
               (duplicate_detected final_state) tally in
  let tally := check_score checks final_state tally in
  let tally :=
    check_flag "in_errors" (chk_in_errors checks) (nonempty error_rows) tally in
  let tally :=
    check_flag "in_duplicates_log" (chk_in_duplicates_log checks)
               (nonempty duplicate_log) tally in
  let tally :=
    check_flag "in_processed" (chk_in_processed checks)
               (nonempty successful_rows) tally in
  {| passed := negb (nonempty (snd tally));
     checks_passed := fst tally;
     checks_total := checks_total;
     failures := snd tally |}.

End GoldenSetEvaluator.

(** ** Test doubles

    Concrete collaborators and inputs on which the definitions are run. *)

(** The square root of a rational that is not negative, rounded down to a
    multiple of [2 ^ -52]. *)
Definition sqrt_down (x : Q) : Q :=
  (Z.sqrt (Qnum x * 2 ^ 104 / Z.pos (Qden x)) # 2 ^ 52)%Q.

(** The arithmetic of the test doubles: exact differences, sums and squares,
    and [sqrt_down] for the power [0.5].  On the whole numbers of degrees
    that the examples use it is the [float] arithmetic: every difference,
    square, sum and root there is a whole number. *)
Definition exact_pow (x y : Q) : Q :=
  if Qeq_bool y 2 then (x * x)%Q else sqrt_down x.

(** Nothing is found anywhere. *)
Definition nothing_found : Collaborators :=
  {| geocode_address := fun _ _ _ => None;
     search_place := fun _ _ _ => None;
     get_state_by_code := fun _ => None;
     get_state_by_name := fun _ => None;
     query_premises_by_location := fun _ _ _ _ => [];
     get_occupancy_types_by_state := fun _ => [];
     score_duplicate_confidence := fun _ _ => 3%Z;
     classify_occupancy_type := fun _ _ _ => None;
     str_float := fun _ => "";
     parse_float := fun _ => None;
     float_sub := Qminus;
     float_add := Qplus;
     float_pow := exact_pow |}.

Definition main_street_components : list AddressComponent :=
  [ {| ac_types := ["street_number"]; ac_long_name := "1"; ac_short_name := "1" |};
    {| ac_types := ["route"]; ac_long_name := "Main St"; ac_short_name := "Main St" |};
    {| ac_types := ["locality"; "political"]; ac_long_name := "Los Angeles";
       ac_short_name := "LA" |};
    {| ac_types := ["administrative_area_level_1"; "political"];
       ac_long_name := "California"; ac_short_name := "CA" |};
    {| ac_types := ["postal_code"]; ac_long_name := "90001";
       ac_short_name := "90001" |} ].

Definition main_street : GeocodeResult :=
  {| g_latitude := 34%Q;
     g_longitude := (-118)%Q;
     g_formatted_address := "1 Main St, Los Angeles, CA 90001, USA";
     g_address_components := main_street_components |}.


Definition known_premise : Premise :=
  {| prem_id := Some 7%Z;
     prem_premise_name := "Joe's Diner";
     prem_address_line_1 := "1 Main St" |}.

(** Every address geocodes to 1 Main St; the place search returns [found];
    the records store holds [stored] next to every point and one occupancy
    type; the scorer answers [score]. *)
Definition town (found : option PlaceResult) (stored : list Premise) (score : Z)
  : Collaborators :=
  {| geocode_address := fun _ _ _ => Some main_street;
     search_place := fun _ _ _ => found;
     get_state_by_code := fun _ => Some {| st_id := 5%Z |};
     get_state_by_name := fun _ => None;
     query_premises_by_location := fun _ _ _ _ => stored;
     get_occupancy_types_by_state :=
       fun _ => [ {| occupancy_type_id := 1%Z; occupancy_type_name := "Business" |} ];
     score_duplicate_confidence := fun _ _ => score;
     classify_occupancy_type := fun _ _ _ => Some 1%Z;
     str_float := fun q => if Qeq_bool q 34 then "34.0" else "-118.0";
     parse_float :=
       fun s => if String.eqb s "34.0" then Some (PFin 34)
                else if String.eqb s "-118.0" then Some (PFin (-118))
                else None;
     float_sub := Qminus;
     float_add := Qplus;
     float_pow := exact_pow |}.

Definition joes_row : RawRow :=
  [("business_name", " joe's diner "); ("Street", "1 Main St");
   ("City", "Los Angeles"); ("State", "ca"); ("Zip", "90001");
   ("Phone", "555-0100")].

Definition second_row : RawRow :=
  [("name", "Second Cup"); ("address", "2 Main St"); ("city", "Los Angeles");
   ("state", "CA"); ("postal_code", "90001")].


(** * Vocabulary of the properties *)

(** Putting the calls of a first step in front of an outcome's log. *)
Definition prepend (l : list Call) (o : Outcome) : Outcome :=
  match o with
  | Finished s l' => Finished s (l ++ l')
  | o => o
  end.

(** Nodes that belong to the processing of one row and are followed by
    another node of the same row or by [next_row]. *)
Definition in_row (n : Node) : bool :=
  match n with
  | N_next_row | N_write_output | N_END => false
  | _ => true
  end.

(** An upper bound on the number of steps from a node to [next_row]. *)
Definition rank (n : Node) : nat :=
  match n with
  | N_parse_row => 9
  | N_places_search => 8
  | N_standardize => 7
  | N_database_query => 6
  | N_confidence_scoring => 5
  | N_occupancy_classification => 4
  | N_format_output => 3
  | N_verify_output => 2
  | N_log_duplicate => 1
  | N_error_handler => 1
  | N_next_row => 0
  | N_write_output => 0
  | N_END => 0
  end.

(** [k] steps lead from [(n, s)] to [(n', s')] with the calls [l], none of
    them taken at a node where [stop] holds. *)
Inductive steps `{Collaborators} (stop : Node -> bool)
  : nat -> Node -> PremiseState -> Node -> PremiseState -> list Call -> Prop :=
| steps_refl n s : steps stop 0 n s n s []
| steps_cons k n s n1 s1 l1 n2 s2 l2 :
    stop n = false ->
    step n s = Some (n1, s1, l1) ->
    steps stop k n1 s1 n2 s2 l2 ->
    steps stop (S k) n s n2 s2 (l1 ++ l2).

(** The three terminal dispositions of a row. *)
Inductive Disposition := Processed | Errored | Duplicate.

(** From [s] to [s'] the accumulator of [d] received one entry at its end
    and the other two are as they were. *)
Definition grew (d : Disposition) (s s' : PremiseState) : Prop :=
  match d with
  | Processed =>
      (exists o, successful_rows s' = successful_rows s ++ [o])
      /\ error_rows s' = error_rows s
      /\ duplicate_log s' = duplicate_log s
  | Errored =>
      successful_rows s' = successful_rows s
      /\ (exists e, error_rows s' = error_rows s ++ [e])
      /\ duplicate_log s' = duplicate_log s
  | Duplicate =>
      successful_rows s' = successful_rows s
      /\ error_rows s' = error_rows s
      /\ (exists e, duplicate_log s' = duplicate_log s ++ [e])
  end.

(** The dispositions a row can still end in when it is at node [n]. *)
Definition may_end (n : Node) (d : Disposition) : bool :=
  match n, d with
  | (N_parse_row | N_places_search | N_standardize | N_database_query
     | N_confidence_scoring), _ => true
  | (N_occupancy_classification | N_format_output | N_verify_output),
    (Processed | Errored) => true
  | N_log_duplicate, Duplicate => true
  | N_error_handler, Errored => true
  | _, _ => false
  end.

(** [s'] belongs to the same run as [s], at the same row. *)
Definition same_run (s s' : PremiseState) : Prop :=
  csv_rows s' = csv_rows s /\ current_row_index s' = current_row_index s.

(** No accumulator changed from [s] to [s']. *)
Definition same_accumulators (s s' : PremiseState) : Prop :=
  successful_rows s' = successful_rows s
  /\ error_rows s' = error_rows s
  /\ duplicate_log s' = duplicate_log s.

(** What the graph guarantees when a node is entered: [parse_row] inside the
    input, [verify_output] with an output record. *)
Definition entry_condition (n : Node) (s : PremiseState) : Prop :=
  match n with
  | N_parse_row => current_row_index s < List.length (csv_rows s)
  | N_verify_output => output_row s <> None
  | _ => True
  end.

(** The row-scoped fields at their initial values. *)
Definition row_scoped_cleared (s : PremiseState) : Prop :=
  current_row s = []
  /\ (places_result s = None /\ places_found s = false
      /\ latitude s = None /\ longitude s = None /\ places_type s = None)
  /\ (existing_premises s = [] /\ confidence_score s = None
      /\ matched_premise_id s = None)
  /\ selected_occupancy_type s = None
  /\ output_row s = None
  /\ (verification_passed s = false /\ validation_errors s = []).

(** A state whose current row is [row], as [parse_row] leaves it. *)
Definition at_row (row : Row) : PremiseState :=
  apply_update [U_current_row row; U_next_step "places_search"] (initial_state []).

(** The first row of the test input, normalized and about to be resolved. *)
Definition joes_state : PremiseState := at_row (normalize_row joes_row).

(** A coordinate that the truth tests take for absent: [None] or zero. *)
Definition absent_coordinate (x : option Q) : Prop :=
  x = None \/ exists q, x = Some q /\ (q == 0)%Q.




(** A row resolved to latitude 0 that reaches the database query. *)
Definition zero_latitude_state : PremiseState :=
  apply_update
    [U_latitude (Some 0%Q); U_longitude (Some (-118)%Q);
     U_standardized_name "Equator Diner";
     U_standardized_address
       [("address_line_1", "9 Line Rd"); ("city", "Los Angeles");
        ("state", "California"); ("state_code", "CA"); ("postal_code", "90001")];
     U_next_step "database_query"]
    joes_state.

(** A row with a stored premise next to it, about to be scored. *)
Definition scoring_state : PremiseState :=
  apply_update
    [U_latitude (Some 34%Q); U_longitude (Some (-118)%Q);
     U_standardized_name "Joe's Diner";
     U_standardized_address
       [("address_line_1", "1 Main St"); ("city", "Los Angeles");
        ("state", "California"); ("state_code", "CA"); ("postal_code", "90001")];
     U_existing_premises [known_premise];
     U_duplicate_found true;
     U_state_code (Some "CA");
     U_next_step "confidence_scoring"]
    joes_state.

(** The acceptance rules, as the specification lists them. *)
Definition valid_output `{Collaborators} (o : OutputRow) : Prop :=
  Forall (fun fv => Py.strip (snd fv) <> "") (required_fields o)
  /\ (exists lat lng,
        parse_float (Latitude o) = Some (PFin lat)
        /\ parse_float (Longitude o) = Some (PFin lng)
        /\ (-90 <= lat /\ lat <= 90)%Q
        /\ (-180 <= lng /\ lng <= 180)%Q
        /\ ~ (lat == 0 /\ lng == 0)%Q)
  /\ Py.match_state_code (State o) = true
  /\ Py.match_zip (Postal_Code o) = true
  /\ (Status o = "Active" \/ Status o = "Inactive").

(** The keys of the canonical row schema. *)
Definition CANONICAL_FIELDS : list string :=
  ["name"; "address"; "city"; "state"; "postal_code"].

(** Nodes between [parse_row] and the two logging nodes. *)
Definition mid_row (n : Node) : bool :=
  match n with
  | N_places_search | N_standardize | N_database_query | N_confidence_scoring
  | N_occupancy_classification | N_format_output | N_verify_output => true
  | _ => false
  end.

(** The error entry as the specification words it: the raw input fields of
    the row, as read from the file, with the reason appended. *)
Definition raw_error_entry (raw_row : RawRow) (reason : string) : ErrorEntry :=
  with_error_reason raw_row (Some reason).

(** The row with every value stripped. *)
Definition stripped_values (r : dict string) : dict string :=
  map (fun kv => (fst kv, Py.strip (snd kv))) r.

(** A row with the canonical headers and a name with surrounding spaces. *)
Definition padded_row : RawRow :=
  [("name", " Acme Tools "); ("address", "1 Main St"); ("city", "Los Angeles");
   ("state", "CA"); ("postal_code", "90001")].

(** The fields of the state that a node or one of its successors in the row
    reads before any node writes them, on two states: they are equal. *)
Definition live_fields (n : Node) (s1 s2 : PremiseState) : Prop :=
  match n with
  | N_parse_row => confidence_score s1 = confidence_score s2
  | N_places_search =>
      current_row s1 = current_row s2
      /\ confidence_score s1 = confidence_score s2
  | N_standardize =>
      current_row s1 = current_row s2
      /\ places_result s1 = places_result s2
      /\ places_found s1 = places_found s2
      /\ latitude s1 = latitude s2 /\ longitude s1 = longitude s2
      /\ places_type s1 = places_type s2
      /\ confidence_score s1 = confidence_score s2
  | N_database_query =>
      current_row s1 = current_row s2
      /\ standardized_name s1 = standardized_name s2
      /\ standardized_address s1 = standardized_address s2
      /\ latitude s1 = latitude s2 /\ longitude s1 = longitude s2
      /\ places_type s1 = places_type s2
      /\ confidence_score s1 = confidence_score s2
  | N_confidence_scoring =>
      current_row s1 = current_row s2
      /\ standardized_name s1 = standardized_name s2
      /\ standardized_address s1 = standardized_address s2
      /\ latitude s1 = latitude s2 /\ longitude s1 = longitude s2
      /\ places_type s1 = places_type s2
      /\ existing_premises s1 = existing_premises s2
      /\ state_code s1 = state_code s2
  | N_occupancy_classification =>
      current_row s1 = current_row s2
      /\ standardized_name s1 = standardized_name s2
      /\ standardized_address s1 = standardized_address s2
      /\ latitude s1 = latitude s2 /\ longitude s1 = longitude s2
      /\ places_type s1 = places_type s2
      /\ state_code s1 = state_code s2
      /\ confidence_score s1 = confidence_score s2
  | N_format_output =>
      current_row s1 = current_row s2
      /\ standardized_name s1 = standardized_name s2
      /\ standardized_address s1 = standardized_address s2
      /\ latitude s1 = latitude s2 /\ longitude s1 = longitude s2
      /\ selected_occupancy_type s1 = selected_occupancy_type s2
      /\ state_code s1 = state_code s2
      /\ confidence_score s1 = confidence_score s2
  | N_verify_output =>
      current_row s1 = current_row s2 /\ output_row s1 = output_row s2
  | N_log_duplicate =>
      current_row s1 = current_row s2
      /\ standardized_name s1 = standardized_name s2
      /\ matched_premise_id s1 = matched_premise_id s2
      /\ confidence_score s1 = confidence_score s2
  | N_error_handler =>
      current_row s1 = current_row s2 /\ error_message s1 = error_message s2
  | N_next_row | N_write_output | N_END => True
  end.

(** Agreement of two states on the run-scoped fields and on the fields
    that are live at [n]. *)
Definition live (n : Node) (s1 s2 : PremiseState) : Prop :=
  (csv_rows s1 = csv_rows s2
   /\ current_row_index s1 = current_row_index s2
   /\ successful_rows s1 = successful_rows s2
   /\ error_rows s1 = error_rows s2
   /\ duplicate_log s1 = duplicate_log s2)
  /\ live_fields n s1 s2.

(** The reset of every row-scoped field that [next_row] leaves alone. *)
Definition full_reset (s : PremiseState) : PremiseState :=
  apply_update
    [U_latitude None; U_longitude None; U_places_type None;
     U_standardized_name ""; U_standardized_address [];
     U_duplicate_found false; U_state_id None; U_state_code None;
     U_occupancy_type_options []; U_selected_occupancy_type None;
     U_output_row None; U_verification_passed false; U_validation_errors []]
    s.

(** The keys that [parse_address_components] can set. *)
Definition PARSED_KEYS : list string :=
  ["street_number"; "route"; "city"; "state"; "state_code"; "postal_code";
   "address_line_1"].

(** No white space but single spaces: every white-space character is a
    space and none follows another. *)
Fixpoint single_spaced_from (after_space : bool) (s : string) : bool :=
  match s with
  | EmptyString => true
  | String c r =>
      if Py.is_space c
      then Ascii.eqb c " "%char && negb after_space && single_spaced_from true r
      else single_spaced_from false r
  end.

Definition single_spaced (s : string) : bool := single_spaced_from false s.

(** [l'] is [l] with entries added at its end. *)
Definition extends {A} (l l' : list A) : Prop := exists added, l' = l ++ added.

(** The two rules of the validator that [valid_output] does not list. *)
Definition valid_country (o : OutputRow) : Prop :=
  (Country o = "" \/ Country o = "USA")
  /\ (Country_ShortName o = "" \/ Country_ShortName o = "US").

(** What the loop over the components keeps true of [parsed]. *)
Definition parsed_invariant (no_route : bool) (parsed : dict string) : Prop :=
  NoDup (keys parsed)
  /\ (forall k, In k (keys parsed) ->
                In k ["street_number"; "route"; "city"; "state"; "state_code";
                      "postal_code"])
  /\ (dget "state" parsed = None <-> dget "state_code" parsed = None)
  /\ (no_route = true -> dget "route" parsed = None).

(** The place of a call in the order in which a row can make them. *)
Definition call_kind (c : Call) : nat :=
  match c with
  | Call_geocode_address _ _ _ => 0
  | Call_search_place _ _ _ => 1
  | Call_get_state_by_code _ => 2
  | Call_get_state_by_name _ => 3
  | Call_query_premises_by_location _ _ _ _ => 4
  | Call_score_duplicate_confidence _ _ => 5
  | Call_get_occupancy_types_by_state _ => 6
  | Call_classify_occupancy_type _ _ _ => 7
  end.

(** The first kind of call that a row can still make from a node on. *)
Definition stage (n : Node) : nat :=
  match n with
  | N_parse_row | N_places_search => 0
  | N_standardize | N_database_query => 2
  | N_confidence_scoring => 5
  | N_occupancy_classification => 6
  | _ => 8
  end.

(** [l] is strictly increasing and starts at [lo] or above. *)
Fixpoint increasing_from (lo : nat) (l : list nat) : bool :=
  match l with
  | [] => true
  | k :: r => (lo <=? k)%nat && increasing_from (S k) r
  end.

(** A header whose cell the field normalizer reads: one that a branch of
    its loop takes. *)
Definition reads (key : string) : bool :=
  let key_lower := Py.strip (Py.lower key) in
  (Py.any_in ["premise_name"; "business_name"; "company_name";
              "facility_name"; "location_name"] key_lower
   || (String.eqb key_lower "name" || String.eqb key_lower "business"))
  || (Py.any_in ["address"; "street"; "location"] key_lower
      && negb (Py.contains "name" key_lower))
  || Py.any_in ["city"; "municipality"; "town"] key_lower
  || (Py.contains "state" key_lower || String.eqb key_lower "st")
  || (Py.contains "postal" key_lower || Py.contains "zip" key_lower).

(** The text of a row of the reader: its headers with their cells, a
    missing cell taken as empty; the key [None] has no text. *)
Definition text_part (raw_row : CsvRow) : RawRow :=
  flat_map (fun kv =>
              match kv with
              | (Some key, Cell text) => [(key, text)]
              | (Some key, _) => [(key, "")]
              | (None, _) => []
              end) raw_row.

(** A row on which the field normalizer raises: it has the key [None], or a
    header that the normalizer reads with no text under it. *)
Definition ragged (raw_row : CsvRow) : Prop :=
  exists key value,
    In (key, value) raw_row
    /\ (key = None
        \/ exists header,
             key = Some header
             /\ reads header = true
             /\ forall text, value <> Cell text).

(** The keys of an entry of the error accumulator. *)
Definition ERROR_FIELDS : list string := CANONICAL_FIELDS ++ ["error_reason"].

(** [d] has the keys [fields], each once, in some order. *)
Definition has_keys {V} (fields : list string) (d : dict V) : Prop :=
  NoDup (keys d) /\ forall k, In k (keys d) <-> In k fields.

(** At a node that handles a parsed row the current row has the canonical
    keys. *)
Definition row_parsed (n : Node) (s : PremiseState) : Prop :=
  mid_row n = true \/ n = N_error_handler ->
  has_keys CANONICAL_FIELDS (current_row s).

(** A processed row that was scored has a score below the threshold, and is
    flagged as checked exactly when it was scored. *)
Definition scored_below (o : OutputRow) : Prop :=
  match _confidence_score o with
  | None => _duplicate_checked o = false
  | Some score => _duplicate_checked o = true /\ (score < 8)%Z
  end.

(** An entry of the duplicate log has a score at the threshold or above. *)
Definition scored_above (d : DuplicateEntry) : Prop :=
  exists score, dup_confidence_score d = Some score /\ (8 <= score)%Z.

(** What holds of the score of the current row when a node is about to
    run. *)
Definition score_state (n : Node) (s : PremiseState) : Prop :=
  match n with
  | N_parse_row | N_places_search | N_standardize | N_database_query
  | N_confidence_scoring => confidence_score s = None
  | N_occupancy_classification | N_format_output =>
      forall score, confidence_score s = Some score -> (score < 8)%Z
  | N_verify_output => forall o, output_row s = Some o -> scored_below o
  | N_log_duplicate =>
      exists score, confidence_score s = Some score /\ (8 <= score)%Z
  | _ => True
  end.

(** * Properties *)

(** ** The engine *)

Lemma prepend_nil o : prepend [] o = o.
Proof. destruct o; reflexivity. Qed.

Lemma prepend_app l1 l2 o : prepend (l1 ++ l2) o = prepend l1 (prepend l2 o).
Proof. destruct o; simpl; try reflexivity. now rewrite app_assoc. Qed.

Section EngineFacts.

Context `{Collaborators}.

Lemma run_until_steps stop k n s n' s' l :
  steps stop k n s n' s' l ->
  forall fuel, run_until stop (k + fuel) n s
               = prepend l (run_until stop fuel n' s').
Proof.
  induction 1 as [n s | k n s n1 s1 l1 n2 s2 l2 Hstop Hstep _ IH]; intros fuel.
  - now rewrite prepend_nil.
  - cbn [Nat.add run_until]. rewrite Hstop, Hstep, IH.
    rewrite prepend_app. now destruct (prepend l2 _).
Qed.

Lemma run_until_stop stop fuel n s :
  stop n = true -> run_until stop fuel n s = Finished s [].
Proof. intros E. destruct fuel; simpl; now rewrite E. Qed.

(** A run that finishes does so with any larger budget, in the same way. *)
Lemma run_until_more_fuel stop fuel n s s' l :
  run_until stop fuel n s = Finished s' l ->
  forall fuel', fuel <= fuel' -> run_until stop fuel' n s = Finished s' l.
Proof.
  revert n s s' l.
  induction fuel as [|fuel IH]; intros n s s' l Hrun fuel' Hle.
  - simpl in Hrun. destruct (stop n) eqn:E; [|discriminate].
    now rewrite run_until_stop.
  - destruct fuel' as [|fuel']; [lia|].
    cbn [run_until] in *. destruct (stop n); [exact Hrun|].
    destruct (step n s) as [[[n1 s1] l1]|]; [|discriminate].
    destruct (run_until stop fuel n1 s1) as [s2 l2| |] eqn:E; try discriminate.
    rewrite (IH _ _ _ _ E fuel') by lia. exact Hrun.
Qed.

End EngineFacts.

(** ** One row at a time *)

Ltac break_match :=
  match goal with
  | |- context [match ?x with _ => _ end] =>
      lazymatch x with
      | context [match _ with _ => _ end] => fail
      | _ => destruct x eqn:?
      end
  end.

Ltac step_frame :=
  do 3 eexists; split; [reflexivity|]; cbn;
  split; [lia|]; split; [split; reflexivity|].

Ltac in_row_onward :=
  step_frame; right; repeat split; auto;
  solve [intros []; auto | intros E; discriminate E].

Ltac row_done d :=
  step_frame; left; split; [reflexivity|]; exists d;
  split; [reflexivity|]; repeat split; eexists; reflexivity.

Section RowFacts.

Context `{Collaborators}.

Lemma step_in_row n s :
  in_row n = true ->
  entry_condition n s ->
  exists n' s' l,
    step n s = Some (n', s', l)
    /\ rank n' < rank n
    /\ same_run s s'
    /\ ((n' = N_next_row /\ exists d, may_end n d = true /\ grew d s s')
        \/ (in_row n' = true
            /\ same_accumulators s s'
            /\ entry_condition n' s'
            /\ forall d, may_end n' d = true -> may_end n d = true)).
Proof.
  intros Hin Hpre.
  destruct n; try discriminate Hin; clear Hin.
  - (* parse_row *)
    unfold step, run_node, parse_row_node, ret.
    destruct (nth_error (csv_rows s) (current_row_index s)) eqn:E.
    + do 3 eexists. split; [reflexivity|]. cbn.
      split; [lia|]. split; [split; reflexivity|].
      right. repeat split; auto.
    + apply nth_error_None in E. simpl in Hpre. lia.
  - (* places_search *)
    unfold step, run_node, places_search_node, bind, call, ret.
    repeat break_match; in_row_onward.
  - (* standardize *)
    unfold step, run_node, standardize_node, ret.
    repeat break_match; in_row_onward.
  - (* database_query *)
    unfold step, run_node, database_query_node, bind, call, ret.
    repeat break_match; in_row_onward.
  - (* confidence_scoring *)
    unfold step, run_node, confidence_scoring_node, bind, call, ret.
    repeat break_match; in_row_onward.
  - (* occupancy_classification *)
    unfold step, run_node, occupancy_classification_node, bind, call, ret.
    repeat break_match; in_row_onward.
  - (* format_output *)
    unfold step, run_node, format_output_node, ret.
    in_row_onward.
  - (* verify_output *)
    unfold step, run_node, verify_output_node, ret, option_map.
    simpl in Hpre.
    destruct (output_row s) as [o|]; [|congruence].
    destruct (collect_validation_errors o).
    + row_done Processed.
    + in_row_onward.
  - (* log_duplicate *)
    unfold step, run_node, log_duplicate_node, ret. row_done Duplicate.
  - (* error_handler *)
    unfold step, run_node, error_handler_node, ret. row_done Errored.
Qed.

Lemma grew_after_same d s s1 s2 :
  same_accumulators s s1 -> grew d s1 s2 -> grew d s s2.
Proof.
  intros (E1 & E2 & E3). destruct d; simpl; rewrite E1, E2, E3; auto.
Qed.

Lemma grew_accumulated d s s' : grew d s s' -> accumulated s' = S (accumulated s).
Proof.
  unfold accumulated.
  destruct d; simpl;
    [intros ((o & E1) & E2 & E3) | intros (E1 & (e & E2) & E3)
     | intros (E1 & E2 & (e & E3))];
    rewrite E1, E2, E3, length_app; simpl; lia.
Qed.

Lemma steps_trans stop k1 n s n1 s1 l1 k2 n2 s2 l2 :
  steps stop k1 n s n1 s1 l1 ->
  steps stop k2 n1 s1 n2 s2 l2 ->
  steps stop (k1 + k2) n s n2 s2 (l1 ++ l2).
Proof.
  induction 1; intros Hrest; simpl; [exact Hrest|].
  rewrite <- app_assoc. econstructor; eauto.
Qed.

(** Every row that enters the step sequence reaches [next_row], within the
    bound of its entry node, with exactly one accumulator one longer. *)
Lemma row_run stop :
  (forall m, in_row m = true -> stop m = false) ->
  forall n s,
    in_row n = true ->
    entry_condition n s ->
    exists k s' l d,
      k <= rank n
      /\ steps stop k n s N_next_row s' l
      /\ may_end n d = true
      /\ grew d s s'
      /\ same_run s s'.
Proof.
  intros Hstop n s. remember (rank n) as r eqn:Er.
  assert (Hr : rank n <= r) by lia. clear Er. revert n s Hr.
  induction r as [|r IH]; intros n s Hr Hin Hpre.
  - destruct n; simpl in Hr, Hin; try lia; discriminate.
  - destruct (step_in_row n s Hin Hpre)
      as (n' & s' & l & Hstep & Hrank & Hsame & Hcase).
    destruct Hcase as [(-> & d & Hd & Hg) | (Hin' & Hacc & Hpre' & Hmay)].
    + exists 1, s', (l ++ []), d. repeat split; try apply Hsame; auto.
      * destruct n; simpl in *; try lia; discriminate.
      * econstructor; eauto. constructor.
    + destruct (IH n' s') as (k & s'' & l' & d & Hk & Hsteps & Hd & Hg & Hsame');
        auto; [lia|].
      exists (S k), s'', (l ++ l'), d. repeat split.
      * lia.
      * econstructor; eauto.
      * auto.
      * eapply grew_after_same; eauto.
      * destruct Hsame, Hsame'; congruence.
      * destruct Hsame, Hsame'; congruence.
Qed.

(** The loop over the rows, from [parse_row] at a row of the input to [END]:
    the rows from the current one up to the last but one are processed, or
    the current one alone when it is the last. *)
Lemma loop_run m :
  forall s,
    current_row_index s < List.length (csv_rows s) ->
    List.length (csv_rows s) - current_row_index s <= m ->
    exists s' l,
      run_until (Node_eqb N_END) (10 * m + 1) N_parse_row s = Finished s' l
      /\ accumulated s'
         = accumulated s
           + Nat.max 1 (List.length (csv_rows s) - 1 - current_row_index s)
      /\ csv_rows s' = csv_rows s.
Proof.
  induction m as [|m IH]; intros s Hlt Hm; [lia|].
  destruct (row_run (Node_eqb N_END)) with (n := N_parse_row) (s := s)
    as (k & s1 & l1 & d & Hk & Hsteps & _ & Hg & Hrows & Hidx);
    [now intros [] | reflexivity | exact Hlt |].
  simpl in Hk. apply grew_accumulated in Hg.
  set (s2 := apply_update (next_row_node s1) s1).
  assert (Hnext : step N_next_row s1 = Some (route_next_row s2, s2, []))
    by reflexivity.
  assert (Hacc2 : accumulated s2 = accumulated s1) by reflexivity.
  assert (Hrows2 : csv_rows s2 = csv_rows s1) by reflexivity.
  assert (Hidx2 : current_row_index s2 = current_row_index s1 + 1) by reflexivity.
  unfold route_next_row in Hnext. rewrite Hrows2, Hidx2 in Hnext.
  assert (Hlen : List.length (csv_rows s1) = List.length (csv_rows s))
    by now rewrite Hrows.
  assert (Hlen2 : List.length (csv_rows s2) = List.length (csv_rows s1))
    by now rewrite Hrows2.
  destruct (Nat.ltb (current_row_index s1 + 1 + 1) (List.length (csv_rows s1)))
    eqn:E.
  - apply Nat.ltb_lt in E.
    destruct (IH s2) as (s' & l' & Hrun & Hcount & Hrows');
      [lia | lia |].
    exists s', ((l1 ++ [] ++ []) ++ l'). repeat split.
    + apply run_until_more_fuel with (fuel := (k + 1) + (10 * m + 1)); [|lia].
      rewrite run_until_steps
        with (n' := N_parse_row) (s' := s2) (l := l1 ++ [] ++ []).
      * now rewrite Hrun.
      * eapply steps_trans; [exact Hsteps|].
        econstructor; [reflexivity | exact Hnext | constructor].
    + lia.
    + congruence.
  - apply Nat.ltb_ge in E.
    set (s3 := apply_update (write_output_node s2) s2).
    exists s3, ((l1 ++ [] ++ [] ++ []) ++ []). repeat split.
    + apply run_until_more_fuel with (fuel := (k + 2) + 0); [|lia].
      rewrite run_until_steps
        with (n' := N_END) (s' := s3) (l := l1 ++ [] ++ [] ++ []).
      * reflexivity.
      * eapply steps_trans; [exact Hsteps|].
        econstructor; [reflexivity | exact Hnext |].
        econstructor; [reflexivity | reflexivity | constructor].
    + change (accumulated s3) with (accumulated s2).
      lia.
    + change (csv_rows s3) with (csv_rows s2). congruence.
Qed.

End RowFacts.

(** ** The reset between two rows *)

(** C2, as the code has it: [next_row] clears the current row, the places
    result and its found flag, the candidate list, the confidence score, the
    matched identifier and the error message; it leaves every other
    row-scoped field (coordinates, places type, standardized name and
    address, duplicate flag, state identifier and code, occupancy options and
    classification, output record, validation outcome) as it was, keeps the
    input and the three accumulators, and advances the index by one. *)
Theorem next_row_reset `{Collaborators} (s : PremiseState) :
  let s' := apply_update (next_row_node s) s in
  step N_next_row s = Some (route_next_row s', s', [])
  /\ (current_row s' = [] /\ places_result s' = None /\ places_found s' = false
      /\ existing_premises s' = [] /\ confidence_score s' = None
      /\ matched_premise_id s' = None /\ error_message s' = None
      /\ next_step s' = "parse_row")
  /\ (latitude s' = latitude s /\ longitude s' = longitude s
      /\ places_type s' = places_type s
      /\ standardized_name s' = standardized_name s
      /\ standardized_address s' = standardized_address s
      /\ duplicate_found s' = duplicate_found s
      /\ state_id s' = state_id s /\ state_code s' = state_code s
      /\ occupancy_type_options s' = occupancy_type_options s
      /\ selected_occupancy_type s' = selected_occupancy_type s
      /\ output_row s' = output_row s
      /\ verification_passed s' = verification_passed s
      /\ validation_errors s' = validation_errors s)
  /\ (csv_rows s' = csv_rows s /\ successful_rows s' = successful_rows s
      /\ error_rows s' = error_rows s /\ duplicate_log s' = duplicate_log s)
  /\ current_row_index s' = current_row_index s + 1.
Proof. cbv zeta. repeat split. Qed.

(** C2, as the specification words it, fails: after a row that was processed
    with success, the reset leaves its coordinates, places type,
    classification, output record and validation outcome in the state. *)
Lemma next_row_keeps_coordinates :
  exists s l,
    @run_until (town None [] 3) (Node_eqb N_next_row) 9 N_parse_row
               (initial_state [joes_row; second_row]) = Finished s l
    /\ latitude (apply_update (next_row_node s) s) = Some 34%Q
    /\ verification_passed (apply_update (next_row_node s) s) = true
    /\ ~ row_scoped_cleared (apply_update (next_row_node s) s).
Proof.
  eexists. eexists. split; [vm_compute; reflexivity|].
  split; [reflexivity|]. split; [reflexivity|].
  intros (_ & (_ & _ & E & _) & _). discriminate E.
Qed.

(** ** Stale fields do not reach the next row *)

Section StaleFields.

Context `{Collaborators}.

Ltac agree_step :=
  unfold step, run_node, option_map, bind, call, ret;
  repeat break_match;
  intros E; inversion E; subst;
  eexists; (split; [reflexivity|]); cbn; repeat split; cbn; auto; congruence.

(** Two states that agree on what is live at a node take the same step,
    with the same calls, to states that agree on what is live there. *)
Lemma step_agrees n s1 s2 n1 s1' l :
  live n s1 s2 ->
  step n s1 = Some (n1, s1', l) ->
  exists s2', step n s2 = Some (n1, s2', l) /\ live n1 s1' s2'.
Proof.
  intros ((Hrows & Hidx & Hok & Herr & Hdup) & Hlive). revert Hlive.
  destruct n; cbn [live_fields].
  - intros Hcs. unfold step at 1 2. unfold run_node, parse_row_node, ret.
    rewrite Hrows, Hidx.
    destruct (nth_error (csv_rows s2) (current_row_index s2));
      intros E; inversion E; subst;
      (eexists; split; [reflexivity|]); cbn; repeat split; auto.
  - intros (Hrow & Hcs). unfold step at 1 2. unfold run_node, places_search_node.
    rewrite Hrow. agree_step.
  - intros (Hrow & Hres & Hfound & Hlat & Hlng & Hty & Hcs).
    unfold step at 1 2. unfold run_node, standardize_node, standardize_branch.
    rewrite Hrow, Hres, Hfound. agree_step.
  - intros (Hrow & Hname & Haddr & Hlat & Hlng & Hty & Hcs).
    unfold step at 1 2. unfold run_node, database_query_node.
    rewrite Haddr, Hlat, Hlng. agree_step.
  - intros (Hrow & Hname & Haddr & Hlat & Hlng & Hty & Hprem & Hcode).
    unfold step at 1 2. unfold run_node, confidence_scoring_node, new_record_of.
    rewrite Hrow, Hname, Haddr, Hprem. agree_step.
  - intros (Hrow & Hname & Haddr & Hlat & Hlng & Hty & Hcode & Hcs).
    unfold step at 1 2. unfold run_node, occupancy_classification_node.
    rewrite Hname, Hty, Hcode. agree_step.
  - intros (Hrow & Hname & Haddr & Hlat & Hlng & Hocc & Hcode & Hcs).
    unfold step at 1 2. unfold run_node, format_output_node, build_output_row.
    rewrite Hname, Haddr, Hlat, Hlng, Hocc, Hcode, Hcs. agree_step.
  - intros (Hrow & Hout).
    unfold step at 1 2. unfold run_node, verify_output_node.
    rewrite Hout, Hok. agree_step.
  - intros (Hrow & Hname & Hid & Hcs).
    unfold step at 1 2. unfold run_node, log_duplicate_node.
    rewrite Hrow, Hname, Hid, Hcs, Hdup. agree_step.
  - intros (Hrow & Hmsg).
    unfold step at 1 2. unfold run_node, error_handler_node.
    rewrite Hrow, Hmsg, Herr. agree_step.
  - intros _. unfold step at 1 2. unfold run_node, next_row_node, ret.
    intros E; inversion E; subst.
    exists (apply_update (next_row_node s2) s2).
    split.
    + cbn [edge]. unfold route_next_row. cbn. now rewrite Hrows, Hidx.
    + cbn [edge]. unfold route_next_row. cbv zeta.
      match goal with
      | |- context [if ?c then _ else _] => destruct c
      end; cbn; repeat split; cbn; auto; congruence.
  - intros _. agree_step.
  - intros _. agree_step.
Qed.

Lemma run_until_agrees stop fuel :
  forall n s1 s2 s1' l,
    live n s1 s2 ->
    run_until stop fuel n s1 = Finished s1' l ->
    exists s2',
      run_until stop fuel n s2 = Finished s2' l
      /\ same_accumulators s1' s2'.
Proof.
  induction fuel as [|fuel IH]; intros n s1 s2 s1' l Hlive; simpl.
  - destruct (stop n); [|discriminate]. intros E; inversion E; subst.
    exists s2. split; [reflexivity|].
    destruct Hlive as ((_ & _ & Hok & Herr & Hdup) & _). repeat split; auto.
  - destruct (stop n).
    + intros E; inversion E; subst. exists s2. split; [reflexivity|].
      destruct Hlive as ((_ & _ & Hok & Herr & Hdup) & _). repeat split; auto.
    + destruct (step n s1) as [[[n1 t1] l1]|] eqn:Hstep; [|discriminate].
      destruct (step_agrees _ _ _ _ _ _ Hlive Hstep) as (t2 & Hstep2 & Hlive1).
      rewrite Hstep2.
      destruct (run_until stop fuel n1 t1) as [u1 k1| |] eqn:Hrun; try discriminate.
      intros E; inversion E; subst.
      destruct (IH _ _ _ _ _ Hlive1 Hrun) as (u2 & Hrun2 & Hacc).
      rewrite Hrun2. eauto.
Qed.

(** The fields that [next_row] leaves in the state are dead: the rest of the
    run, from the row that follows, has the outcome it would have had with
    every row-scoped field reset. *)
Lemma stale_fields_are_dead (s : PremiseState) (fuel : nat) (s' : PremiseState) l :
  let after := apply_update (next_row_node s) s in
  run_until (Node_eqb N_END) fuel N_parse_row after = Finished s' l ->
  row_scoped_cleared (full_reset after)
  /\ exists t',
       run_until (Node_eqb N_END) fuel N_parse_row (full_reset after) = Finished t' l
       /\ same_accumulators s' t'.
Proof.
  cbv zeta. intros Hrun. split; [cbn; repeat split|].
  eapply run_until_agrees; [|exact Hrun]. cbn. repeat split.
Qed.

End StaleFields.

(** ** Identity resolution *)

Lemma truthy_true s : Py.truthy s = true <-> s <> "".
Proof. destruct s; simpl; split; congruence. Qed.

(** C6: an empty address, city or state rejects the row with [Incomplete
    address information]; a state code outside the 50 states and DC rejects
    it with [Invalid US state code]; both go to the error handler with no
    call to any collaborator.  Past these two checks the row goes to the
    error handler exactly when the geocoder misses, with [Address not
    found]. *)
Theorem places_search_rejections `{Collaborators} (s : PremiseState) :
  let address := dget_or "address" "" (current_row s) in
  let city := dget_or "city" "" (current_row s) in
  let state_code := Py.upper (dget_or "state" "" (current_row s)) in
  (address = "" \/ city = "" \/ state_code = "" ->
   step N_places_search s
   = Some (N_error_handler,
           apply_update (places_rejected "Incomplete address information") s,
           []))
  /\ (address <> "" -> city <> "" -> state_code <> "" ->
      Py.mem state_code VALID_US_STATE_CODES = false ->
      step N_places_search s
      = Some (N_error_handler,
              apply_update
                (places_rejected ("Invalid US state code: " ++ state_code)%string) s,
              []))
  /\ (address <> "" -> city <> "" -> state_code <> "" ->
      Py.mem state_code VALID_US_STATE_CODES = true ->
      exists n s' l,
        step N_places_search s = Some (n, s', Call_geocode_address address city state_code :: l)
        /\ (n = N_error_handler <-> geocode_address address city state_code = None)
        /\ (n = N_error_handler ->
            l = []
            /\ error_message s'
               = Some ("Address not found: " ++ address ++ ", " ++ city
                       ++ ", " ++ state_code)%string)
        /\ (n <> N_error_handler -> n = N_standardize))
  /\ List.length VALID_US_STATE_CODES = 51
  /\ NoDup VALID_US_STATE_CODES.
Proof.
  cbv zeta. repeat apply conj.
  - intros Hempty. unfold step, run_node, places_search_node.
    assert (E : negb (Py.truthy (dget_or "address" "" (current_row s)))
                || negb (Py.truthy (dget_or "city" "" (current_row s)))
                || negb (Py.truthy (Py.upper (dget_or "state" "" (current_row s))))
                = true).
    { destruct Hempty as [E | [E | E]]; rewrite E; simpl;
        rewrite ?orb_true_r; reflexivity. }
    rewrite E. reflexivity.
  - intros Ha Hc Hs Hinvalid. unfold step, run_node, places_search_node.
    apply truthy_true in Ha, Hc, Hs. rewrite Ha, Hc, Hs, Hinvalid. reflexivity.
  - intros Ha Hc Hs Hvalid. unfold step, run_node, places_search_node, bind, call.
    apply truthy_true in Ha, Hc, Hs. rewrite Ha, Hc, Hs, Hvalid. cbn [negb orb].
    destruct (geocode_address _ _ _) as [g|] eqn:Eg.
    + destruct (drop_distant _ g) as [r|]; [destruct (address_only_types _)|];
        (do 3 eexists; split; [reflexivity|]; cbn;
         repeat split; try discriminate; auto; intros E; discriminate E).
    + do 3 eexists. split; [reflexivity|]. cbn.
      repeat split; auto; intros E; now contradiction E.
  - reflexivity.
  - unfold VALID_US_STATE_CODES.
    repeat (constructor; [simpl; intuition discriminate|]). constructor.
Qed.

Lemma places_search_rejections_witness :
  @step nothing_found N_places_search
        (at_row [("name", "A"); ("address", "1 Main St"); ("city", ""); ("state", "CA")])
  = Some (N_error_handler,
          apply_update (places_rejected "Incomplete address information")
            (at_row [("name", "A"); ("address", "1 Main St"); ("city", "");
                     ("state", "CA")]),
          [])
  /\ @step nothing_found N_places_search
           (at_row [("address", "123 Fake Street"); ("city", "Nowhereville");
                    ("state", "xx")])
     = Some (N_error_handler,
             apply_update (places_rejected "Invalid US state code: XX")
               (at_row [("address", "123 Fake Street"); ("city", "Nowhereville");
                        ("state", "xx")]),
             [])
  /\ exists n s' l,
       @step nothing_found N_places_search
             (at_row [("address", "123 Fake Street"); ("city", "Nowhereville");
                      ("state", "ca")])
       = Some (n, s', Call_geocode_address "123 Fake Street" "Nowhereville" "CA" :: l)
       /\ (n = N_error_handler <-> @None GeocodeResult = None)
       /\ (n = N_error_handler ->
           l = []
           /\ error_message s'
              = Some "Address not found: 123 Fake Street, Nowhereville, CA")
       /\ (n <> N_error_handler -> n = N_standardize).
Proof.
  split; [|split].
  - apply (@places_search_rejections nothing_found
             (at_row [("name", "A"); ("address", "1 Main St"); ("city", "");
                      ("state", "CA")])).
    right; left; reflexivity.
  - apply (@places_search_rejections nothing_found
             (at_row [("address", "123 Fake Street"); ("city", "Nowhereville");
                      ("state", "xx")]));
      [discriminate | discriminate | discriminate | reflexivity].
  - apply (@places_search_rejections nothing_found
             (at_row [("address", "123 Fake Street"); ("city", "Nowhereville");
                      ("state", "ca")]));
      [discriminate | discriminate | discriminate | reflexivity].
Defined.



Lemma truthy_float_false x : truthy_float x = false <-> absent_coordinate x.
Proof.
  unfold absent_coordinate. destruct x as [q|]; simpl.
  - rewrite negb_false_iff, Qeq_bool_iff. split.
    + intros E. right. now exists q.
    + intros [E | (q' & E & Hq)]; [discriminate E|]. now injection E as ->.
  - split; auto.
Qed.





(** ** Zero coordinates *)


Section ZeroCoordinates.

Context `{Collaborators}.

Lemma nearby_premises_skipped lat lng sid :
  absent_coordinate lat \/ absent_coordinate lng ->
  nearby_premises lat lng sid = ret [].
Proof.
  rewrite <- !truthy_float_false. unfold nearby_premises.
  destruct lat as [p|], lng as [q|]; try reflexivity.
  intros [E | E]; rewrite E; rewrite ?andb_false_r; reflexivity.
Qed.

Lemma lookup_state_id_no_query standardized_address code :
  existsb is_query_premises (snd (lookup_state_id standardized_address code)) = false.
Proof.
  unfold lookup_state_id, bind, call, ret.
  destruct (Py.truthy code); [|reflexivity].
  destruct (get_state_by_code code); [reflexivity|].
  destruct (Py.truthy _); reflexivity.
Qed.

Lemma format_coordinate_absent x : absent_coordinate x -> format_coordinate x = "".
Proof.
  intros Habs. apply truthy_float_false in Habs.
  unfold format_coordinate. destruct x; [now rewrite Habs | reflexivity].
Qed.

(** C9: a latitude or longitude that is zero or [None] makes the
    database-query step skip the spatial query (the state lookups are its
    only calls) and send the row on with no candidates; the formatter emits
    the empty string for such a coordinate; and the row then fails the
    required-field check of the validator, which routes it to the error
    handler and leaves the processed accumulator as it was. *)
Theorem zero_coordinate_is_absent (s : PremiseState) :
  absent_coordinate (latitude s) \/ absent_coordinate (longitude s) ->
  (exists s' l,
     step N_database_query s = Some (N_occupancy_classification, s', l)
     /\ existsb is_query_premises l = false
     /\ existing_premises s' = []
     /\ duplicate_found s' = false)
  /\ (absent_coordinate (latitude s) -> Latitude (build_output_row s) = "")
  /\ (absent_coordinate (longitude s) -> Longitude (build_output_row s) = "")
  /\ (exists s1 s2 field,
        step N_format_output s = Some (N_verify_output, s1, [])
        /\ step N_verify_output s1 = Some (N_error_handler, s2, [])
        /\ (field = "Latitude" \/ field = "Longitude")
        /\ In ("Missing required field: " ++ field)%string (validation_errors s2)
        /\ verification_passed s2 = false
        /\ successful_rows s2 = successful_rows s).
Proof.
  intros Habs. repeat apply conj.
  - unfold step, run_node, database_query_node.
    unfold bind at 1.
    destruct (lookup_state_id _ _) as [sid l0] eqn:Eid.
    rewrite (nearby_premises_skipped _ _ sid Habs). cbn.
    do 2 eexists. split; [reflexivity|]. cbn. repeat split.
    rewrite !app_nil_r.
    pose proof (lookup_state_id_no_query (standardized_address s)
                  (dget_or "state_code" "" (standardized_address s))) as Hq.
    now rewrite Eid in Hq.
  - intros Hlat. cbn. now apply format_coordinate_absent.
  - intros Hlng. cbn. now apply format_coordinate_absent.
  - exists (apply_update (format_output_node s) s).
    assert (Hmissing :
              exists field,
                (field = "Latitude" \/ field = "Longitude")
                /\ In ("Missing required field: " ++ field)%string
                      (collect_validation_errors (build_output_row s))).
    { unfold collect_validation_errors, missing_field_errors.
      destruct Habs as [Habs | Habs]; apply format_coordinate_absent in Habs;
        [exists "Latitude" | exists "Longitude"]; (split; [auto|]);
        apply in_or_app; left; apply in_map_iff;
        [exists ("Latitude", Latitude (build_output_row s))
        | exists ("Longitude", Longitude (build_output_row s))];
        (split; [reflexivity|]); apply filter_In;
        (split; [simpl; tauto|]);
        cbn [snd Latitude Longitude build_output_row];
        rewrite Habs; reflexivity. }
    destruct Hmissing as (field & Hfield & Hin).
    unfold step at 2. unfold run_node, verify_output_node, option_map.
    cbn [output_row apply_update format_output_node fold_left apply_field].
    destruct (collect_validation_errors (build_output_row s)) as [|e errs] eqn:E;
      [destruct Hin|].
    eexists. exists field. split; [reflexivity|]. split; [reflexivity|].
    cbn. auto.
Qed.

End ZeroCoordinates.

Lemma zero_coordinate_is_absent_witness :
  (exists s' l,
     @step (town None [known_premise] 9) N_database_query zero_latitude_state
     = Some (N_occupancy_classification, s', l)
     /\ existsb is_query_premises l = false
     /\ existing_premises s' = []
     /\ duplicate_found s' = false)
  /\ Latitude (@build_output_row (town None [known_premise] 9) zero_latitude_state)
     = "".
Proof.
  assert (Hzero : absent_coordinate (latitude zero_latitude_state)).
  { right. exists 0%Q. split; reflexivity. }
  destruct (@zero_coordinate_is_absent (town None [known_premise] 9)
              zero_latitude_state (or_introl Hzero)) as (Hquery & Hlat & _).
  split; [exact Hquery | exact (Hlat Hzero)].
Defined.

(** ** The standardizer's branch *)

Section StandardizeBranch.

Context `{Collaborators}.

Lemma places_search_to_standardize s s' l :
  step N_places_search s = Some (N_standardize, s', l) ->
  places_found s' = true /\ exists r, places_result s' = Some r.
Proof.
  unfold step, run_node, places_search_node, bind, call, ret.
  repeat break_match; intros E; inversion E; subst; cbn; split; eauto.
Qed.

(** C10: the graph enters standardization only from places search, and then
    with the found flag set and a result in the state, so that the
    standardizer takes its identity branch; on every path of the graph from
    its entry point the standardizer's result is that of the identity
    branch, never the title-casing fallback. *)
Theorem standardize_takes_identity_branch :
  (forall n s s' l,
     step n s = Some (N_standardize, s', l) ->
     n = N_places_search
     /\ places_found s' = true
     /\ exists r,
          places_result s' = Some r
          /\ standardize_branch s' = Some r
          /\ standardize_node s'
             = [U_standardized_name (fst (standardize_with_places (current_row s') r));
                U_standardized_address
                  (snd (standardize_with_places (current_row s') r));
                U_next_step "database_query";
                U_error_message None])
  /\ (forall stop csv_rows k s' l,
        steps stop k N_parse_row (initial_state csv_rows) N_standardize s' l ->
        standardize_branch s' <> None).
Proof.
  assert (Hstep : forall n s s' l,
             step n s = Some (N_standardize, s', l) ->
             n = N_places_search
             /\ places_found s' = true
             /\ exists r, places_result s' = Some r
                          /\ standardize_branch s' = Some r).
  { intros n s s' l Hs.
    assert (Hn : n = N_places_search).
    { unfold step in Hs. destruct (run_node n s) as [[u c]|]; [|discriminate].
      injection Hs as Hedge _ _.
      destruct n; try reflexivity; try discriminate Hedge;
        cbn [edge] in Hedge;
        unfold route_after_parse, route_after_database, route_after_confidence,
          route_after_verify, route_next_row in Hedge;
        match type of Hedge with
        | context [if ?b then _ else _] => destruct b
        end; discriminate Hedge. }
    subst n. split; [reflexivity|].
    destruct (places_search_to_standardize _ _ _ Hs) as (Hfound & r & Hr).
    split; [exact Hfound|]. exists r. split; [exact Hr|].
    unfold standardize_branch. now rewrite Hfound. }
  split.
  - intros n s s' l Hs.
    destruct (Hstep n s s' l Hs) as (Hn & Hfound & r & Hr & Hbranch).
    split; [exact Hn|]. split; [exact Hfound|]. exists r.
    split; [exact Hr|]. split; [exact Hbranch|].
    unfold standardize_node. rewrite Hbranch.
    now destruct (standardize_with_places (current_row s') r).
  - intros stop csv_rows k s' l Hsteps.
    assert (Harrive : forall k n s n' s' l,
               steps stop k n s n' s' l ->
               n' = N_standardize ->
               (n = N_standardize /\ s = s') \/ standardize_branch s' <> None).
    { clear - Hstep. intros k n s n' s' l Hsteps.
      induction Hsteps as [n s | k n s n1 s1 l1 n2 s2 l2 _ Hs _ IH];
        intros En; [now left | right].
      destruct (IH En) as [(En1 & Es1) | Hb]; [|exact Hb]. subst n1 s2.
      destruct (Hstep _ _ _ _ Hs) as (_ & _ & r & _ & Hb). congruence. }
    destruct (Harrive _ _ _ _ _ _ Hsteps eq_refl) as [(E & _) | Hb];
      [discriminate E | exact Hb].
Qed.

End StandardizeBranch.

Lemma standardize_takes_identity_branch_witness :
  exists s' l r,
    @step (town None [] 3) N_places_search joes_state = Some (N_standardize, s', l)
    /\ places_result s' = Some r
    /\ standardize_branch s' = Some r.
Proof.
  assert (E : exists s' l,
             @step (town None [] 3) N_places_search joes_state
             = Some (N_standardize, s', l))
    by (do 2 eexists; vm_compute; reflexivity).
  destruct E as (s' & l & E).
  destruct (proj1 (@standardize_takes_identity_branch (town None [] 3)) _ _ _ _ E)
    as (_ & _ & r & Hr & Hb & _).
  exists s', l, r. repeat split; assumption.
Defined.

(** ** The run over all rows *)

Section WholeRun.

Context `{Collaborators}.

(** Every row that the graph starts on ends, within nine steps, at
    [next_row] with one entry more in exactly one of the three accumulators
    and the other two untouched. *)
Lemma row_lands_in_one_accumulator (s : PremiseState) :
  current_row_index s < List.length (csv_rows s) ->
  exists s' l d,
    run_until (Node_eqb N_next_row) 9 N_parse_row s = Finished s' l
    /\ grew d s s'
    /\ accumulated s' = S (accumulated s).
Proof.
  intros Hlt.
  destruct (row_run (Node_eqb N_next_row)) with (n := N_parse_row) (s := s)
    as (k & s' & l & d & Hk & Hsteps & _ & Hg & _);
    [now intros [] | reflexivity | exact Hlt |].
  exists s', l, d. split; [|split; [exact Hg | now apply grew_accumulated in Hg]].
  apply run_until_more_fuel with (fuel := k + 0); [|simpl in Hk; lia].
  rewrite (run_until_steps _ _ _ _ _ _ _ Hsteps). simpl. now rewrite app_nil_r.
Qed.

(** On an input of two rows or more the accumulators end with one entry
    less than there are rows. *)
Lemma run_skips_last_row_aux (rows : list RawRow) (fuel : nat) :
  2 <= List.length rows ->
  10 * List.length rows + 1 <= fuel ->
  exists s l,
    run_premises_processing fuel rows = Finished s l
    /\ accumulated s = List.length rows - 1.
Proof.
  intros Hlen Hfuel.
  destruct (loop_run (List.length rows) (initial_state rows))
    as (s & l & Hrun & Hcount & _); [simpl; lia | simpl; lia |].
  exists s, l. split.
  - unfold run_premises_processing.
    eapply run_until_more_fuel; [exact Hrun | exact Hfuel].
  - rewrite Hcount. unfold accumulated.
    cbn [initial_state successful_rows error_rows duplicate_log csv_rows
         current_row_index].
    change (List.length (@nil OutputRow)) with 0.
    change (List.length (@nil ErrorEntry)) with 0.
    change (List.length (@nil DuplicateEntry)) with 0.
    lia.
Qed.

(** C1 fails on the code: the run ends, but on an input of two rows or more
    its last row never enters the step sequence.  [route_next_row] adds one
    to an index that [next_row_node] has already advanced, so the loop
    leaves for [write_output] one row early: the three accumulators hold one
    entry for each row but the last. *)
Theorem run_skips_last_row (rows : list RawRow) (fuel : nat) :
  2 <= List.length rows ->
  10 * List.length rows + 1 <= fuel ->
  exists s l,
    run_premises_processing fuel rows = Finished s l
    /\ accumulated s = List.length rows - 1.
Proof. exact (run_skips_last_row_aux rows fuel). Qed.

(** On an input of at most one row the count is right. *)
Lemma run_counts_a_single_row (rows : list RawRow) (fuel : nat) :
  List.length rows <= 1 ->
  11 <= fuel ->
  exists s l,
    run_premises_processing fuel rows = Finished s l
    /\ accumulated s = List.length rows.
Proof.
  intros Hlen Hfuel. destruct rows as [|row rest].
  - exists (apply_update (write_output_node
                       (apply_update (parse_row_node (initial_state []))
                                     (initial_state [])))
                    (apply_update (parse_row_node (initial_state []))
                                  (initial_state []))), [].
    split; [|reflexivity].
    apply run_until_more_fuel with (fuel := 2); [reflexivity | lia].
  - destruct (loop_run 1 (initial_state (row :: rest)))
      as (s & l & Hrun & Hcount & _); [simpl; lia | simpl in *; lia |].
    exists s, l. split.
    + unfold run_premises_processing.
      eapply run_until_more_fuel; [exact Hrun | simpl; lia].
    + rewrite Hcount. unfold accumulated.
      cbn [initial_state successful_rows error_rows duplicate_log csv_rows
           current_row_index].
      change (List.length (@nil OutputRow)) with 0.
      change (List.length (@nil ErrorEntry)) with 0.
      change (List.length (@nil DuplicateEntry)) with 0.
      simpl in Hlen. simpl List.length. lia.
Qed.

(** Every run ends: the graph reaches [END] within ten steps a row and two
    more. *)
Lemma run_finishes (rows : list RawRow) (fuel : nat) :
  10 * List.length rows + 2 <= fuel ->
  exists s l, run_premises_processing fuel rows = Finished s l.
Proof.
  intros Hfuel. destruct rows as [|row rest].
  - exists (apply_update (write_output_node
                       (apply_update (parse_row_node (initial_state []))
                                     (initial_state [])))
                    (apply_update (parse_row_node (initial_state []))
                                  (initial_state []))), [].
    apply run_until_more_fuel with (fuel := 2); [reflexivity | lia].
  - destruct (le_lt_dec (List.length (row :: rest)) 1) as [Hshort | Hlong].
    + destruct (run_counts_a_single_row (row :: rest) fuel Hshort)
        as (s & l & Hrun & _); [|now exists s, l].
      change (List.length (row :: rest)) with (S (List.length rest)) in Hfuel.
      lia.
    + destruct (run_skips_last_row_aux (row :: rest) fuel)
        as (s & l & Hrun & _); [lia | lia |].
      now exists s, l.
Qed.

End WholeRun.

Lemma run_skips_last_row_witness :
  exists s l,
    @run_premises_processing (town None [] 3) 21 [joes_row; second_row]
    = Finished s l
    /\ accumulated s = 1.
Proof.
  apply (@run_skips_last_row (town None [] 3) [joes_row; second_row] 21);
    simpl; lia.
Defined.

(** ** The confidence threshold *)

Section Threshold.

Context `{Collaborators}.

(** A row that reaches occupancy classification ends at [next_row] as
    processed or as an error; the duplicate log is not touched. *)
Lemma classification_never_logs_duplicate (s : PremiseState) :
  exists s' l,
    run_until (Node_eqb N_next_row) 4 N_occupancy_classification s = Finished s' l
    /\ duplicate_log s' = duplicate_log s
    /\ accumulated s' = S (accumulated s).
Proof.
  destruct (row_run (Node_eqb N_next_row))
    with (n := N_occupancy_classification) (s := s)
    as (k & s' & l & d & Hk & Hsteps & Hd & Hg & _);
    [now intros [] | reflexivity | exact I |].
  exists s', l. split; [|split].
  - apply run_until_more_fuel with (fuel := k + 0); [|simpl in Hk; lia].
    rewrite (run_until_steps _ _ _ _ _ _ _ Hsteps). simpl. now rewrite app_nil_r.
  - destruct d; simpl in Hd, Hg; try discriminate Hd; apply Hg.
  - now apply grew_accumulated in Hg.
Qed.

(** C3: with a candidate list that is not empty the closest candidate is
    scored; a score of 8 or more sends the row to duplicate logging, which
    appends one entry to the duplicate log and leaves the processed and
    error accumulators as they were; a score below 8 sends it on to
    occupancy classification.  A row whose score is below 8, or for which no
    candidates were found (at the database query or at the scoring step),
    ends its run with the duplicate log unchanged. *)
Theorem confidence_threshold (s : PremiseState) :
  let stop := Node_eqb N_next_row in
  (forall existing rest,
     existing_premises s = existing :: rest ->
     let score := score_duplicate_confidence (new_record_of s) existing in
     let scored := [Call_score_duplicate_confidence (new_record_of s) existing] in
     ((8 <= score)%Z ->
      exists s1 s',
        step N_confidence_scoring s = Some (N_log_duplicate, s1, scored)
        /\ step N_log_duplicate s1 = Some (N_next_row, s', [])
        /\ duplicate_log s'
           = duplicate_log s
             ++ [{| source_name := dget_or "name" "" (current_row s);
                    source_address := dget_or "address" "" (current_row s);
                    dup_standardized_name := standardized_name s;
                    dup_matched_premise_id := prem_id existing;
                    dup_confidence_score := Some score;
                    reason := ("High confidence match (score: "
                               ++ Py.str_int score ++ ")")%string |}]
        /\ successful_rows s' = successful_rows s
        /\ error_rows s' = error_rows s)
     /\ ((score < 8)%Z ->
         exists s1 s' l,
           step N_confidence_scoring s
           = Some (N_occupancy_classification, s1, scored)
           /\ confidence_score s1 = Some score
           /\ matched_premise_id s1 = prem_id existing
           /\ run_until stop 4 N_occupancy_classification s1 = Finished s' l
           /\ duplicate_log s' = duplicate_log s))
  /\ (existing_premises s = [] ->
      exists s1 s' l,
        step N_confidence_scoring s = Some (N_occupancy_classification, s1, [])
        /\ run_until stop 4 N_occupancy_classification s1 = Finished s' l
        /\ duplicate_log s' = duplicate_log s)
  /\ (forall n1 s1 l1,
        step N_database_query s = Some (n1, s1, l1) ->
        existing_premises s1 = [] ->
        n1 = N_occupancy_classification
        /\ exists s' l,
             run_until stop 4 N_occupancy_classification s1 = Finished s' l
             /\ duplicate_log s' = duplicate_log s).
Proof.
  cbv zeta. repeat apply conj.
  - intros existing rest Hcand. split.
    + intros Hscore. apply Z.leb_le in Hscore.
      unfold step at 1. unfold run_node, confidence_scoring_node, bind, call, ret.
      rewrite Hcand, Hscore.
      do 2 eexists. split; [reflexivity|]. split; [reflexivity|].
      cbn. repeat split.
    + intros Hscore. apply Z.leb_gt in Hscore.
      unfold step. unfold run_node, confidence_scoring_node, bind, call, ret.
      rewrite Hcand, Hscore.
      match goal with
      | |- context [Some (_, ?s1, _) = _] =>
          destruct (classification_never_logs_duplicate s1) as (s' & l & Hrun & Hlog & _)
      end.
      do 3 eexists. split; [reflexivity|]. cbn.
      split; [reflexivity|]. split; [reflexivity|]. split; [exact Hrun|].
      exact Hlog.
  - intros Hnone.
    unfold step. unfold run_node, confidence_scoring_node, ret. rewrite Hnone.
    match goal with
    | |- context [Some (_, ?s1, _) = _] =>
        destruct (classification_never_logs_duplicate s1) as (s' & l & Hrun & Hlog & _)
    end.
    do 3 eexists. split; [reflexivity|]. split; [exact Hrun | exact Hlog].
  - intros n1 s1 l1 Hstep Hnone.
    destruct (classification_never_logs_duplicate s1) as (s' & l & Hrun & Hlog & _).
    revert Hstep. unfold step, run_node, database_query_node, bind.
    destruct (lookup_state_id _ _) as [sid l0].
    destruct (nearby_premises (latitude s) (longitude s) sid) as [found l2].
    unfold ret. destruct found as [|p ps]; intros E; inversion E; subst; clear E.
    + split; [reflexivity|]. exists s', l. split; [exact Hrun|].
      rewrite Hlog. reflexivity.
    + discriminate Hnone.
Qed.

End Threshold.

Lemma confidence_threshold_witness :
  (exists s1 s',
     @step (town None [known_premise] 9) N_confidence_scoring scoring_state
     = Some (N_log_duplicate, s1,
             [Call_score_duplicate_confidence
                (new_record_of scoring_state) known_premise])
     /\ @step (town None [known_premise] 9) N_log_duplicate s1
        = Some (N_next_row, s', [])
     /\ List.length (duplicate_log s') = 1
     /\ successful_rows s' = []
     /\ error_rows s' = [])
  /\ (exists s1 s' l,
        @step (town None [known_premise] 6) N_confidence_scoring scoring_state
        = Some (N_occupancy_classification, s1,
                [Call_score_duplicate_confidence
                   (new_record_of scoring_state) known_premise])
        /\ confidence_score s1 = Some 6%Z
        /\ @run_until (town None [known_premise] 6) (Node_eqb N_next_row) 4
                      N_occupancy_classification s1
           = Finished s' l
        /\ duplicate_log s' = []).
Proof.
  split.
  - destruct (proj1 (proj1 (@confidence_threshold (town None [known_premise] 9)
                              scoring_state)
                      known_premise [] eq_refl))
      as (s1 & s' & Hs1 & Hs' & Hlog & Hok & Herr);
      [vm_compute; discriminate|].
    exists s1, s'. split; [exact Hs1|]. split; [exact Hs'|].
    split; [now rewrite Hlog|]. split; [exact Hok | exact Herr].
  - destruct (proj2 (proj1 (@confidence_threshold (town None [known_premise] 6)
                              scoring_state)
                      known_premise [] eq_refl))
      as (s1 & s' & l & Hs1 & Hscore & _ & Hrun & Hlog);
      [reflexivity|].
    exists s1, s', l. split; [exact Hs1|]. split; [exact Hscore|].
    split; [exact Hrun | exact Hlog].
Defined.

(** ** Output validation *)

Lemma filter_nil_Forall {A} (p : A -> bool) (l : list A) :
  filter p l = [] -> Forall (fun x => p x = false) l.
Proof.
  induction l as [|x l IH]; simpl; [constructor|].
  destruct (p x) eqn:E; [discriminate|]. intros Hl. constructor; auto.
Qed.

Lemma is_blank_false v : is_blank v = false -> Py.strip v <> "".
Proof.
  unfold is_blank. intros E. apply orb_false_elim in E as [_ E].
  now apply String.eqb_neq in E.
Qed.

Lemma strip_nonempty v : Py.strip v <> "" -> Py.truthy v = true.
Proof. destruct v; [intros E; now contradiction E | reflexivity]. Qed.

(** What the two regular expressions accept. *)
Lemma match_state_code_spec s :
  Py.match_state_code s = true
  <-> exists a b,
        Py.is_upper a = true /\ Py.is_upper b = true
        /\ (s = String a (String b "")
            \/ s = String a (String b (String "010"%char ""))).
Proof.
  unfold Py.match_state_code. split.
  - destruct s as [|a [|b rest]]; simpl; try discriminate;
      destruct (Py.is_upper a) eqn:Ea; try discriminate.
    destruct (Py.is_upper b) eqn:Eb; try discriminate.
    destruct rest as [|c [|]]; simpl; try discriminate; intros E;
      exists a, b; repeat split; auto.
    apply Ascii.eqb_eq in E. subst c. auto.
  - intros (a & b & Ea & Eb & [-> | ->]); simpl; rewrite Ea, Eb; reflexivity.
Qed.

Section OutputValidation.

Context `{Collaborators}.

Lemma no_errors_valid (o : OutputRow) :
  collect_validation_errors o = [] -> valid_output o.
Proof.
  unfold collect_validation_errors. intros E.
  apply app_eq_nil in E as [Emiss E]. apply app_eq_nil in E as [Ecoord E].
  apply app_eq_nil in E as [Estate E]. apply app_eq_nil in E as [Epostal E].
  apply app_eq_nil in E as [Estatus _].
  assert (Hreq : Forall (fun fv => Py.strip (snd fv) <> "") (required_fields o)).
  { unfold missing_field_errors in Emiss. apply map_eq_nil in Emiss.
    apply filter_nil_Forall in Emiss.
    eapply Forall_impl; [|exact Emiss]. intros fv. apply is_blank_false. }
  assert (Hstate : Py.strip (State o) <> "").
  { rewrite Forall_forall in Hreq. apply (Hreq ("State", State o)). simpl. tauto. }
  assert (Hpostal : Py.strip (Postal_Code o) <> "").
  { rewrite Forall_forall in Hreq.
    apply (Hreq ("Postal Code", Postal_Code o)). simpl. tauto. }
  apply strip_nonempty in Hstate, Hpostal.
  split; [exact Hreq|]. split; [|split; [|split]].
  - unfold coordinate_errors in Ecoord.
    destruct (parse_float (Latitude o)) as [lat|]; [|discriminate].
    destruct (parse_float (Longitude o)) as [lng|]; [|discriminate].
    apply app_eq_nil in Ecoord as [Elat Ecoord].
    apply app_eq_nil in Ecoord as [Elng Ezero].
    destruct (in_range (-90) 90 lat) eqn:Rlat; [|discriminate].
    destruct (in_range (-180) 180 lng) eqn:Rlng; [|discriminate].
    destruct (is_zero lat && is_zero lng) eqn:Z0; [discriminate|].
    destruct lat as [lat| | |]; try discriminate.
    destruct lng as [lng| | |]; try discriminate.
    simpl in Rlat, Rlng, Z0.
    apply andb_true_iff in Rlat as [L1 L2]. apply andb_true_iff in Rlng as [G1 G2].
    apply Qle_bool_iff in L1, L2, G1, G2.
    exists lat, lng. repeat split; auto.
    intros [Z1 Z2]. apply Qeq_bool_iff in Z1, Z2. rewrite Z1, Z2 in Z0. discriminate.
  - unfold state_errors in Estate. rewrite Hstate in Estate.
    destruct (Py.match_state_code (State o)); [reflexivity | discriminate].
  - unfold postal_errors in Epostal. rewrite Hpostal in Epostal.
    destruct (Py.match_zip (Postal_Code o)); [reflexivity | discriminate].
  - unfold status_errors in Estatus. simpl in Estatus.
    destruct (String.eqb (Status o) "Active") eqn:E1.
    + left. now apply String.eqb_eq.
    + destruct (String.eqb (Status o) "Inactive") eqn:E2; [|discriminate].
      right. now apply String.eqb_eq.
Qed.

Ltac frame_step :=
  unfold bind, call, ret; repeat break_match;
  intros E; inversion E; subst; cbn; auto.

(** Only [verify_output] adds to the processed accumulator, and only a
    record without violations. *)
Lemma step_keeps_valid n s n' s' l :
  step n s = Some (n', s', l) ->
  Forall valid_output (successful_rows s) ->
  Forall valid_output (successful_rows s').
Proof.
  intros Hstep Hvalid. revert Hstep.
  destruct n; unfold step, run_node.
  - unfold parse_row_node. frame_step.
  - unfold places_search_node. frame_step.
  - unfold standardize_node. frame_step.
  - unfold database_query_node. frame_step.
  - unfold confidence_scoring_node. frame_step.
  - unfold occupancy_classification_node. frame_step.
  - unfold format_output_node. frame_step.
  - unfold verify_output_node, option_map.
    destruct (output_row s) as [o|]; [|discriminate].
    destruct (collect_validation_errors o) eqn:Eerrs;
      unfold ret; intros E; inversion E; subst; cbn; auto.
    apply Forall_app. split; [exact Hvalid|].
    constructor; [now apply no_errors_valid | constructor].
  - unfold log_duplicate_node. frame_step.
  - unfold error_handler_node. frame_step.
  - unfold next_row_node. frame_step.
  - unfold write_output_node. frame_step.
  - frame_step.
Qed.

Lemma run_until_keeps_valid stop fuel :
  forall n s s' l,
    run_until stop fuel n s = Finished s' l ->
    Forall valid_output (successful_rows s) ->
    Forall valid_output (successful_rows s').
Proof.
  induction fuel as [|fuel IH]; intros n s s' l; simpl.
  - destruct (stop n); [|discriminate]. intros E; now inversion E.
  - destruct (stop n); [intros E; now inversion E|].
    destruct (step n s) as [[[n1 s1] l1]|] eqn:Hstep; [|discriminate].
    destruct (run_until stop fuel n1 s1) as [s2 l2| |] eqn:Hrun; try discriminate.
    intros E Hvalid. inversion E; subst.
    eapply IH; [exact Hrun|]. eapply step_keeps_valid; eauto.
Qed.

(** C4: a record without violations satisfies every acceptance rule;
    [verify_output] appends the record to the processed accumulator and goes
    to [next_row] when the violation list is empty, and otherwise leaves the
    accumulator alone and goes to the error handler with the joined
    message; hence every record in the processed accumulator at the end of a
    run satisfies the rules, and every run ends. *)
Theorem processed_rows_are_valid :
  (forall o, collect_validation_errors o = [] -> valid_output o)
  /\ (forall s o,
        output_row s = Some o ->
        (collect_validation_errors o = [] ->
         exists s',
           step N_verify_output s = Some (N_next_row, s', [])
           /\ successful_rows s' = successful_rows s ++ [o]
           /\ error_rows s' = error_rows s
           /\ verification_passed s' = true)
        /\ (collect_validation_errors o <> [] ->
            exists s',
              step N_verify_output s = Some (N_error_handler, s', [])
              /\ successful_rows s' = successful_rows s
              /\ verification_passed s' = false
              /\ validation_errors s' = collect_validation_errors o
              /\ error_message s'
                 = Some ("Output validation failed: "
                         ++ Py.join "; " (collect_validation_errors o))%string))
  /\ (forall rows fuel s l,
        run_premises_processing fuel rows = Finished s l ->
        Forall valid_output (successful_rows s))
  /\ (forall rows fuel,
        10 * List.length rows + 2 <= fuel ->
        exists s l,
          run_premises_processing fuel rows = Finished s l
          /\ Forall valid_output (successful_rows s)).
Proof.
  assert (Hrun : forall rows fuel s l,
             run_premises_processing fuel rows = Finished s l ->
             Forall valid_output (successful_rows s)).
  { intros rows fuel s l Hrun.
    eapply run_until_keeps_valid; [exact Hrun|]. constructor. }
  split; [exact no_errors_valid|]. split; [|split; [exact Hrun|]].
  2:{ intros rows fuel Hfuel.
      destruct (run_finishes rows fuel Hfuel) as (s & l & Hfin).
      exists s, l. split; [exact Hfin | exact (Hrun _ _ _ _ Hfin)]. }
  - intros s o Ho. unfold step, run_node, verify_output_node, option_map.
    rewrite Ho. split; intros Herrs.
    + rewrite Herrs. eexists. split; [reflexivity|]. cbn. auto.
    + destruct (collect_validation_errors o) as [|e errs]; [now contradiction Herrs|].
      eexists. split; [reflexivity|]. cbn. auto.
Qed.

End OutputValidation.

Lemma processed_rows_are_valid_witness :
  exists s l,
    @run_premises_processing (town None [] 3) 11 [second_row] = Finished s l
    /\ List.length (successful_rows s) = 1
    /\ Forall (@valid_output (town None [] 3)) (successful_rows s).
Proof.
  assert (E : exists s l,
             @run_premises_processing (town None [] 3) 11 [second_row]
             = Finished s l
             /\ List.length (successful_rows s) = 1)
    by (do 2 eexists; split; vm_compute; reflexivity).
  destruct E as (s & l & E & Hlen).
  exists s, l. split; [exact E|]. split; [exact Hlen|].
  exact (proj1 (proj2 (proj2 (@processed_rows_are_valid (town None [] 3))))
           _ _ _ _ E).
Defined.

(** ** Dictionaries and the field normalizer *)

Section DictFacts.

Context {V : Type}.

Lemma dget_None_keys (k : string) (d : dict V) :
  dget k d = None <-> ~ In k (keys d).
Proof.
  induction d as [|[k' v] d IH]; simpl; [tauto|].
  destruct (String.eqb k k') eqn:E.
  - apply String.eqb_eq in E. subst. split; [discriminate | tauto].
  - apply String.eqb_neq in E. rewrite IH. split; [intros Hn [Hk|Hi] | ]; auto.
Qed.

Lemma keys_dset_new (k : string) (v : V) (d : dict V) :
  ~ In k (keys d) -> keys (dset k v d) = keys d ++ [k].
Proof.
  induction d as [|[k' v'] d IH]; simpl; [reflexivity|]. intros Hk.
  destruct (String.eqb k k') eqn:E.
  - apply String.eqb_eq in E. subst k'. exfalso. apply Hk. now left.
  - simpl. rewrite IH; [reflexivity|]. intros Hin. apply Hk. now right.
Qed.

Lemma keys_dset_old (k : string) (v : V) (d : dict V) :
  In k (keys d) -> keys (dset k v d) = keys d.
Proof.
  induction d as [|[k' v'] d IH]; simpl; [tauto|]. intros Hk.
  destruct (String.eqb k k') eqn:E; [reflexivity|].
  apply String.eqb_neq in E. simpl. rewrite IH; [reflexivity|].
  destruct Hk; congruence.
Qed.

Lemma in_keys_dset (k k' : string) (v : V) (d : dict V) :
  In k' (keys (dset k v d)) <-> k' = k \/ In k' (keys d).
Proof.
  destruct (in_dec string_dec k (keys d)) as [Hin | Hout].
  - rewrite keys_dset_old by exact Hin. split; [tauto|]. intros [->|]; auto.
  - rewrite keys_dset_new by exact Hout. rewrite in_app_iff. simpl.
    split; [intros [|[|[]]]; auto | intros [|]; auto].
Qed.

Lemma NoDup_keys_dset (k : string) (v : V) (d : dict V) :
  NoDup (keys d) -> NoDup (keys (dset k v d)).
Proof.
  intros Hd. destruct (in_dec string_dec k (keys d)) as [Hin | Hout].
  - now rewrite keys_dset_old.
  - rewrite keys_dset_new by exact Hout.
    apply NoDup_app; [exact Hd | repeat constructor; simpl; tauto |].
    intros x Hx [<-|[]]. exact (Hout Hx).
Qed.

Lemma dget_dset (k k' : string) (v : V) (d : dict V) :
  dget k' (dset k v d) = if String.eqb k' k then Some v else dget k' d.
Proof.
  induction d as [|[k0 v0] d IH]; simpl.
  - destruct (String.eqb k' k); reflexivity.
  - destruct (String.eqb k k0) eqn:E; simpl.
    + apply String.eqb_eq in E. subst k0. destruct (String.eqb k' k); reflexivity.
    + rewrite IH. destruct (String.eqb k' k0) eqn:E0; [|reflexivity].
      apply String.eqb_eq in E0. subst k0.
      rewrite String.eqb_sym in E. now rewrite E.
Qed.

Lemma in_keys_setdefault (k k' : string) (v : V) (d : dict V) :
  In k' (keys (setdefault k v d)) <-> k' = k \/ In k' (keys d).
Proof.
  unfold setdefault. destruct (dget k d) eqn:E.
  - split; [tauto|]. intros [->|]; [|assumption].
    destruct (in_dec string_dec k (keys d)) as [Hin|Hout]; [assumption|].
    apply dget_None_keys in Hout. congruence.
  - apply in_keys_dset.
Qed.

Lemma NoDup_keys_setdefault (k : string) (v : V) (d : dict V) :
  NoDup (keys d) -> NoDup (keys (setdefault k v d)).
Proof.
  unfold setdefault. destruct (dget k d); [auto | apply NoDup_keys_dset].
Qed.

Lemma setdefault_present (k : string) (v : V) (d : dict V) :
  In k (keys d) -> setdefault k v d = d.
Proof.
  intros Hin. unfold setdefault. destruct (dget k d) eqn:E; [reflexivity|].
  apply dget_None_keys in E. tauto.
Qed.

End DictFacts.

(** Each turn of the normalizer's loop leaves the row alone or assigns the
    stripped value to one canonical field. *)
Lemma normalize_field_cases (acc : Row) (key value : string) :
  normalize_field acc key value = acc
  \/ exists c, In c CANONICAL_FIELDS
               /\ normalize_field acc key value = dset c (Py.strip value) acc.
Proof.
  unfold normalize_field, CANONICAL_FIELDS.
  repeat match goal with
         | |- context [if ?b then _ else _] => destruct b
         end;
    first [ now left | right; eexists; split; [|reflexivity]; simpl; tauto ].
Qed.

Lemma normalize_loop_keys (raw_row : RawRow) :
  forall acc : Row,
    NoDup (keys acc) ->
    (forall k, In k (keys acc) -> In k CANONICAL_FIELDS) ->
    let out := fold_left (fun acc kv => normalize_field acc (fst kv) (snd kv))
                         raw_row acc in
    NoDup (keys out) /\ (forall k, In k (keys out) -> In k CANONICAL_FIELDS).
Proof.
  induction raw_row as [|[key value] rest IH]; intros acc Hnd Hsub; simpl; [auto|].
  destruct (normalize_field_cases acc key value) as [-> | (c & Hc & ->)];
    apply IH; auto.
  - now apply NoDup_keys_dset.
  - intros k Hk. apply in_keys_dset in Hk as [-> | Hk]; auto.
Qed.

(** The normalized row has exactly the five canonical keys, whatever the
    headers of the input row are. *)
Lemma normalize_row_keys (raw_row : RawRow) :
  NoDup (keys (normalize_row raw_row))
  /\ (forall k, In k (keys (normalize_row raw_row)) <-> In k CANONICAL_FIELDS).
Proof.
  unfold normalize_row.
  destruct (normalize_loop_keys raw_row [] (NoDup_nil _) (fun k (F : In k []) => match F with end))
    as (Hnd & Hsub).
  set (out := fold_left (fun acc kv => normalize_field acc (fst kv) (snd kv))
                        raw_row []) in *.
  split.
  - repeat apply NoDup_keys_setdefault. exact Hnd.
  - intros k. rewrite !in_keys_setdefault. unfold CANONICAL_FIELDS. simpl.
    split.
    + intros [->|[->|[->|[->|[->|Hk]]]]]; auto 10.
      apply Hsub in Hk. exact Hk.
    + intros [<-|[<-|[<-|[<-|[<-|[]]]]]]; auto 10.
Qed.

(** ** The error entry *)

Section ErrorEntries.

Context `{Collaborators}.

Ltac row_frame :=
  unfold bind, call, ret; repeat break_match;
  intros E; inversion E; subst; cbn;
  repeat split; auto; try discriminate; eauto 10.

(** A step inside a row keeps the current row and the error accumulator, and
    leads to the error handler only with a message. *)
Lemma step_mid_row n s n' s' l :
  mid_row n = true ->
  step n s = Some (n', s', l) ->
  current_row s' = current_row s
  /\ error_rows s' = error_rows s
  /\ (mid_row n' = true \/ n' = N_log_duplicate \/ n' = N_next_row
      \/ (n' = N_error_handler /\ exists reason, error_message s' = Some reason)).
Proof.
  intros Hmid. destruct n; try discriminate Hmid; clear Hmid;
    unfold step, run_node.
  - unfold places_search_node. row_frame.
  - unfold standardize_node. row_frame.
  - unfold database_query_node. row_frame.
  - unfold confidence_scoring_node. row_frame.
  - unfold occupancy_classification_node. row_frame.
  - unfold format_output_node. row_frame.
  - unfold verify_output_node, option_map. row_frame.
Qed.

Lemma path_to_error_handler k n s s' l :
  steps (Node_eqb N_next_row) k n s N_error_handler s' l ->
  mid_row n = true ->
  current_row s' = current_row s
  /\ error_rows s' = error_rows s
  /\ exists reason, error_message s' = Some reason.
Proof.
  remember N_error_handler as target eqn:Et.
  induction 1 as [n s | k n s n1 s1 l1 n2 s2 l2 _ Hs Hrest IH]; intros Hmid.
  - subst n. discriminate Hmid.
  - destruct (step_mid_row _ _ _ _ _ Hmid Hs) as (Hrow & Herr & Hnext).
    destruct Hnext as [Hmid1 | [-> | [-> | (-> & reason & Hmsg)]]].
    + destruct (IH Et Hmid1) as (Hrow' & Herr' & Hmsg).
      repeat split; [congruence | congruence | exact Hmsg].
    + exfalso. subst n2. inversion Hrest; subst.
      match goal with
      | Hl : step N_log_duplicate _ = Some _ |- _ =>
          unfold step in Hl; simpl in Hl; inversion Hl; subst
      end.
      match goal with
      | Hr : steps _ _ N_next_row _ N_error_handler _ _ |- _ =>
          inversion Hr; subst; discriminate
      end.
    + exfalso. subst n2. inversion Hrest; subst. discriminate.
    + inversion Hrest; subst.
      * repeat split; eauto.
      * exfalso.
        match goal with
        | Hl : step N_error_handler _ = Some _ |- _ =>
            unfold step in Hl; simpl in Hl; inversion Hl; subst
        end.
        match goal with
        | Hr : steps _ _ N_next_row _ N_error_handler _ _ |- _ =>
            inversion Hr; subst; discriminate
        end.
Qed.

(** C5, as the code has it: the error handler appends the current row, which
    is the normalized row (the five canonical fields with stripped values),
    with [error_reason] set to the error message in the state; it leaves the
    other two accumulators alone.  When a row of the input is routed to the
    error handler, the state holds a message, the one that places search or
    output verification reported, and the current row is the normalized form
    of that input row. *)
Theorem error_entry_is_normalized_row :
  (forall s,
     exists s',
       step N_error_handler s = Some (N_next_row, s', [])
       /\ error_rows s'
          = error_rows s ++ [with_error_reason (current_row s) (error_message s)]
       /\ successful_rows s' = successful_rows s
       /\ duplicate_log s' = duplicate_log s)
  /\ (forall s raw k s_err l,
        nth_error (csv_rows s) (current_row_index s) = Some raw ->
        steps (Node_eqb N_next_row) k N_parse_row s N_error_handler s_err l ->
        exists reason s',
          error_message s_err = Some reason
          /\ step N_error_handler s_err = Some (N_next_row, s', [])
          /\ error_rows s'
             = error_rows s ++ [with_error_reason (normalize_row raw) (Some reason)]
          /\ keys (with_error_reason (normalize_row raw) (Some reason))
             = keys (normalize_row raw) ++ ["error_reason"]).
Proof.
  split.
  - intros s. eexists. split; [reflexivity|]. cbn. auto.
  - intros s raw k s_err l Hraw Hsteps.
    inversion Hsteps as [| k' n0 s0 n1 s1 l1 n2 s2 l2 _ Hparse Hrest]; subst.
    unfold step, run_node, parse_row_node, ret in Hparse. rewrite Hraw in Hparse.
    inversion Hparse; subst; clear Hparse.
    destruct (path_to_error_handler _ _ _ _ _ Hrest eq_refl)
      as (Hrow & Herr & reason & Hmsg).
    cbn in Hrow, Herr.
    exists reason. eexists. split; [exact Hmsg|]. split; [reflexivity|].
    cbn. rewrite Hrow, Herr, Hmsg. split; [reflexivity|].
    unfold with_error_reason.
    assert (Hkeys : keys (map (fun kv : string * string => (fst kv, Some (snd kv)))
                              (normalize_row raw))
                    = keys (normalize_row raw)).
    { unfold keys. rewrite map_map. reflexivity. }
    rewrite keys_dset_new; rewrite Hkeys; [reflexivity|].
    intros Hin. apply normalize_row_keys in Hin.
    simpl in Hin. intuition discriminate.
Qed.

End ErrorEntries.

Lemma error_entry_is_normalized_row_witness :
  exists s_err l reason s',
    @steps nothing_found (Node_eqb N_next_row) 2 N_parse_row
           (initial_state [joes_row]) N_error_handler s_err l
    /\ error_message s_err = Some reason
    /\ @step nothing_found N_error_handler s_err = Some (N_next_row, s', [])
    /\ error_rows s'
       = [with_error_reason (normalize_row joes_row) (Some reason)].
Proof.
  assert (P : exists s_err l,
             @steps nothing_found (Node_eqb N_next_row) 2 N_parse_row
                    (initial_state [joes_row]) N_error_handler s_err l).
  { do 2 eexists.
    eapply steps_cons; [reflexivity | vm_compute; reflexivity |].
    eapply steps_cons; [reflexivity | vm_compute; reflexivity |].
    apply steps_refl. }
  destruct P as (s_err & l & P).
  destruct (proj2 (@error_entry_is_normalized_row nothing_found)
              (initial_state [joes_row]) joes_row 2 s_err l eq_refl P)
    as (reason & s' & Hmsg & Hstep & Hrows & _).
  exists s_err, l, reason, s'. repeat split; assumption.
Defined.

(** C5, as the specification words it, fails: the entry of a row whose
    address is not found carries the five canonical keys with stripped
    values, not the headers and values of the input file; the column that
    the normalizer does not map is lost. *)
Lemma error_entry_is_not_the_raw_row :
  exists s l e,
    @run_premises_processing nothing_found 11 [joes_row] = Finished s l
    /\ error_rows s = [e]
    /\ keys e = ["name"; "address"; "city"; "state"; "postal_code"; "error_reason"]
    /\ dget "name" e = Some (Some "joe's diner")
    /\ dget "business_name" e = None
    /\ dget "Phone" e = None
    /\ dget "error_reason" e
       = Some (Some "Address not found: 1 Main St, Los Angeles, CA")
    /\ ~ dict_eq e (raw_error_entry joes_row
                      "Address not found: 1 Main St, Los Angeles, CA").
Proof.
  do 3 eexists. split; [vm_compute; reflexivity|].
  split; [reflexivity|]. do 5 (split; [reflexivity|]).
  intros Heq. specialize (Heq "Phone"). vm_compute in Heq. discriminate Heq.
Qed.

(** ** The field normalizer on canonical rows *)

Lemma lstrip_head s :
  Py.lstrip s = "" \/ exists c r, Py.lstrip s = String c r /\ Py.is_space c = false.
Proof.
  induction s as [|c r IH]; simpl; [now left|].
  destruct (Py.is_space c) eqn:E; [exact IH|]. right. now exists c, r.
Qed.

Lemma lstrip_rstrip s : Py.lstrip (Py.rstrip s) = Py.rstrip (Py.lstrip s).
Proof.
  induction s as [|c r IH]; [reflexivity|].
  cbn [Py.rstrip Py.lstrip]. destruct (Py.is_space c) eqn:E.
  - rewrite <- IH. destruct (Py.rstrip r) as [|c' r']; simpl; [reflexivity|].
    now rewrite E.
  - cbn [Py.rstrip]. destruct (Py.rstrip r) as [|c' r']; simpl; now rewrite E.
Qed.

Lemma lstrip_idempotent s : Py.lstrip (Py.lstrip s) = Py.lstrip s.
Proof.
  destruct (lstrip_head s) as [-> | (c & r & -> & E)]; [reflexivity|].
  simpl. now rewrite E.
Qed.

Lemma rstrip_cons c r :
  Py.rstrip (String c r)
  = match Py.rstrip r with
    | EmptyString => if Py.is_space c then EmptyString else String c EmptyString
    | r' => String c r'
    end.
Proof. reflexivity. Qed.

Lemma rstrip_idempotent s : Py.rstrip (Py.rstrip s) = Py.rstrip s.
Proof.
  induction s as [|c r IH]; [reflexivity|]. rewrite rstrip_cons.
  destruct (Py.rstrip r) as [|c' r'] eqn:Er.
  - destruct (Py.is_space c) eqn:E; [reflexivity|]. simpl. now rewrite E.
  - rewrite rstrip_cons, IH. reflexivity.
Qed.

(** Stripping a stripped string changes nothing. *)
Lemma strip_idempotent s : Py.strip (Py.strip s) = Py.strip s.
Proof.
  unfold Py.strip.
  now rewrite lstrip_rstrip, rstrip_idempotent, lstrip_idempotent.
Qed.

Lemma normalize_field_canonical (acc : Row) (key value : string) :
  In key CANONICAL_FIELDS ->
  normalize_field acc key value = dset key (Py.strip value) acc.
Proof.
  intros [<-|[<-|[<-|[<-|[<-|[]]]]]]; reflexivity.
Qed.

Lemma normalize_loop_canonical (r : RawRow) :
  (forall k, In k (keys r) -> In k CANONICAL_FIELDS) ->
  forall acc,
    fold_left (fun acc kv => normalize_field acc (fst kv) (snd kv)) r acc
    = fold_left (fun acc kv => dset (fst kv) (Py.strip (snd kv)) acc) r acc.
Proof.
  induction r as [|[k v] r IH]; intros Hk acc; simpl; [reflexivity|].
  rewrite normalize_field_canonical by (apply Hk; now left).
  apply IH. intros k' Hk'. apply Hk. now right.
Qed.

Lemma dget_assignments (r : dict string) :
  NoDup (keys r) ->
  forall acc k,
    dget k (fold_left (fun acc kv => dset (fst kv) (Py.strip (snd kv)) acc) r acc)
    = match dget k (stripped_values r) with
      | Some v => Some v
      | None => dget k acc
      end.
Proof.
  induction r as [|[k0 v0] r IH]; intros Hnd acc k; simpl; [reflexivity|].
  inversion Hnd as [|? ? Hout Hnd']; subst.
  rewrite IH by exact Hnd'. rewrite dget_dset.
  destruct (String.eqb k k0) eqn:E; [|reflexivity].
  apply String.eqb_eq in E. subst k0.
  assert (Hnone : dget k (stripped_values r) = None).
  { apply dget_None_keys. unfold stripped_values, keys. rewrite map_map.
    exact Hout. }
  now rewrite Hnone.
Qed.

Lemma dget_Some_keys {V} (k : string) (d : dict V) :
  In k (keys d) -> exists v, dget k d = Some v.
Proof.
  intros Hin. destruct (dget k d) as [v|] eqn:E; [now exists v|].
  apply dget_None_keys in E. tauto.
Qed.

(** The normalizer on a row whose headers are the canonical ones: the
    assignments of the loop, and no default. *)
Lemma normalize_row_canonical (r : RawRow) :
  NoDup (keys r) ->
  (forall k, In k (keys r) <-> In k CANONICAL_FIELDS) ->
  dict_eq (normalize_row r) (stripped_values r).
Proof.
  intros Hnd Hkeys.
  assert (Hget : forall k,
             dget k (fold_left (fun acc kv => normalize_field acc (fst kv) (snd kv))
                               r [])
             = dget k (stripped_values r)).
  { intros k. rewrite normalize_loop_canonical by (intros k'; apply Hkeys).
    rewrite dget_assignments by exact Hnd.
    now destruct (dget k (stripped_values r)). }
  assert (Hpresent : forall k, In k CANONICAL_FIELDS ->
             In k (keys (fold_left
                           (fun acc kv => normalize_field acc (fst kv) (snd kv))
                           r []))).
  { intros k Hk. apply Hkeys in Hk.
    assert (Hk' : In k (keys (stripped_values r))).
    { unfold stripped_values, keys. rewrite map_map. exact Hk. }
    destruct (dget_Some_keys _ _ Hk') as (v & Hv).
    destruct (in_dec string_dec k
                (keys (fold_left
                         (fun acc kv => normalize_field acc (fst kv) (snd kv))
                         r []))) as [Hin | Hout]; [exact Hin|].
    apply dget_None_keys in Hout. rewrite Hget in Hout. congruence. }
  unfold normalize_row.
  rewrite (setdefault_present "name") by (apply Hpresent; simpl; tauto).
  rewrite (setdefault_present "address") by (apply Hpresent; simpl; tauto).
  rewrite (setdefault_present "city") by (apply Hpresent; simpl; tauto).
  rewrite (setdefault_present "state") by (apply Hpresent; simpl; tauto).
  rewrite (setdefault_present "postal_code") by (apply Hpresent; simpl; tauto).
  exact Hget.
Qed.

(** Every value of a normalized row is stripped. *)
Lemma normalize_row_values (raw_row : RawRow) :
  Forall (fun kv => Py.strip (snd kv) = snd kv) (normalize_row raw_row).
Proof.
  assert (Hset : forall k v (d : Row),
             Py.strip v = v ->
             Forall (fun kv => Py.strip (snd kv) = snd kv) d ->
             Forall (fun kv => Py.strip (snd kv) = snd kv) (dset k v d)).
  { intros k v d Hv. induction d as [|[k' v'] d IH]; simpl; intros Hd.
    - repeat constructor. exact Hv.
    - inversion Hd; subst. destruct (String.eqb k k'); constructor; auto. }
  assert (Hdefault : forall k (d : Row),
             Forall (fun kv => Py.strip (snd kv) = snd kv) d ->
             Forall (fun kv => Py.strip (snd kv) = snd kv) (setdefault k "" d)).
  { intros k d Hd. unfold setdefault. destruct (dget k d); [exact Hd|].
    now apply Hset. }
  assert (Hloop : forall r (acc : Row),
             Forall (fun kv => Py.strip (snd kv) = snd kv) acc ->
             Forall (fun kv => Py.strip (snd kv) = snd kv)
                    (fold_left (fun acc kv => normalize_field acc (fst kv) (snd kv))
                               r acc)).
  { induction r as [|[k v] r IH]; intros acc Hacc; simpl; [exact Hacc|].
    apply IH.
    destruct (normalize_field_cases acc k v) as [-> | (c & _ & ->)]; [exact Hacc|].
    apply Hset; [apply strip_idempotent | exact Hacc]. }
  unfold normalize_row. repeat apply Hdefault. apply Hloop. constructor.
Qed.

Lemma stripped_values_fixed (r : dict string) :
  Forall (fun kv => Py.strip (snd kv) = snd kv) r -> stripped_values r = r.
Proof.
  induction 1 as [|[k v] r Hv _ IH]; simpl; [reflexivity|].
  simpl in Hv. now rewrite Hv, IH.
Qed.

(** C8, as the code has it: on a row whose headers are exactly the five
    canonical ones the normalizer returns the row with every value stripped
    of surrounding white space, so it is a no-op when no value has leading
    or trailing white space; and normalizing any row twice is normalizing it
    once. *)
Theorem normalize_canonical_row (r : RawRow) :
  NoDup (keys r) ->
  (forall k, In k (keys r) <-> In k CANONICAL_FIELDS) ->
  dict_eq (normalize_row r) (stripped_values r)
  /\ ((forall k v, In (k, v) r -> Py.strip v = v) -> dict_eq (normalize_row r) r)
  /\ (forall raw_row : RawRow,
        dict_eq (normalize_row (normalize_row raw_row)) (normalize_row raw_row)).
Proof.
  intros Hnd Hkeys. split; [now apply normalize_row_canonical|]. split.
  - intros Hstripped k. rewrite (normalize_row_canonical r Hnd Hkeys k).
    rewrite stripped_values_fixed; [reflexivity|].
    apply Forall_forall. intros [k' v] Hin. simpl. eapply Hstripped, Hin.
  - intros raw_row k.
    rewrite (normalize_row_canonical (normalize_row raw_row)
               (proj1 (normalize_row_keys raw_row))
               (proj2 (normalize_row_keys raw_row)) k).
    now rewrite stripped_values_fixed by apply normalize_row_values.
Qed.

Lemma normalize_canonical_row_witness :
  dict_eq (normalize_row second_row) (stripped_values second_row)
  /\ ((forall k v, In (k, v) second_row -> Py.strip v = v) ->
      dict_eq (normalize_row second_row) second_row)
  /\ (forall raw_row : RawRow,
        dict_eq (normalize_row (normalize_row raw_row)) (normalize_row raw_row)).
Proof.
  apply (normalize_canonical_row second_row).
  - repeat (constructor; [simpl; intuition discriminate|]). constructor.
  - intros k. simpl. tauto.
Defined.

(** C8, as the specification words it, fails: the headers are exactly the
    canonical ones and the normalizer still changes the name. *)
Lemma normalize_strips_canonical_row :
  keys padded_row = CANONICAL_FIELDS
  /\ dget "name" padded_row = Some " Acme Tools "
  /\ dget "name" (normalize_row padded_row) = Some "Acme Tools"
  /\ ~ dict_eq (normalize_row padded_row) padded_row.
Proof.
  split; [reflexivity|]. split; [reflexivity|]. split; [reflexivity|].
  intros Heq. specialize (Heq "name"). vm_compute in Heq. discriminate Heq.
Qed.

(** ** Scenarios

    Runs of the whole graph on one row, with the test doubles. *)

(** An address in a state that does not exist goes to the error accumulator
    and no collaborator is called. *)
Example scenario_invalid_state :
  exists s,
    @run_premises_processing nothing_found 11
      [[("address", "123 Fake Street"); ("city", "Nowhereville"); ("state", "XX")]]
    = Finished s []
    /\ successful_rows s = []
    /\ duplicate_log s = []
    /\ map (dget "error_reason") (error_rows s)
       = [Some (Some "Invalid US state code: XX")].
Proof. eexists. split; [vm_compute; reflexivity|]. repeat split. Qed.

(** No stored premise nearby: the row is processed and was not checked for
    duplication. *)
Example scenario_new_premise :
  exists s l o,
    @run_premises_processing (town None [] 3) 11 [second_row] = Finished s l
    /\ successful_rows s = [o]
    /\ Premise_Name o = "Second Cup"
    /\ _duplicate_checked o = false
    /\ error_rows s = []
    /\ duplicate_log s = [].
Proof. do 3 eexists. split; [vm_compute; reflexivity|]. repeat split. Qed.

(** A stored premise nearby, scored 9: one entry in the duplicate log, none
    processed. *)
Example scenario_duplicate :
  exists s l e,
    @run_premises_processing (town None [known_premise] 9) 11 [second_row]
    = Finished s l
    /\ duplicate_log s = [e]
    /\ dup_matched_premise_id e = Some 7%Z
    /\ dup_confidence_score e = Some 9%Z
    /\ successful_rows s = []
    /\ error_rows s = [].
Proof. do 3 eexists. split; [vm_compute; reflexivity|]. repeat split. Qed.

(** A stored premise nearby, scored 6: the row is processed and carries the
    score. *)
Example scenario_low_score :
  exists s l o,
    @run_premises_processing (town None [known_premise] 6) 11 [second_row]
    = Finished s l
    /\ successful_rows s = [o]
    /\ _duplicate_checked o = true
    /\ _confidence_score o = Some 6%Z
    /\ duplicate_log s = [].
Proof. do 3 eexists. split; [vm_compute; reflexivity|]. repeat split. Qed.

(** * Further properties of the nodes *)

(** ** The field normalizer on any row *)

Lemma normalize_csv_field_cases (acc : Row) (key : option string)
    (value : CsvValue) :
  match key, value with
  | None, _ => normalize_csv_field acc key value = None
  | Some header, Cell text =>
      normalize_csv_field acc key value = Some (normalize_field acc header text)
  | Some header, _ =>
      if reads header
      then normalize_csv_field acc key value = None
      else normalize_csv_field acc key value = Some acc
           /\ forall text, normalize_field acc header text = acc
  end.
Proof.
  destruct key as [header|]; [|now destruct value].
  unfold normalize_csv_field, normalize_field, reads. cbv zeta.
  set (key_lower := Py.strip (Py.lower header)).
  destruct (Py.any_in _ key_lower || _);
    [destruct value; reflexivity|].
  destruct (Py.any_in _ key_lower && _);
    [destruct value; reflexivity|].
  destruct (Py.any_in _ key_lower);
    [destruct value; reflexivity|].
  destruct (Py.contains "state" key_lower || _);
    [destruct value; reflexivity|].
  destruct (Py.contains "postal" key_lower || _);
    destruct value; simpl; auto.
Qed.

Lemma normalize_csv_loop_None (raw_row : CsvRow) :
  normalize_csv_loop raw_row None = None.
Proof. induction raw_row as [|kv rest IH]; [reflexivity | exact IH]. Qed.

(** A loop that returns has computed what the graph's normalizer computes
    on the text of the row. *)
Lemma normalize_csv_loop_text (raw_row : CsvRow) :
  forall acc out,
    normalize_csv_loop raw_row (Some acc) = Some out ->
    out = fold_left (fun acc kv => normalize_field acc (fst kv) (snd kv))
                    (text_part raw_row) acc.
Proof.
  induction raw_row as [|[key value] rest IH]; intros acc out Hloop.
  - simpl in Hloop. now injection Hloop as <-.
  - unfold normalize_csv_loop in Hloop. cbn [fold_left fst snd] in Hloop.
    fold (normalize_csv_loop rest (normalize_csv_field acc key value)) in Hloop.
    pose proof (normalize_csv_field_cases acc key value) as Hcase.
    destruct key as [header|].
    + destruct value as [text| |cells].
      * rewrite Hcase in Hloop. apply IH in Hloop. exact Hloop.
      * destruct (reads header).
        -- rewrite Hcase, normalize_csv_loop_None in Hloop. discriminate Hloop.
        -- destruct Hcase as (Hsame & Hskip). rewrite Hsame in Hloop.
           apply IH in Hloop. cbn [text_part flat_map app fold_left fst snd].
           fold (text_part rest). now rewrite Hskip.
      * destruct (reads header).
        -- rewrite Hcase, normalize_csv_loop_None in Hloop. discriminate Hloop.
        -- destruct Hcase as (Hsame & Hskip). rewrite Hsame in Hloop.
           apply IH in Hloop. cbn [text_part flat_map app fold_left fst snd].
           fold (text_part rest). now rewrite Hskip.
    + rewrite Hcase, normalize_csv_loop_None in Hloop. discriminate Hloop.
Qed.

Lemma normalize_csv_loop_raises (raw_row : CsvRow) :
  forall acc, normalize_csv_loop raw_row (Some acc) = None <-> ragged raw_row.
Proof.
  induction raw_row as [|[key value] rest IH]; intros acc.
  - split; [discriminate|]. intros (k & v & [] & _).
  - unfold normalize_csv_loop. cbn [fold_left fst snd].
    fold (normalize_csv_loop rest (normalize_csv_field acc key value)).
    pose proof (normalize_csv_field_cases acc key value) as Hcase.
    assert (Hrest : ragged rest -> ragged ((key, value) :: rest)).
    { intros (k & v & Hin & Hbad). exists k, v. split; [now right | exact Hbad]. }
    assert (Hhead : forall header,
               key = Some header -> reads header = true ->
               (forall text, value <> Cell text) ->
               ragged ((key, value) :: rest)).
    { intros header Hk Hr Hv. exists key, value. split; [now left|].
      right. exists header. auto. }
    assert (Hsplit : ragged ((key, value) :: rest) ->
                     key = None
                     \/ (exists header, key = Some header /\ reads header = true
                                        /\ forall text, value <> Cell text)
                     \/ ragged rest).
    { intros (k & v & [Hin | Hin] & Hbad).
      - injection Hin as <- <-. destruct Hbad as [Hnone | Hbad]; auto.
      - right. right. exists k, v. auto. }
    destruct key as [header|].
    + destruct value as [text| |cells].
      * rewrite Hcase, IH. split; [exact Hrest|].
        intros Hr. destruct (Hsplit Hr) as [E | [(h & _ & _ & Hv) | Hr']];
          [discriminate E | now contradiction (Hv text) | exact Hr'].
      * destruct (reads header) eqn:Hreads.
        -- rewrite Hcase, normalize_csv_loop_None. split; [|reflexivity].
           intros _. apply (Hhead header eq_refl Hreads). discriminate.
        -- destruct Hcase as (Hsame & _). rewrite Hsame, IH.
           split; [exact Hrest|].
           intros Hr. destruct (Hsplit Hr) as [E | [(h & Eh & Hh & _) | Hr']];
             [discriminate E | injection Eh as <-; congruence | exact Hr'].
      * destruct (reads header) eqn:Hreads.
        -- rewrite Hcase, normalize_csv_loop_None. split; [|reflexivity].
           intros _. apply (Hhead header eq_refl Hreads). discriminate.
        -- destruct Hcase as (Hsame & _). rewrite Hsame, IH.
           split; [exact Hrest|].
           intros Hr. destruct (Hsplit Hr) as [E | [(h & Eh & Hh & _) | Hr']];
             [discriminate E | injection Eh as <-; congruence | exact Hr'].
    + rewrite Hcase, normalize_csv_loop_None. split; [|reflexivity].
      intros _. exists None, value. split; [now left | now left].
Qed.

Lemma text_part_text_row (raw_row : RawRow) : text_part (text_row raw_row) = raw_row.
Proof.
  induction raw_row as [|[key text] rest IH]; [reflexivity|].
  unfold text_part, text_row in *. simpl. now rewrite IH.
Qed.

Lemma text_row_not_ragged (raw_row : RawRow) : ~ ragged (text_row raw_row).
Proof.
  intros (key & value & Hin & Hbad). unfold text_row in Hin.
  apply in_map_iff in Hin. destruct Hin as ([k text] & E & _).
  injection E as <- <-.
  destruct Hbad as [E | (header & _ & _ & Hv)];
    [discriminate E | now contradiction (Hv text)].
Qed.

(** X1: on a row as the CSV reader yields it the field normalizer raises
    exactly when the row has the key [None] (a line longer than the header)
    or a header that the normalizer reads with no text under it (a line
    shorter than the header); a missing cell under a header that it does not
    read is harmless.  When it returns, the normalized row is the one of the
    text of the row: it has the five canonical keys, each once, and every
    value is free of leading and trailing white space.  On a row of text it
    always returns. *)
Theorem normalize_row_schema (raw_row : CsvRow) :
  (normalize_csv_row raw_row = None <-> ragged raw_row)
  /\ (forall row,
        normalize_csv_row raw_row = Some row ->
        row = normalize_row (text_part raw_row)
        /\ NoDup (keys row)
        /\ (forall k, In k (keys row) <-> In k CANONICAL_FIELDS)
        /\ (forall k, In k CANONICAL_FIELDS ->
                      exists v, dget k row = Some v /\ Py.strip v = v))
  /\ (forall text : RawRow,
        raw_row = text_row text ->
        normalize_csv_row raw_row = Some (normalize_row text)).
Proof.
  assert (Hreturns : forall row,
             normalize_csv_row raw_row = Some row ->
             row = normalize_row (text_part raw_row)).
  { intros row Hrow. unfold normalize_csv_row in Hrow.
    destruct (normalize_csv_loop raw_row (Some [])) as [out|] eqn:Hloop;
      [|discriminate Hrow].
    apply normalize_csv_loop_text in Hloop. subst out.
    injection Hrow as <-. reflexivity. }
  assert (Hraises : normalize_csv_row raw_row = None <-> ragged raw_row).
  { pose proof (normalize_csv_loop_raises raw_row []) as Hloop.
    unfold normalize_csv_row.
    destruct (normalize_csv_loop raw_row (Some [])) as [out|] eqn:E.
    - split; [discriminate|]. intros Hr.
      pose proof (eq_trans (eq_sym E) (proj2 Hloop Hr)) as Habs.
      discriminate Habs.
    - split; [|reflexivity]. intros _. exact (proj1 Hloop E). }
  split; [exact Hraises|]. split.
  - intros row Hrow. apply Hreturns in Hrow. subst row.
    split; [reflexivity|].
    destruct (normalize_row_keys (text_part raw_row)) as (Hnd & Hkeys).
    split; [exact Hnd|]. split; [exact Hkeys|].
    intros k Hk. apply Hkeys in Hk.
    destruct (dget_Some_keys _ _ Hk) as (v & Hv). exists v. split; [exact Hv|].
    pose proof (normalize_row_values (text_part raw_row)) as Hvals.
    rewrite Forall_forall in Hvals.
    assert (Hin : In (k, v) (normalize_row (text_part raw_row))).
    { clear - Hv. induction (normalize_row (text_part raw_row)) as [|[k' v'] d IH];
        simpl in *; [discriminate|].
      destruct (String.eqb k k') eqn:E.
      - apply String.eqb_eq in E. subst. injection Hv as ->. now left.
      - right. auto. }
    exact (Hvals _ Hin).
  - intros text ->.
    destruct (normalize_csv_row (text_row text)) as [row|] eqn:Hrow.
    + rewrite (Hreturns row eq_refl), text_part_text_row. reflexivity.
    + exfalso. apply (text_row_not_ragged text). now apply Hraises.
Qed.

Lemma normalize_row_schema_witness :
  normalize_csv_row
    [(Some "Name", Cell " Joe's "); (Some "Street", Cell "1 Main St");
     (Some "City", NoCell); (Some "Phone", NoCell)]
  = None
  /\ normalize_csv_row
       [(Some "Name", Cell " Joe's "); (Some "Street", Cell "1 Main St");
        (Some "Phone", NoCell)]
     = Some [("name", "Joe's"); ("address", "1 Main St"); ("city", "");
             ("state", ""); ("postal_code", "")].
Proof.
  split.
  - apply (normalize_row_schema
             [(Some "Name", Cell " Joe's "); (Some "Street", Cell "1 Main St");
              (Some "City", NoCell); (Some "Phone", NoCell)]).
    exists (Some "City"), NoCell. split; [simpl; auto|].
    right. exists "City". split; [reflexivity|].
    split; [vm_compute; reflexivity | discriminate].
  - vm_compute. reflexivity.
Defined.

(** X2: a column whose header contains [name] is never taken for the
    address, whatever else the header contains: [street_name] or
    [location name] leave the address as it was. *)
Theorem name_header_is_not_address (acc : Row) (key value : string) :
  Py.contains "name" (Py.strip (Py.lower key)) = true ->
  dget "address" (normalize_field acc key value) = dget "address" acc.
Proof.
  intros Hname. unfold normalize_field. rewrite Hname.
  rewrite andb_false_r.
  repeat match goal with
         | |- context [if ?b then _ else _] => destruct b
         end;
    rewrite ?dget_dset; reflexivity.
Qed.

Lemma name_header_is_not_address_witness :
  dget "address" (normalize_field [("address", "1 Main St")] "Street_Name" "Elm")
  = dget "address" [("address", "1 Main St")].
Proof.
  apply (name_header_is_not_address [("address", "1 Main St")] "Street_Name" "Elm").
  vm_compute. reflexivity.
Defined.

(** ** Address components *)

Lemma parse_component_cases (parsed : dict string) (c : AddressComponent) :
  parse_component parsed c = parsed
  \/ (exists k, In k ["street_number"; "city"; "postal_code"]
                /\ parse_component parsed c = dset k (ac_long_name c) parsed)
  \/ (Py.mem "route" (ac_types c) = true
      /\ parse_component parsed c = dset "route" (ac_long_name c) parsed)
  \/ parse_component parsed c
     = dset "state_code" (ac_short_name c) (dset "state" (ac_long_name c) parsed).
Proof.
  unfold parse_component.
  destruct (Py.mem "street_number" (ac_types c));
    [right; left; exists "street_number"; simpl; auto|].
  destruct (Py.mem "route" (ac_types c)); [right; right; left; auto|].
  destruct (Py.mem "locality" (ac_types c));
    [right; left; exists "city"; simpl; auto|].
  destruct (Py.mem "administrative_area_level_1" (ac_types c)); [auto|].
  destruct (Py.mem "postal_code" (ac_types c));
    [right; left; exists "postal_code"; simpl; auto 6 | auto].
Qed.

Lemma parse_component_invariant no_route parsed c :
  (no_route = true -> Py.mem "route" (ac_types c) = false) ->
  parsed_invariant no_route parsed ->
  parsed_invariant no_route (parse_component parsed c).
Proof.
  intros Hc (Hnd & Hsub & Hst & Hroute).
  destruct (parse_component_cases parsed c)
    as [-> | [(k & Hk & ->) | [(Hr & ->) | ->]]].
  - repeat split; auto; apply Hst.
  - repeat split.
    + now apply NoDup_keys_dset.
    + intros k' Hk'. apply in_keys_dset in Hk' as [-> | Hk']; auto.
      simpl in Hk. simpl. intuition (subst; auto).
    + rewrite !dget_dset.
      destruct Hk as [<-|[<-|[<-|[]]]]; simpl; apply Hst.
    + rewrite !dget_dset.
      destruct Hk as [<-|[<-|[<-|[]]]]; simpl; apply Hst.
    + intros Hn. rewrite dget_dset.
      destruct Hk as [<-|[<-|[<-|[]]]]; simpl; auto.
  - repeat split.
    + now apply NoDup_keys_dset.
    + intros k' Hk'. apply in_keys_dset in Hk' as [-> | Hk']; auto.
      simpl. auto.
    + rewrite !dget_dset. simpl. apply Hst.
    + rewrite !dget_dset. simpl. apply Hst.
    + intros Hn. rewrite (Hc Hn) in Hr. discriminate Hr.
  - repeat split.
    + now do 2 apply NoDup_keys_dset.
    + intros k' Hk'. apply in_keys_dset in Hk' as [-> | Hk']; [simpl; auto 6|].
      apply in_keys_dset in Hk' as [-> | Hk']; [simpl; auto 6 | auto].
    + rewrite !dget_dset. simpl. discriminate.
    + rewrite !dget_dset. simpl. discriminate.
    + intros Hn. rewrite !dget_dset. simpl. auto.
Qed.

Lemma parse_loop_invariant no_route (comps : list AddressComponent) :
  (no_route = true -> forall c, In c comps -> Py.mem "route" (ac_types c) = false) ->
  forall parsed,
    parsed_invariant no_route parsed ->
    parsed_invariant no_route (fold_left parse_component comps parsed).
Proof.
  induction comps as [|c comps IH]; intros Hcomps parsed Hinv; simpl; [exact Hinv|].
  apply IH.
  - intros Hn c' Hc'. apply Hcomps; [exact Hn | now right].
  - apply parse_component_invariant; [|exact Hinv].
    intros Hn. apply Hcomps; [exact Hn | now left].
Qed.

(** X3: the parsed address has no key outside the seven that the parser
    knows and no key twice; [address_line_1] is always there; the state name
    and the state code are there together or not at all; and without a
    route component the address line is empty, a street number alone being
    dropped. *)
Theorem parse_address_components_shape (comps : list AddressComponent) :
  let parsed := parse_address_components comps in
  NoDup (keys parsed)
  /\ (forall k, In k (keys parsed) -> In k PARSED_KEYS)
  /\ (exists line, dget "address_line_1" parsed = Some line)
  /\ (dget "state" parsed = None <-> dget "state_code" parsed = None)
  /\ ((forall c, In c comps -> Py.mem "route" (ac_types c) = false) ->
      dget "address_line_1" parsed = Some "").
Proof.
  cbv zeta.
  assert (Hall : forall no_route,
             (no_route = true ->
              forall c, In c comps -> Py.mem "route" (ac_types c) = false) ->
             parsed_invariant no_route (fold_left parse_component comps [])).
  { intros no_route Hn. apply parse_loop_invariant; [exact Hn|].
    repeat split; simpl; try constructor; tauto. }
  destruct (Hall false) as (Hnd & Hsub & Hst & _); [discriminate|].
  assert (Hshape : forall line,
             NoDup (keys (dset "address_line_1" line
                               (fold_left parse_component comps [])))
             /\ (forall k,
                    In k (keys (dset "address_line_1" line
                                     (fold_left parse_component comps []))) ->
                    In k PARSED_KEYS)
             /\ (exists line',
                    dget "address_line_1"
                         (dset "address_line_1" line
                               (fold_left parse_component comps []))
                    = Some line')
             /\ (dget "state" (dset "address_line_1" line
                                    (fold_left parse_component comps [])) = None
                 <-> dget "state_code"
                          (dset "address_line_1" line
                                (fold_left parse_component comps [])) = None)).
  { intros line. repeat split.
    - now apply NoDup_keys_dset.
    - intros k Hk. apply in_keys_dset in Hk as [-> | Hk]; [simpl; auto 10|].
      apply Hsub in Hk. simpl in Hk. simpl. intuition auto.
    - rewrite dget_dset. simpl. eauto.
    - rewrite !dget_dset. simpl. apply Hst.
    - rewrite !dget_dset. simpl. apply Hst. }
  unfold parse_address_components.
  set (parsed := fold_left parse_component comps []) in *.
  repeat split;
    try (destruct (Py.truthy (dget_or "street_number" "" parsed)
                   && Py.truthy (dget_or "route" "" parsed));
         [|destruct (Py.truthy (dget_or "route" "" parsed))];
         apply Hshape).
  intros Hnoroute.
  destruct (Hall true (fun _ => Hnoroute)) as (_ & _ & _ & Hr).
  fold parsed in Hr. unfold dget_or. rewrite (Hr eq_refl). simpl.
  rewrite andb_false_r. now rewrite dget_dset.
Qed.

Lemma parse_address_components_shape_witness :
  dget "address_line_1"
       (parse_address_components
          [ {| ac_types := ["street_number"]; ac_long_name := "12";
               ac_short_name := "12" |};
            {| ac_types := ["postal_code"]; ac_long_name := "90001";
               ac_short_name := "90001" |} ])
  = Some "".
Proof.
  apply (parse_address_components_shape
           [ {| ac_types := ["street_number"]; ac_long_name := "12";
                ac_short_name := "12" |};
             {| ac_types := ["postal_code"]; ac_long_name := "90001";
                ac_short_name := "90001" |} ]).
  intros c [<- | [<- | []]]; reflexivity.
Defined.

(** ** The standardizer *)

Lemma collapse_from_single_spaced (s : string) :
  forall in_run, single_spaced_from in_run (Py.collapse_from in_run s) = true.
Proof.
  induction s as [|c r IH]; intros in_run; simpl; [reflexivity|].
  destruct (Py.is_space c) eqn:Ec.
  - destruct in_run; [apply IH|]. simpl. apply IH.
  - simpl. rewrite Ec. apply IH.
Qed.

(** X4: whenever the standardizer returns, that is on a state with no
    place result or with one that carries a name, the standardized name has
    no white space but single spaces, on either branch and whatever the
    names are, and the standardized address has the five keys
    [address_line_1], [city], [state], [state_code], [postal_code] in that
    order; the accumulators and the current row are left as they were. *)
Theorem standardize_output_shape (s : PremiseState) :
  let s' := apply_update (standardize_node s) s in
  single_spaced (standardized_name s') = true
  /\ keys (standardized_address s')
     = ["address_line_1"; "city"; "state"; "state_code"; "postal_code"]
  /\ same_accumulators s s'
  /\ current_row s' = current_row s.
Proof.
  cbv zeta.
  unfold standardize_node, standardize_with_places, standardize_fallback.
  destruct (standardize_branch s) as [r|]; cbn;
    (split; [apply collapse_from_single_spaced|]);
    repeat split.
Qed.

(** ** The database query *)

Section DatabaseQuery.

Context `{Collaborators}.

Lemma database_query_step (s : PremiseState) :
  exists sid found l,
    step N_database_query s
       = Some (match found with
               | [] => N_occupancy_classification
               | _ :: _ => N_confidence_scoring
               end,
               apply_update
                 [U_existing_premises found;
                  U_duplicate_found (match found with [] => false | _ => true end);
                  U_state_id sid;
                  U_state_code
                    (Some (dget_or "state_code" "" (standardized_address s)));
                  U_next_step (match found with
                               | [] => "occupancy_classification"
                               | _ => "confidence_scoring"
                               end);
                  U_error_message None] s,
               l).
Proof.
  unfold step, run_node, database_query_node, bind.
  destruct (lookup_state_id _ _) as [sid l0].
  destruct (nearby_premises (latitude s) (longitude s) sid) as [found l1].
  exists sid, found, (l0 ++ l1 ++ []).
  destruct found; reflexivity.
Qed.

(** X5: the database query never routes to the error handler and never
    touches an accumulator; it goes to confidence scoring exactly when it
    found candidates, with the duplicate flag set exactly then; and
    confidence scoring is entered from nowhere else, so its branch for an
    empty candidate list is never taken on a state of the graph. *)
Theorem database_query_routing :
  (forall s n' s' l,
     step N_database_query s = Some (n', s', l) ->
     ((n' = N_confidence_scoring /\ existing_premises s' <> []
       /\ duplicate_found s' = true)
      \/ (n' = N_occupancy_classification /\ existing_premises s' = []
          /\ duplicate_found s' = false))
     /\ state_code s' = Some (dget_or "state_code" "" (standardized_address s))
     /\ same_accumulators s s'
     /\ error_message s' = None)
  /\ (forall n s s' l,
        step n s = Some (N_confidence_scoring, s', l) ->
        n = N_database_query /\ existing_premises s' <> []).
Proof.
  assert (Hq : forall s n' s' l,
             step N_database_query s = Some (n', s', l) ->
             ((n' = N_confidence_scoring /\ existing_premises s' <> []
               /\ duplicate_found s' = true)
              \/ (n' = N_occupancy_classification /\ existing_premises s' = []
                  /\ duplicate_found s' = false))
             /\ state_code s' = Some (dget_or "state_code" "" (standardized_address s))
             /\ same_accumulators s s'
             /\ error_message s' = None).
  { intros s n' s' l Hstep.
    destruct (database_query_step s) as (sid & found & l' & Hs).
    rewrite Hs in Hstep. inversion Hstep; subst; clear Hstep.
    destruct found as [|p ps]; cbn; repeat split; auto.
    left. repeat split; auto. discriminate. }
  split; [exact Hq|].
  intros n s s' l Hstep.
  assert (Hn : n = N_database_query).
  { unfold step in Hstep. destruct (run_node n s) as [[u c]|]; [|discriminate].
    injection Hstep as Hedge _ _.
    destruct n; try reflexivity; try discriminate Hedge;
      cbn [edge] in Hedge;
      unfold route_after_parse, route_after_places, route_after_confidence,
        route_after_verify, route_next_row in Hedge;
      match type of Hedge with
      | context [if ?b then _ else _] => destruct b
      end; discriminate Hedge. }
  subst n. split; [reflexivity|].
  destruct (Hq _ _ _ _ Hstep) as ([(_ & Hne & _) | (E & _)] & _);
    [exact Hne | discriminate E].
Qed.

End DatabaseQuery.

Lemma database_query_routing_witness :
  exists s' l,
    @step (town None [known_premise] 9) N_database_query
          (apply_update [U_existing_premises []] scoring_state)
    = Some (N_confidence_scoring, s', l)
    /\ existing_premises s' <> []
    /\ duplicate_found s' = true.
Proof.
  assert (E : exists s' l,
             @step (town None [known_premise] 9) N_database_query
                   (apply_update [U_existing_premises []] scoring_state)
             = Some (N_confidence_scoring, s', l))
    by (do 2 eexists; vm_compute; reflexivity).
  destruct E as (s' & l & E). exists s', l. split; [exact E|].
  destruct (proj1 (@database_query_routing (town None [known_premise] 9)) _ _ _ _ E)
    as ([(_ & Hne & Hdup) | (Hn & _)] & _); [auto | discriminate Hn].
Defined.

(** ** The accumulators over a run *)

Section AppendOnly.

Context `{Collaborators}.

Lemma extends_refl {A} (l : list A) : extends l l.
Proof. exists []. now rewrite app_nil_r. Qed.

Lemma extends_trans {A} (l1 l2 l3 : list A) :
  extends l1 l2 -> extends l2 l3 -> extends l1 l3.
Proof. intros (a & ->) (b & ->). exists (a ++ b). now rewrite app_assoc. Qed.

Ltac grow_step :=
  unfold option_map, bind, call, ret; repeat break_match;
  intros E; inversion E; subst; cbn;
  repeat split; try apply extends_refl; try (eexists; reflexivity).

Lemma step_extends n s n' s' l :
  step n s = Some (n', s', l) ->
  csv_rows s' = csv_rows s
  /\ extends (successful_rows s) (successful_rows s')
  /\ extends (error_rows s) (error_rows s')
  /\ extends (duplicate_log s) (duplicate_log s').
Proof.
  destruct n; unfold step, run_node.
  - unfold parse_row_node. grow_step.
  - unfold places_search_node. grow_step.
  - unfold standardize_node. grow_step.
  - unfold database_query_node. grow_step.
  - unfold confidence_scoring_node. grow_step.
  - unfold occupancy_classification_node. grow_step.
  - unfold format_output_node. grow_step.
  - unfold verify_output_node. grow_step.
  - unfold log_duplicate_node. grow_step.
  - unfold error_handler_node. grow_step.
  - unfold next_row_node. grow_step.
  - unfold write_output_node. grow_step.
  - grow_step.
Qed.

(** X6: from any state and between any two nodes of the graph, the input
    rows stay as they are and each accumulator only receives entries at its
    end: an entry, once accumulated, is never removed, changed or moved. *)
Theorem accumulators_only_grow stop fuel n s s' l :
  run_until stop fuel n s = Finished s' l ->
  csv_rows s' = csv_rows s
  /\ extends (successful_rows s) (successful_rows s')
  /\ extends (error_rows s) (error_rows s')
  /\ extends (duplicate_log s) (duplicate_log s').
Proof.
  revert n s s' l. induction fuel as [|fuel IH]; intros n s s' l; simpl.
  - destruct (stop n); [|discriminate]. intros E; inversion E; subst.
    repeat split; apply extends_refl.
  - destruct (stop n).
    + intros E; inversion E; subst. repeat split; apply extends_refl.
    + destruct (step n s) as [[[n1 s1] l1]|] eqn:Hstep; [|discriminate].
      destruct (run_until stop fuel n1 s1) as [s2 l2| |] eqn:Hrun; try discriminate.
      intros E; inversion E; subst.
      destruct (step_extends _ _ _ _ _ Hstep) as (R1 & A1 & B1 & C1).
      destruct (IH _ _ _ _ Hrun) as (R2 & A2 & B2 & C2).
      repeat split; [congruence | | |]; eapply extends_trans; eauto.
Qed.

End AppendOnly.

Lemma accumulators_only_grow_witness :
  exists s l,
    @run_until (town None [] 3) (Node_eqb N_END) 21 N_parse_row
               (initial_state [second_row; joes_row]) = Finished s l
    /\ extends (successful_rows (initial_state [second_row; joes_row]))
               (successful_rows s).
Proof.
  assert (E : exists s l,
             @run_until (town None [] 3) (Node_eqb N_END) 21 N_parse_row
                        (initial_state [second_row; joes_row]) = Finished s l)
    by (do 2 eexists; vm_compute; reflexivity).
  destruct E as (s & l & E). exists s, l. split; [exact E|].
  exact (proj1 (proj2 (@accumulators_only_grow (town None [] 3) _ _ _ _ _ _ E))).
Defined.

(** ** The validator accepts exactly the valid records *)

Lemma Forall_filter_nil {A} (p : A -> bool) (l : list A) :
  Forall (fun x => p x = false) l -> filter p l = [].
Proof.
  induction 1 as [|x l Hx _ IH]; simpl; [reflexivity|]. now rewrite Hx.
Qed.

Lemma strip_empty_of_empty v : Py.truthy v = false -> Py.strip v = "".
Proof. destruct v; [reflexivity | discriminate]. Qed.

Lemma nonblank_is_not_blank v : Py.strip v <> "" -> is_blank v = false.
Proof.
  intros Hv. unfold is_blank.
  destruct (Py.truthy v) eqn:Et.
  - simpl. now apply String.eqb_neq.
  - now apply strip_empty_of_empty in Et.
Qed.

Section ExactValidation.

Context `{Collaborators}.

Lemma valid_no_errors (o : OutputRow) :
  valid_output o -> valid_country o -> collect_validation_errors o = [].
Proof.
  intros (Hreq & (lat & lng & Plat & Plng & (L1 & L2) & (G1 & G2) & Hzero)
          & Hstate & Hzip & Hstatus) (Hc & Hcs).
  unfold collect_validation_errors.
  assert (E1 : missing_field_errors o = []).
  { unfold missing_field_errors. rewrite Forall_filter_nil; [reflexivity|].
    eapply Forall_impl; [|exact Hreq]. intros fv. apply nonblank_is_not_blank. }
  assert (E2 : coordinate_errors o = []).
  { unfold coordinate_errors. rewrite Plat, Plng. simpl.
    apply Qle_bool_iff in L1, L2, G1, G2. rewrite L1, L2, G1, G2. simpl.
    destruct (Qeq_bool lat 0) eqn:Z1; [|reflexivity].
    destruct (Qeq_bool lng 0) eqn:Z2; [|reflexivity].
    apply Qeq_bool_iff in Z1, Z2. exfalso. apply Hzero. now split. }
  assert (E3 : state_errors o = []).
  { unfold state_errors. rewrite Hstate. now rewrite andb_false_r. }
  assert (E4 : postal_errors o = []).
  { unfold postal_errors. rewrite Hzip. now rewrite andb_false_r. }
  assert (E5 : status_errors o = []).
  { unfold status_errors. destruct Hstatus as [-> | ->]; reflexivity. }
  assert (E6 : country_errors o = []).
  { unfold country_errors.
    destruct Hc as [-> | ->], Hcs as [-> | ->]; reflexivity. }
  now rewrite E1, E2, E3, E4, E5, E6.
Qed.

Lemma no_errors_valid_country (o : OutputRow) :
  collect_validation_errors o = [] -> valid_country o.
Proof.
  unfold collect_validation_errors. intros E.
  do 5 (apply app_eq_nil in E as [_ E]).
  unfold country_errors in E. apply app_eq_nil in E as [Ec Ecs]. split.
  - revert Ec. destruct (Py.truthy (Country o)) eqn:Et.
    + destruct (String.eqb (Country o) "USA") eqn:Eq; simpl; [|discriminate].
      intros _. right. now apply String.eqb_eq.
    + intros _. left. now destruct (Country o).
  - revert Ecs. destruct (Py.truthy (Country_ShortName o)) eqn:Et.
    + destruct (String.eqb (Country_ShortName o) "US") eqn:Eq; simpl;
        [|discriminate].
      intros _. right. now apply String.eqb_eq.
    + intros _. left. now destruct (Country_ShortName o).
Qed.

(** X7: the validator reports no violation exactly for the records that
    satisfy the acceptance rules and the two country rules; and since the
    formatter always writes status [Active], country [USA] and short name
    [US], a record that the pipeline built is accepted exactly when it
    satisfies the acceptance rules. *)
Theorem validation_is_exact :
  (forall o,
     collect_validation_errors o = [] <-> valid_output o /\ valid_country o)
  /\ (forall s,
        collect_validation_errors (build_output_row s) = []
        <-> valid_output (build_output_row s)).
Proof.
  split.
  - intros o. split.
    + intros E. split; [now apply no_errors_valid | now apply no_errors_valid_country].
    + intros (Hv & Hc). now apply valid_no_errors.
  - intros s. split; [apply no_errors_valid|].
    intros Hv. apply valid_no_errors; [exact Hv|].
    split; right; reflexivity.
Qed.

End ExactValidation.

(** ** The order of the collaborator calls *)

Lemma increasing_from_lower lo lo' l :
  lo' <= lo -> increasing_from lo l = true -> increasing_from lo' l = true.
Proof.
  destruct l as [|k r]; simpl; [reflexivity|]. intros Hle Hinc.
  apply andb_true_iff in Hinc as [Hk Hr]. apply Nat.leb_le in Hk.
  rewrite Hr, andb_true_r. apply Nat.leb_le. lia.
Qed.

Lemma increasing_from_bound (l : list nat) :
  forall lo,
    lo <= 8 ->
    increasing_from lo l = true ->
    Forall (fun k => k < 8) l ->
    List.length l + lo <= 8 /\ NoDup l /\ Forall (fun k => lo <= k) l.
Proof.
  induction l as [|k l IH]; intros lo Hlo Hinc Hall; simpl in *.
  - split; [lia | split; constructor].
  - apply andb_true_iff in Hinc as [Hk Hr]. apply Nat.leb_le in Hk.
    inversion Hall as [|? ? Hk8 Hall']; subst.
    destruct (IH (S k) Hk8 Hr Hall') as (Hlen & Hnd & Hge).
    split; [lia | split].
    + constructor; [|exact Hnd]. intros Hin.
      rewrite Forall_forall in Hge. apply Hge in Hin. lia.
    + constructor; [exact Hk|].
      eapply Forall_impl; [|exact Hge]. intros x Hx. simpl in Hx. lia.
Qed.

Section CallOrder.

Context `{Collaborators}.

Ltac order_step :=
  unfold lookup_state_id, nearby_premises, option_map, bind, call, ret;
  repeat break_match;
  intros E; inversion E; subst; cbn;
  intros rest Hrest;
  rewrite ?Hrest; try reflexivity;
  solve [ eapply increasing_from_lower; [|exact Hrest]; cbn; lia ].

Lemma step_call_order n s n' s' l :
  n <> N_next_row ->
  step n s = Some (n', s', l) ->
  forall rest,
    increasing_from (stage n') rest = true ->
    increasing_from (stage n) (map call_kind l ++ rest) = true.
Proof.
  intros Hn. destruct n; try (now contradiction Hn); clear Hn;
    unfold step, run_node.
  - unfold parse_row_node. order_step.
  - unfold places_search_node. order_step.
  - unfold standardize_node. order_step.
  - unfold database_query_node. order_step.
  - unfold confidence_scoring_node. order_step.
  - unfold occupancy_classification_node. order_step.
  - unfold format_output_node. order_step.
  - unfold verify_output_node. order_step.
  - unfold log_duplicate_node. order_step.
  - unfold error_handler_node. order_step.
  - unfold write_output_node. order_step.
  - order_step.
Qed.

End CallOrder.

Lemma call_kind_bound (l : list Call) : Forall (fun k => k < 8) (map call_kind l).
Proof.
  induction l as [|c l IH]; simpl; constructor; [|exact IH].
  destruct c; simpl; lia.
Qed.

Section RowCalls.

Context `{Collaborators}.

Lemma run_call_order fuel :
  forall n s s' l,
    run_until (Node_eqb N_next_row) fuel n s = Finished s' l ->
    increasing_from (stage n) (map call_kind l) = true.
Proof.
  induction fuel as [|fuel IH]; intros n s s' l; cbn [run_until].
  - destruct (Node_eqb N_next_row n); [|discriminate].
    intros E; inversion E; subst. reflexivity.
  - destruct (Node_eqb N_next_row n) eqn:Estop.
    + intros E; inversion E; subst. reflexivity.
    + destruct (step n s) as [[[n1 s1] l1]|] eqn:Hstep; [|discriminate].
      destruct (run_until _ fuel n1 s1) as [s2 l2| |] eqn:Hrun; try discriminate.
      intros E; inversion E; subst. rewrite map_app.
      eapply step_call_order; [|exact Hstep|eapply IH; exact Hrun].
      intros ->. discriminate Estop.
Qed.

(** X8: while a row is processed the collaborators are called in one fixed
    order (geocoder, place search, state by code, state by name, spatial
    query, scorer, occupancy types, classifier) and each at most once: no
    call is repeated or retried, and a row costs at most eight calls. *)
Theorem row_calls_in_order (s : PremiseState) (fuel : nat) s' l :
  run_until (Node_eqb N_next_row) fuel N_parse_row s = Finished s' l ->
  increasing_from 0 (map call_kind l) = true
  /\ NoDup (map call_kind l)
  /\ List.length l <= 8.
Proof.
  intros Hrun. apply run_call_order in Hrun. cbn [stage] in Hrun.
  destruct (increasing_from_bound _ 0 (Nat.le_0_l 8) Hrun (call_kind_bound l))
    as (Hlen & Hnd & _).
  rewrite length_map in Hlen. repeat split; auto. lia.
Qed.

End RowCalls.

Lemma row_calls_in_order_witness :
  exists s' l,
    @run_until (town None [known_premise] 6) (Node_eqb N_next_row) 9 N_parse_row
               (initial_state [second_row]) = Finished s' l
    /\ map call_kind l = [0; 1; 2; 4; 5; 6; 7]
    /\ NoDup (map call_kind l).
Proof.
  assert (E : exists s' l,
             @run_until (town None [known_premise] 6) (Node_eqb N_next_row) 9
                        N_parse_row (initial_state [second_row]) = Finished s' l
             /\ map call_kind l = [0; 1; 2; 4; 5; 6; 7])
    by (do 2 eexists; split; vm_compute; reflexivity).
  destruct E as (s' & l & E & Hkinds). exists s', l.
  split; [exact E|]. split; [exact Hkinds|].
  exact (proj1 (proj2 (@row_calls_in_order (town None [known_premise] 6)
                         _ _ _ _ E))).
Defined.

(** ** The replies of the language model *)

Lemma digits_of_uint (u : Decimal.uint) :
  digit_run (NilEmpty.string_of_uint u) = NilEmpty.string_of_uint u
  /\ Py.lstrip (NilEmpty.string_of_uint u) = NilEmpty.string_of_uint u
  /\ Py.rstrip (NilEmpty.string_of_uint u) = NilEmpty.string_of_uint u.
Proof.
  induction u as [|u (Hd & Hl & Hr)|u (Hd & Hl & Hr)|u (Hd & Hl & Hr)
                  |u (Hd & Hl & Hr)|u (Hd & Hl & Hr)|u (Hd & Hl & Hr)
                  |u (Hd & Hl & Hr)|u (Hd & Hl & Hr)|u (Hd & Hl & Hr)
                  |u (Hd & Hl & Hr)];
    (split; [|split]); try reflexivity;
    cbn [NilEmpty.string_of_uint digit_run]; rewrite ?rstrip_cons, ?Hr;
    try (cbn; now rewrite Hd);
    destruct (NilEmpty.string_of_uint u); reflexivity.
Qed.

(** Reading back the decimal writing of a number that is not negative and
    is written with no more digits than [int] converts. *)
Lemma first_digits_str_int (n : Z) :
  (0 <= n)%Z ->
  (Z.of_nat (String.length (Py.str_int n)) <= INT_MAX_STR_DIGITS)%Z ->
  Py.strip (Py.str_int n) = Py.str_int n
  /\ first_digits (Py.str_int n) = Some (Py.str_int n)
  /\ py_int (Py.str_int n) = Some n.
Proof.
  intros Hn Hlen. unfold py_int.
  apply Z.leb_le in Hlen. rewrite Hlen. clear Hlen.
  unfold Py.str_int.
  assert (Hpos : exists u, Z.to_int n = Decimal.Pos u).
  { destruct n as [|p|p]; simpl; eauto. lia. }
  destruct Hpos as (u & Hu). rewrite Hu. cbn [NilZero.string_of_int].
  assert (Hz : Z.of_uint u = n).
  { pose proof (DecimalZ.of_to n) as Hof. rewrite Hu in Hof. exact Hof. }
  destruct (digits_of_uint u) as (Hd & Hl & Hr).
  split; [|split].
  - unfold Py.strip, NilZero.string_of_uint.
    destruct u; try reflexivity; now rewrite Hl, Hr.
  - unfold NilZero.string_of_uint.
    destruct u; try reflexivity;
      cbn [NilEmpty.string_of_uint first_digits digit_run] in *; cbn;
      injection Hd as Hd; now rewrite Hd.
  - f_equal. unfold int_of_digits. destruct u.
    1: rewrite <- Hz; reflexivity.
    all: rewrite NilZero.usu by discriminate; exact Hz.
Qed.

(** X9: whatever the language model replies, and when the call to it
    raises, the score of the confidence tool is between 1 and 10; it is 3
    when the call raises, when the reply holds no digit, and when the first
    number of the reply is longer than [int] converts. *)
Theorem confidence_score_in_range
    (llm : NewRecord -> Premise -> option string)
    (new_record : NewRecord) (existing : Premise) :
  let score := LLMConfidenceTool.score_duplicate_confidence llm new_record existing in
  (1 <= score <= 10)%Z
  /\ (llm new_record existing = None -> score = 3%Z)
  /\ (forall content,
        llm new_record existing = Some content ->
        first_digits (Py.strip content) = None
        \/ (exists number,
              first_digits (Py.strip content) = Some number
              /\ (INT_MAX_STR_DIGITS < Z.of_nat (String.length number))%Z) ->
        score = 3%Z).
Proof.
  cbv zeta. unfold LLMConfidenceTool.score_duplicate_confidence.
  destruct (llm new_record existing) as [content|].
  - destruct (first_digits (Py.strip content)) as [number|] eqn:E.
    + unfold py_int.
      destruct (Z.leb_spec (Z.of_nat (String.length number)) INT_MAX_STR_DIGITS)
        as [Hshort | Hlong].
      * split; [|split].
        -- destruct (Z.ltb_spec (int_of_digits number) 1); [lia|].
           destruct (Z.ltb_spec 10 (int_of_digits number)); lia.
        -- intros H; discriminate H.
        -- intros c [= <-] [Hnone | (m & Hm & Hlen)]; [congruence|].
           rewrite E in Hm. injection Hm as <-. lia.
      * split; [lia|split]; [intros H; discriminate H | reflexivity].
    + split; [lia|split]; [intros H; discriminate H | reflexivity].
  - split; [lia|split]; reflexivity.
Qed.

(** X10: a reply that is the decimal writing of a number that is not
    negative, with no more digits than [int] converts, is read back as that
    number, brought into 1..10: replies 1 to 10 give the scores 1 to 10, 0
    gives 1 and anything above 10 gives 10. *)
Theorem confidence_score_reads_reply
    (llm : NewRecord -> Premise -> option string)
    (new_record : NewRecord) (existing : Premise) (n : Z) :
  (0 <= n)%Z ->
  (Z.of_nat (String.length (Py.str_int n)) <= INT_MAX_STR_DIGITS)%Z ->
  llm new_record existing = Some (Py.str_int n) ->
  LLMConfidenceTool.score_duplicate_confidence llm new_record existing
  = Z.min 10 (Z.max 1 n).
Proof.
  intros Hn Hlen Hreply. unfold LLMConfidenceTool.score_duplicate_confidence.
  destruct (first_digits_str_int n Hn Hlen) as (Hstrip & Hfirst & Hint).
  rewrite Hreply. cbv zeta. rewrite Hstrip, Hfirst, Hint.
  destruct (Z.ltb_spec n 1); [lia|]. destruct (Z.ltb_spec 10 n); lia.
Qed.

Lemma confidence_score_reads_reply_witness :
  LLMConfidenceTool.score_duplicate_confidence
    (fun _ _ => Some (Py.str_int 12)) (new_record_of scoring_state) known_premise
  = Z.min 10 (Z.max 1 12).
Proof.
  apply (confidence_score_reads_reply (fun _ _ => Some (Py.str_int 12))
           (new_record_of scoring_state) known_premise 12);
    [vm_compute; discriminate | vm_compute; discriminate | reflexivity].
Defined.

(** X11: the classifier tool answers [None] exactly when it is given no
    option; any identifier it answers is the identifier of one of the
    options, whatever the language model replies; a reply that writes the
    identifier of an option, with no more digits than [int] converts, is
    answered with that identifier, and a call that raises with the
    identifier of the first option. *)
Theorem classifier_answers_an_option
    (llm : option string -> string -> list OccupancyType -> option string)
    (places_type : option string) (business_name : string)
    (options : list OccupancyType) :
  let answer :=
    LLMOccupancyTool.classify_occupancy_type llm places_type business_name options in
  (answer = None <-> options = [])
  /\ (forall id, answer = Some id -> In id (map occupancy_type_id options))
  /\ (forall id,
        (0 <= id)%Z ->
        (Z.of_nat (String.length (Py.str_int id)) <= INT_MAX_STR_DIGITS)%Z ->
        In id (map occupancy_type_id options) ->
        llm places_type business_name options = Some (Py.str_int id) ->
        answer = Some id)
  /\ (llm places_type business_name options = None ->
      answer = option_map occupancy_type_id (hd_error options)).
Proof.
  cbv zeta. unfold LLMOccupancyTool.classify_occupancy_type.
  destruct options as [|first rest].
  - repeat split; try discriminate; auto. intros id _ _ [].
  - set (options := first :: rest).
    assert (Hvalid : forall id,
               existsb (Z.eqb id) (map occupancy_type_id options) = true
               <-> In id (map occupancy_type_id options)).
    { intros id. rewrite existsb_exists. split.
      - intros (x & Hx & E). apply Z.eqb_eq in E. now subst.
      - intros Hin. exists id. split; [exact Hin | apply Z.eqb_refl]. }
    repeat split.
    + destruct (llm _ _ _) as [content|]; [|discriminate].
      destruct (first_digits _); [|discriminate].
      destruct (py_int _); [|discriminate].
      cbv zeta. destruct (existsb _ _); discriminate.
    + discriminate.
    + intros id. destruct (llm _ _ _) as [content|].
      * destruct (first_digits _) as [number|].
        -- destruct (py_int number) as [read|].
           ++ cbv zeta.
              destruct (existsb _ _) eqn:E; intros [= <-];
                [now apply Hvalid | now left].
           ++ intros [= <-]. now left.
        -- intros [= <-]. now left.
      * intros [= <-]. now left.
    + intros id Hid Hlen Hin Hreply. rewrite Hreply.
      destruct (first_digits_str_int id Hid Hlen) as (Hstrip & Hfirst & Hint).
      cbv zeta. rewrite Hstrip, Hfirst, Hint.
      apply Hvalid in Hin. now rewrite Hin.
    + intros ->. reflexivity.
Qed.

Lemma classifier_answers_an_option_witness :
  LLMOccupancyTool.classify_occupancy_type
    (fun _ _ _ => Some (Py.str_int 2)) (Some "restaurant") "Joe's Diner"
    [ {| occupancy_type_id := 1%Z; occupancy_type_name := "Business" |};
      {| occupancy_type_id := 2%Z; occupancy_type_name := "Assembly" |} ]
  = Some 2%Z.
Proof.
  apply (classifier_answers_an_option
           (fun _ _ _ => Some (Py.str_int 2)) (Some "restaurant") "Joe's Diner"
           [ {| occupancy_type_id := 1%Z; occupancy_type_name := "Business" |};
             {| occupancy_type_id := 2%Z; occupancy_type_name := "Assembly" |} ]);
    [vm_compute; discriminate | vm_compute; discriminate | simpl; auto
    | reflexivity].
Defined.

(** ** The nodes over the two tools *)

Section LanguageModel.

Variable C : Collaborators.
Variable scorer : NewRecord -> Premise -> option string.
Variable classifier :
  option string -> string -> list OccupancyType -> option string.

(** X12: with the confidence tool behind the scoring node, a row with
    candidates is sent to duplicate logging exactly when the model replied
    and the first number of its reply, converted by [int], is 8 or more; in
    every other case (a lower number, no number, a number too long to
    convert, a call that raised) it goes on to occupancy classification.  The score kept in the state is between 1 and 10, and
    one call of the tool is made, on the closest candidate. *)
Theorem model_reply_decides_duplicate
    (s : PremiseState) (existing : Premise) (rest : list Premise) :
  existing_premises s = existing :: rest ->
  exists n1 s1 score,
    @step (with_llm_tools C scorer classifier) N_confidence_scoring s
    = Some (n1, s1, [Call_score_duplicate_confidence (new_record_of s) existing])
    /\ confidence_score s1 = Some score
    /\ (1 <= score <= 10)%Z
    /\ (n1 = N_log_duplicate
        <-> exists content number read,
              scorer (new_record_of s) existing = Some content
              /\ first_digits (Py.strip content) = Some number
              /\ py_int number = Some read
              /\ (8 <= read)%Z)
    /\ (n1 <> N_log_duplicate -> n1 = N_occupancy_classification)
    /\ same_accumulators s s1.
Proof.
  intros Hcand.
  unfold step, run_node, confidence_scoring_node, bind, call, ret.
  rewrite Hcand. cbn [score_duplicate_confidence with_llm_tools].
  set (score := LLMConfidenceTool.score_duplicate_confidence scorer
                  (new_record_of s) existing).
  assert (Hcases :
            (1 <= score <= 10)%Z
            /\ ((8 <= score)%Z
                <-> exists content number read,
                      scorer (new_record_of s) existing = Some content
                      /\ first_digits (Py.strip content) = Some number
                      /\ py_int number = Some read
                      /\ (8 <= read)%Z)).
  { subst score. unfold LLMConfidenceTool.score_duplicate_confidence.
    destruct (scorer (new_record_of s) existing) as [content|].
    - destruct (first_digits (Py.strip content)) as [number|] eqn:E.
      + destruct (py_int number) as [read|] eqn:Eread.
        * destruct (Z.ltb_spec read 1); [|destruct (Z.ltb_spec 10 read)];
            (split; [lia|]); (split;
              [ intros Hs; exists content, number, read; repeat split; auto; lia
              | intros (c & m & r & [= <-] & Hm & Hr & Hge);
                rewrite E in Hm; injection Hm as <-;
                rewrite Eread in Hr; injection Hr as <-; lia ]).
        * split; [lia|]. split; [lia|].
          intros (c & m & r & [= <-] & Hm & Hr & _).
          rewrite E in Hm. injection Hm as <-. congruence.
      + split; [lia|]. split; [lia|].
        intros (c & m & r & [= <-] & Hm & _). congruence.
    - split; [lia|]. split; [lia|].
      intros (c & m & r & Hc & _). discriminate Hc. }
  destruct Hcases as (Hrange & Hiff).
  destruct (Z.leb_spec 8 score) as [Hge | Hlt].
  - do 2 eexists. exists score. split; [rewrite app_nil_r; reflexivity|].
    cbn. split; [reflexivity|]. split; [exact Hrange|].
    split; [|split].
    + split; [intros _; now apply Hiff | reflexivity].
    + intros Hn. now contradiction Hn.
    + repeat split.
  - do 2 eexists. exists score. split; [rewrite app_nil_r; reflexivity|].
    cbn. split; [reflexivity|]. split; [exact Hrange|].
    split; [|split].
    + split; [discriminate|]. intros Hex. apply Hiff in Hex. lia.
    + reflexivity.
    + repeat split.
Qed.

(** X13: with the classifier tool behind the classification node, a row
    whose state has occupancy types always goes on to output formatting with
    no error message, after one call for the types and one call of the
    tool on the place type, the standardized name and those types; the
    tool answers an identifier, which is the identifier of one of the
    options, and the option selected is the one with the identifier that
    the tool answered, unless that identifier is 0, in which case none is
    selected. *)
Theorem classifier_selects_an_option
    (s : PremiseState) (code : string) :
  state_code s = Some code ->
  Py.truthy code = true ->
  @get_occupancy_types_by_state C code <> [] ->
  let options := @get_occupancy_types_by_state C code in
  exists s1 id,
    @step (with_llm_tools C scorer classifier) N_occupancy_classification s
    = Some (N_format_output, s1,
            [Call_get_occupancy_types_by_state code;
             Call_classify_occupancy_type (places_type s) (standardized_name s)
                                          options])
    /\ LLMOccupancyTool.classify_occupancy_type
         classifier (places_type s) (standardized_name s) options
       = Some id
    /\ In id (map occupancy_type_id options)
    /\ occupancy_type_options s1 = options
    /\ error_message s1 = None
    /\ (id <> 0%Z ->
        exists o, selected_occupancy_type s1 = Some o
                  /\ In o options /\ occupancy_type_id o = id)
    /\ (id = 0%Z -> selected_occupancy_type s1 = None).
Proof.
  intros Hcode Htruthy Hsome. cbv zeta.
  unfold step, run_node, occupancy_classification_node, bind, call, ret.
  rewrite Hcode, Htruthy.
  cbn [get_occupancy_types_by_state classify_occupancy_type with_llm_tools fst snd].
  destruct (@get_occupancy_types_by_state C code) as [|first rest] eqn:Hopts;
    [now contradiction Hsome|].
  assert (Hanswer :
            exists id,
              LLMOccupancyTool.classify_occupancy_type classifier
                (places_type s) (standardized_name s) (first :: rest) = Some id
              /\ In id (map occupancy_type_id (first :: rest))).
  { unfold LLMOccupancyTool.classify_occupancy_type.
    destruct (classifier _ _ _) as [content|].
    - destruct (first_digits _) as [number|].
      + destruct (py_int number) as [read|].
        * cbv zeta.
          destruct (existsb _ _) eqn:E.
          -- eexists. split; [reflexivity|].
             apply existsb_exists in E. destruct E as (x & Hx & E).
             apply Z.eqb_eq in E. now subst.
          -- eexists. split; [reflexivity|]. now left.
        * eexists. split; [reflexivity|]. now left.
      + eexists. split; [reflexivity|]. now left.
    - eexists. split; [reflexivity|]. now left. }
  destruct Hanswer as (id & Hid & Hin).
  cbv beta iota. rewrite Hid.
  remember (first :: rest) as options eqn:Hoptions.
  do 1 eexists. exists id. split; [reflexivity|].
  cbn. split; [reflexivity|].
  split; [exact Hin|]. split; [reflexivity|]. split; [reflexivity|].
  split.
  - intros Hnz. apply Z.eqb_neq in Hnz. rewrite Hnz.
    unfold find_occupancy.
    match goal with
    | |- context [find ?f ?l] => destruct (find f l) as [o|] eqn:Hfind
    end.
    + exists o. split; [reflexivity|].
      apply find_some in Hfind. destruct Hfind as (Ho & E).
      apply Z.eqb_eq in E. now split.
    + exfalso. apply in_map_iff in Hin. destruct Hin as (o & Ho & Hino).
      apply (find_none _ _ Hfind) in Hino. rewrite Ho, Z.eqb_refl in Hino.
      discriminate Hino.
  - intros ->. reflexivity.
Qed.

End LanguageModel.

Lemma model_reply_decides_duplicate_witness :
  existing_premises scoring_state = [known_premise]
  /\ exists s1 score,
       @step (with_llm_tools nothing_found
                (fun _ _ => Some "Score: 9 of 10") (fun _ _ _ => None))
             N_confidence_scoring scoring_state
       = Some (N_log_duplicate, s1,
               [Call_score_duplicate_confidence (new_record_of scoring_state)
                                                known_premise])
       /\ confidence_score s1 = Some score
       /\ (1 <= score <= 10)%Z
       /\ same_accumulators scoring_state s1.
Proof.
  split; [reflexivity|].
  destruct (model_reply_decides_duplicate nothing_found
              (fun _ _ => Some "Score: 9 of 10") (fun _ _ _ => None)
              scoring_state known_premise [] eq_refl)
    as (n1 & s1 & score & Hstep & Hscore & Hrange & Hiff & _ & Hsame).
  assert (Hn : n1 = N_log_duplicate).
  { apply Hiff. exists "Score: 9 of 10", "9", 9%Z.
    split; [reflexivity|]. split; [vm_compute; reflexivity|].
    split; [vm_compute; reflexivity|]. vm_compute; discriminate. }
  subst n1. exists s1, score. auto.
Defined.

Lemma classifier_selects_an_option_witness :
  exists s1 o,
    @step (with_llm_tools (town None [] 3) (fun _ _ => None)
             (fun _ _ _ => Some "ID 1"))
          N_occupancy_classification scoring_state
    = Some (N_format_output, s1,
            [Call_get_occupancy_types_by_state "CA";
             Call_classify_occupancy_type
               (places_type scoring_state) (standardized_name scoring_state)
               (@get_occupancy_types_by_state (town None [] 3) "CA")])
    /\ LLMOccupancyTool.classify_occupancy_type
         (fun _ _ _ => Some "ID 1")
         (places_type scoring_state) (standardized_name scoring_state)
         (@get_occupancy_types_by_state (town None [] 3) "CA")
       = Some 1%Z
    /\ selected_occupancy_type s1 = Some o
    /\ occupancy_type_id o = 1%Z.
Proof.
  destruct (classifier_selects_an_option (town None [] 3) (fun _ _ => None)
              (fun _ _ _ => Some "ID 1") scoring_state "CA")
    as (s1 & id & Hstep & Hans & _ & _ & _ & Hsel & _);
    [reflexivity | reflexivity | discriminate |].
  assert (E : LLMOccupancyTool.classify_occupancy_type
                (fun _ _ _ => Some "ID 1")
                (places_type scoring_state) (standardized_name scoring_state)
                (@get_occupancy_types_by_state (town None [] 3) "CA")
              = Some 1%Z) by (vm_compute; reflexivity).
  rewrite E in Hans. injection Hans as <-.
  destruct (Hsel ltac:(discriminate)) as (o & Ho & _ & Hid).
  exists s1, o. auto.
Defined.

Lemma confidence_score_in_range_witness :
  LLMConfidenceTool.score_duplicate_confidence
    (fun _ _ => Some "no idea") (new_record_of scoring_state) known_premise
  = 3%Z.
Proof.
  apply (confidence_score_in_range (fun _ _ => Some "no idea")
           (new_record_of scoring_state) known_premise)
    with (content := "no idea");
    [reflexivity | left; vm_compute; reflexivity].
Defined.

(** ** The error file *)

Lemma has_keys_with_error_reason (row : dict string) (message : option string) :
  has_keys CANONICAL_FIELDS row ->
  has_keys ERROR_FIELDS (with_error_reason row message).
Proof.
  intros (Hnd & Hkeys). unfold with_error_reason, has_keys.
  assert (Hmap : keys (map (fun kv : string * string => (fst kv, Some (snd kv))) row)
                 = keys row).
  { unfold keys. rewrite map_map. reflexivity. }
  split.
  - apply NoDup_keys_dset. now rewrite Hmap.
  - intros k. rewrite in_keys_dset, Hmap, Hkeys. unfold ERROR_FIELDS.
    rewrite in_app_iff. simpl. intuition.
Qed.

Section ErrorFile.

Context `{Collaborators}.

Lemma step_keeps_entries n s n' s' l :
  step n s = Some (n', s', l) ->
  row_parsed n s ->
  Forall (has_keys ERROR_FIELDS) (error_rows s) ->
  row_parsed n' s' /\ Forall (has_keys ERROR_FIELDS) (error_rows s').
Proof.
  intros Hstep Hrow Hentries.
  destruct (mid_row n) eqn:Hmid.
  - destruct (step_mid_row _ _ _ _ _ Hmid Hstep) as (Hcur & Herr & Hnext).
    rewrite Herr. split; [|exact Hentries].
    unfold row_parsed. rewrite Hcur. intros _. apply Hrow. now left.
  - destruct n; try discriminate Hmid; unfold step, run_node in Hstep.
    + unfold parse_row_node, ret in Hstep.
      destruct (nth_error (csv_rows s) (current_row_index s)) as [raw|];
        inversion Hstep; subst; cbn; (split; [|exact Hentries]).
      * intros _. cbn. apply normalize_row_keys.
      * intros [Hm | Hn]; discriminate.
    + unfold log_duplicate_node, ret in Hstep.
      inversion Hstep; subst; cbn. split; [|exact Hentries].
      intros [Hm | Hn]; discriminate.
    + unfold error_handler_node, ret in Hstep.
      inversion Hstep; subst; cbn. split.
      * intros [Hm | Hn]; discriminate.
      * apply Forall_app. split; [exact Hentries|].
        constructor; [|constructor].
        apply has_keys_with_error_reason. apply Hrow. now right.
    + unfold next_row_node, ret in Hstep.
      inversion Hstep; subst; cbn. split; [|exact Hentries].
      unfold route_next_row. cbv zeta.
      match goal with
      | |- context [if ?b then _ else _] => destruct b
      end; intros [Hm | Hn]; discriminate.
    + unfold write_output_node, ret in Hstep.
      inversion Hstep; subst; cbn. split; [|exact Hentries].
      intros [Hm | Hn]; discriminate.
    + unfold ret in Hstep. inversion Hstep; subst; cbn.
      split; [|exact Hentries]. intros [Hm | Hn]; discriminate.
Qed.

Lemma run_keeps_entries stop fuel :
  forall n s s' l,
    run_until stop fuel n s = Finished s' l ->
    row_parsed n s ->
    Forall (has_keys ERROR_FIELDS) (error_rows s) ->
    Forall (has_keys ERROR_FIELDS) (error_rows s').
Proof.
  induction fuel as [|fuel IH]; intros n s s' l; simpl.
  - destruct (stop n); [|discriminate]. intros E; inversion E; subst. auto.
  - destruct (stop n).
    + intros E; inversion E; subst. auto.
    + destruct (step n s) as [[[n1 s1] l1]|] eqn:Hstep; [|discriminate].
      destruct (run_until stop fuel n1 s1) as [s2 l2| |] eqn:Hrun; try discriminate.
      intros E Hrow Hentries; inversion E; subst.
      destruct (step_keeps_entries _ _ _ _ _ Hstep Hrow Hentries) as (Hrow1 & He1).
      exact (IH _ _ _ _ Hrun Hrow1 He1).
Qed.

End ErrorFile.

Lemma writerows_has_keys {V} (cell : V -> string) (fieldnames : list string)
    (rows : list (dict V)) :
  Forall (fun row => forall k, In k (keys row) -> In k fieldnames) rows ->
  exists lines,
    writerows cell fieldnames rows = Some lines
    /\ List.length lines = List.length rows
    /\ Forall (fun line => List.length line = List.length fieldnames) lines.
Proof.
  induction 1 as [|row rest Hrow _ IH]; simpl.
  - exists []. repeat split. constructor.
  - unfold dict_to_list.
    assert (Hall : forallb (fun k => Py.mem k fieldnames) (keys row) = true).
    { apply forallb_forall. intros k Hk. apply Hrow in Hk.
      unfold Py.mem. apply existsb_exists. exists k.
      split; [exact Hk | apply String.eqb_refl]. }
    rewrite Hall. destruct IH as (lines & -> & Hlen & Hcells).
    eexists. split; [reflexivity|]. simpl. split; [now rewrite Hlen|].
    constructor; [now rewrite length_map | exact Hcells].
Qed.

(** X14: when a run from the initial state reaches [write_output], every
    entry of the error accumulator has the same six keys, the five canonical
    fields and [error_reason], each once; so the writer of the error file
    never meets a key outside the header of the first entry and never
    raises: either there are no errors and no file is written, or the file
    has those six columns, one line for each entry and six cells on each
    line. *)
Theorem errors_file_is_written `{Collaborators}
    (rows : list RawRow) (fuel : nat) (s : PremiseState) (l : list Call) :
  run_until (Node_eqb N_write_output) fuel N_parse_row (initial_state rows)
  = Finished s l ->
  Forall (has_keys ERROR_FIELDS) (error_rows s)
  /\ ((error_rows s = [] /\ errors_csv s = NotWritten)
      \/ exists header lines,
           errors_csv s = Written header lines
           /\ NoDup header
           /\ (forall k, In k header <-> In k ERROR_FIELDS)
           /\ List.length lines = List.length (error_rows s)
           /\ Forall (fun line => List.length line = 6) lines).
Proof.
  intros Hrun.
  assert (Hentries : Forall (has_keys ERROR_FIELDS) (error_rows s)).
  { apply (run_keeps_entries _ _ _ _ _ _ Hrun).
    - intros [Hm | Hn]; discriminate.
    - constructor. }
  split; [exact Hentries|].
  unfold errors_csv, write_csv.
  destruct (error_rows s) as [|first rest] eqn:Herr; [now left|].
  right. rewrite <- Herr in *.
  assert (Hfirst : has_keys ERROR_FIELDS first).
  { rewrite Herr in Hentries. now inversion Hentries. }
  destruct Hfirst as (Hnd & Hkeys).
  destruct (writerows_has_keys csv_cell (keys first) (error_rows s))
    as (lines & Hlines & Hlen & Hcells).
  { eapply Forall_impl; [|exact Hentries].
    intros row (_ & Hrow) k Hk. apply Hkeys. now apply Hrow. }
  rewrite Hlines. exists (keys first), lines.
  split; [reflexivity|]. split; [exact Hnd|]. split; [exact Hkeys|].
  split; [exact Hlen|].
  assert (Hsix : List.length (keys first) = 6).
  { apply Nat.le_antisymm.
    - change 6 with (List.length ERROR_FIELDS).
      apply NoDup_incl_length; [exact Hnd|]. intros k Hk. now apply Hkeys.
    - change 6 with (List.length ERROR_FIELDS).
      apply NoDup_incl_length.
      + unfold ERROR_FIELDS, CANONICAL_FIELDS. simpl.
        repeat (constructor; [simpl; intuition discriminate|]). constructor.
      + intros k Hk. now apply Hkeys. }
  eapply Forall_impl; [|exact Hcells]. intros line Hline. now rewrite Hline.
Qed.

Lemma errors_file_is_written_witness :
  exists s l header lines,
    @run_until nothing_found (Node_eqb N_write_output) 12 N_parse_row
               (initial_state [joes_row; second_row]) = Finished s l
    /\ @errors_csv s = Written header lines
    /\ List.length lines = List.length (error_rows s)
    /\ Forall (fun line => List.length line = 6) lines.
Proof.
  assert (E : exists s l,
             @run_until nothing_found (Node_eqb N_write_output) 12 N_parse_row
                        (initial_state [joes_row; second_row]) = Finished s l
             /\ error_rows s <> [])
    by (do 2 eexists; split; [vm_compute; reflexivity | vm_compute; discriminate]).
  destruct E as (s & l & E & Hne). exists s, l.
  destruct (@errors_file_is_written nothing_found _ _ _ _ E)
    as (_ & [(Hnil & _) | (header & lines & Hfile & _ & _ & Hlen & Hcells)]);
    [now contradiction Hne|].
  exists header, lines. auto.
Defined.

(** ** The threshold over a run *)

Section ThresholdOverRun.

Context `{Collaborators}.

Ltac score_step Hstep :=
  unfold option_map, bind, call, ret in Hstep;
  repeat match type of Hstep with
         | context [match ?x with _ => _ end] =>
             lazymatch x with
             | context [match _ with _ => _ end] => fail
             | _ => destruct x eqn:?
             end
         end;
  inversion Hstep; subst; clear Hstep; cbn;
  repeat apply conj; auto; try discriminate.

Lemma step_keeps_threshold n s n' s' l :
  step n s = Some (n', s', l) ->
  score_state n s ->
  Forall scored_below (successful_rows s) ->
  Forall scored_above (duplicate_log s) ->
  score_state n' s'
  /\ Forall scored_below (successful_rows s')
  /\ Forall scored_above (duplicate_log s').
Proof.
  intros Hstep Hstate Hrows Hdups.
  destruct n; unfold step, run_node in Hstep; cbn [score_state] in Hstate.
  - unfold parse_row_node in Hstep. score_step Hstep.
  - unfold places_search_node in Hstep. score_step Hstep.
  - unfold standardize_node in Hstep. score_step Hstep.
  - unfold database_query_node in Hstep. score_step Hstep.
    intros score E. congruence.
  - unfold confidence_scoring_node in Hstep. score_step Hstep.
    + eexists. split; [reflexivity|]. now apply Z.leb_le.
    + intros score [= <-]. now apply Z.leb_gt.
  - unfold occupancy_classification_node in Hstep. score_step Hstep.
  - unfold format_output_node in Hstep. score_step Hstep.
    intros o [= <-]. unfold scored_below. cbn.
    destruct (confidence_score s) as [score|]; auto.
  - unfold verify_output_node in Hstep. score_step Hstep.
    apply Forall_app. split; [exact Hrows|]. constructor; auto.
  - unfold log_duplicate_node in Hstep. score_step Hstep.
    apply Forall_app. split; [exact Hdups|]. constructor; [exact Hstate|constructor].
  - unfold error_handler_node in Hstep. score_step Hstep.
  - unfold next_row_node in Hstep. score_step Hstep.
    unfold route_next_row. cbv zeta.
    match goal with
    | |- context [if ?b then _ else _] => destruct b
    end; cbn; auto.
  - unfold write_output_node in Hstep. score_step Hstep.
  - score_step Hstep.
Qed.

Lemma run_keeps_threshold stop fuel :
  forall n s s' l,
    run_until stop fuel n s = Finished s' l ->
    score_state n s ->
    Forall scored_below (successful_rows s) ->
    Forall scored_above (duplicate_log s) ->
    Forall scored_below (successful_rows s')
    /\ Forall scored_above (duplicate_log s').
Proof.
  induction fuel as [|fuel IH]; intros n s s' l; simpl.
  - destruct (stop n); [|discriminate]. intros E; inversion E; subst. auto.
  - destruct (stop n).
    + intros E; inversion E; subst. auto.
    + destruct (step n s) as [[[n1 s1] l1]|] eqn:Hstep; [|discriminate].
      destruct (run_until stop fuel n1 s1) as [s2 l2| |] eqn:Hrun; try discriminate.
      intros E Hstate Hrows Hdups; inversion E; subst.
      destruct (step_keeps_threshold _ _ _ _ _ Hstep Hstate Hrows Hdups)
        as (Hstate1 & Hrows1 & Hdups1).
      exact (IH _ _ _ _ Hrun Hstate1 Hrows1 Hdups1).
Qed.

(** X15: the threshold separates the accumulators of a run from the initial
    state, wherever the run is stopped: every entry of the duplicate log
    carries a score of 8 or more, and every processed row either was not
    scored, and then is not flagged as checked for duplicates, or was scored
    below 8 and is flagged. *)
Theorem threshold_separates_accumulators
    (stop : Node -> bool) (rows : list RawRow) (fuel : nat)
    (s : PremiseState) (l : list Call) :
  run_until stop fuel N_parse_row (initial_state rows) = Finished s l ->
  Forall scored_below (successful_rows s)
  /\ Forall scored_above (duplicate_log s).
Proof.
  intros Hrun.
  apply (run_keeps_threshold _ _ _ _ _ _ Hrun); [reflexivity | constructor | constructor].
Qed.

End ThresholdOverRun.

Lemma threshold_separates_accumulators_witness :
  exists s l,
    @run_until (town None [known_premise] 9) (Node_eqb N_END) 21 N_parse_row
               (initial_state [second_row; joes_row]) = Finished s l
    /\ duplicate_log s <> []
    /\ Forall scored_above (duplicate_log s).
Proof.
  assert (E : exists s l,
             @run_until (town None [known_premise] 9) (Node_eqb N_END) 21 N_parse_row
                        (initial_state [second_row; joes_row]) = Finished s l
             /\ duplicate_log s <> [])
    by (do 2 eexists; split; [vm_compute; reflexivity | vm_compute; discriminate]).
  destruct E as (s & l & E & Hne). exists s, l. split; [exact E|]. split; [exact Hne|].
  exact (proj2 (@threshold_separates_accumulators (town None [known_premise] 9)
                  _ _ _ _ _ E)).
Defined.

(** ** Rows without an occupancy type *)

Lemma missing_occupancy `{Collaborators} (o : OutputRow) :
  Premise_Occupancy o = "" ->
  In "Missing required field: Premise Occupancy" (collect_validation_errors o).
Proof.
  intros E. unfold collect_validation_errors. apply in_or_app. left.
  unfold missing_field_errors. apply in_map_iff.
  exists ("Premise Occupancy", Premise_Occupancy o). split; [reflexivity|].
  apply filter_In. split.
  - unfold required_fields. simpl. auto 10.
  - cbn [snd]. rewrite E. reflexivity.
Qed.

Section Unclassified.

Context `{Collaborators}.

Lemma run_until_next stop fuel n s n1 s1 l1 :
  stop n = false ->
  step n s = Some (n1, s1, l1) ->
  run_until stop (S fuel) n s = prepend l1 (run_until stop fuel n1 s1).
Proof.
  intros Hstop Hstep. cbn [run_until]. rewrite Hstop, Hstep.
  now destruct (run_until stop fuel n1 s1).
Qed.

Lemma format_without_occupancy (s : PremiseState) :
  selected_occupancy_type s = None ->
  let errors := collect_validation_errors (build_output_row s) in
  exists s',
    run_until (Node_eqb N_next_row) 3 N_format_output s = Finished s' []
    /\ In "Missing required field: Premise Occupancy" errors
    /\ error_rows s'
       = error_rows s
         ++ [with_error_reason (current_row s)
               (Some ("Output validation failed: " ++ Py.join "; " errors)%string)]
    /\ successful_rows s' = successful_rows s
    /\ duplicate_log s' = duplicate_log s.
Proof.
  intros Hnone. cbv zeta.
  assert (Hin : In "Missing required field: Premise Occupancy"
                   (collect_validation_errors (build_output_row s))).
  { apply missing_occupancy. unfold build_output_row. cbn. now rewrite Hnone. }
  destruct (collect_validation_errors (build_output_row s)) as [|e errors] eqn:Herrors;
    [destruct Hin|].
  set (s1 := apply_update (format_output_node s) s).
  set (s2 := apply_update
               [U_verification_passed false;
                U_validation_errors (e :: errors);
                U_next_step "error_handler";
                U_error_message
                  (Some ("Output validation failed: "
                         ++ Py.join "; " (e :: errors))%string)] s1).
  assert (H1 : step N_format_output s = Some (N_verify_output, s1, []))
    by reflexivity.
  assert (H2 : step N_verify_output s1 = Some (N_error_handler, s2, [])).
  { unfold step, run_node, verify_output_node.
    change (output_row s1) with (Some (build_output_row s)).
    cbv beta iota zeta. rewrite Herrors. reflexivity. }
  assert (H3 : step N_error_handler s2
               = Some (N_next_row, apply_update (error_handler_node s2) s2, []))
    by reflexivity.
  exists (apply_update (error_handler_node s2) s2).
  split.
  - rewrite (run_until_next _ _ _ _ _ _ _ eq_refl H1).
    rewrite (run_until_next _ _ _ _ _ _ _ eq_refl H2).
    rewrite (run_until_next _ _ _ _ _ _ _ eq_refl H3).
    reflexivity.
  - split; [exact Hin|]. repeat split.
Qed.

(** X16: a row that reaches output formatting with no occupancy type
    selected is never processed: verification reports the occupancy as a
    missing field and the row goes to the error accumulator, its reason the
    joined validation messages.  This is the fate of every row whose state
    has no occupancy types, and the message that occupancy classification
    leaves for it, that no occupancy types are available, is overwritten
    before any entry is written and is not the reason of the entry. *)
Theorem unclassified_row_is_an_error (s : PremiseState) :
  (forall code,
     state_code s = Some code -> Py.truthy code = true ->
     get_occupancy_types_by_state code = []) ->
  exists s1 l1 s' errors,
    step N_occupancy_classification s = Some (N_format_output, s1, l1)
    /\ error_message s1 = Some "No occupancy types available for state"
    /\ run_until (Node_eqb N_next_row) 3 N_format_output s1 = Finished s' []
    /\ In "Missing required field: Premise Occupancy" errors
    /\ error_rows s'
       = error_rows s
         ++ [with_error_reason (current_row s)
               (Some ("Output validation failed: " ++ Py.join "; " errors)%string)]
    /\ successful_rows s' = successful_rows s
    /\ duplicate_log s' = duplicate_log s.
Proof.
  intros Hnone.
  assert (Hstep : exists l1,
             step N_occupancy_classification s
             = Some (N_format_output,
                     apply_update
                       [U_occupancy_type_options [];
                        U_selected_occupancy_type None;
                        U_next_step "format_output";
                        U_error_message
                          (Some "No occupancy types available for state")] s,
                     l1)).
  { unfold step, run_node, occupancy_classification_node, bind, call, ret.
    destruct (state_code s) as [code|] eqn:Hcode.
    - destruct (Py.truthy code) eqn:Htruthy.
      + cbn [fst snd]. rewrite (Hnone code eq_refl Htruthy). eexists. reflexivity.
      + eexists. reflexivity.
    - eexists. reflexivity. }
  destruct Hstep as (l1 & Hstep).
  match type of Hstep with
  | _ = Some (_, ?s1, _) =>
      destruct (format_without_occupancy s1 eq_refl)
        as (s' & Hrun & Hin & Herr & Hok & Hdup)
  end.
  do 4 eexists. split; [exact Hstep|]. split; [reflexivity|].
  split; [exact Hrun|]. split; [exact Hin|]. auto.
Qed.

End Unclassified.

Lemma unclassified_row_is_an_error_witness :
  exists s1 l1 s' errors,
    @step nothing_found N_occupancy_classification scoring_state
    = Some (N_format_output, s1, l1)
    /\ error_message s1 = Some "No occupancy types available for state"
    /\ @run_until nothing_found (Node_eqb N_next_row) 3 N_format_output s1
       = Finished s' []
    /\ In "Missing required field: Premise Occupancy" errors
    /\ error_rows s'
       = error_rows scoring_state
         ++ [with_error_reason (current_row scoring_state)
               (Some ("Output validation failed: " ++ Py.join "; " errors)%string)]
    /\ successful_rows s' = successful_rows scoring_state
    /\ duplicate_log s' = duplicate_log scoring_state.
Proof.
  apply (@unclassified_row_is_an_error nothing_found scoring_state).
  intros code _ _. reflexivity.
Defined.

(** ** The evaluator of the golden set *)

Module EvaluatorFacts.

Import GoldenSetEvaluator.

Lemma check_flag_tally name expected actual (tally : Tally) :
  fst (check_flag name expected actual tally)
  + List.length (snd (check_flag name expected actual tally))
  = fst tally + List.length (snd tally) + present expected.
Proof.
  unfold check_flag. destruct expected as [e|]; simpl; [|lia].
  destruct (Bool.eqb e actual); simpl; [lia|].
  rewrite length_app. simpl. lia.
Qed.

Lemma check_score_tally checks final_state (tally : Tally) :
  fst (check_score checks final_state tally)
  + List.length (snd (check_score checks final_state tally))
  = fst tally + List.length (snd tally)
    + match chk_confidence_score_min checks, chk_confidence_score_max checks with
      | None, None => 0
      | _, _ => 1
      end.
Proof.
  unfold check_score.
  destruct (chk_confidence_score_min checks), (chk_confidence_score_max checks);
    try lia;
    (destruct (extracted_score final_state);
     [ match goal with
       | |- context [if ?b then _ else _] => destruct b
       end
     | destruct (negb _) ];
     simpl; rewrite ?length_app; simpl; lia).
Qed.

End EvaluatorFacts.

(** X17: every block of checks that the evaluator runs adds one to the
    passed checks or one message to the failures, and a test passes exactly
    when there is no failure; but the total it reports is the number of keys
    of [checks], so the two bounds of the score, which are checked together,
    count twice, and so does every key the evaluator never looks up: a test
    case that gives both bounds reports fewer passed checks than the total
    even when it passes. *)
Theorem evaluator_tally
    (checks : GoldenSetEvaluator.Checks) (final_state : PremiseState) :
  let result := GoldenSetEvaluator.validate checks final_state in
  let both_bounds :=
    match GoldenSetEvaluator.chk_confidence_score_min checks,
          GoldenSetEvaluator.chk_confidence_score_max checks with
    | Some _, Some _ => 1
    | _, _ => 0
    end in
  GoldenSetEvaluator.checks_passed result
  + List.length (GoldenSetEvaluator.failures result)
  + both_bounds + GoldenSetEvaluator.chk_other checks
  = GoldenSetEvaluator.checks_total result
  /\ (GoldenSetEvaluator.passed result = true
      <-> GoldenSetEvaluator.failures result = [])
  /\ (both_bounds = 1 ->
      GoldenSetEvaluator.checks_passed result
      < GoldenSetEvaluator.checks_total result).
Proof.
  cbv zeta.
  assert (Htally :
            GoldenSetEvaluator.checks_passed
              (GoldenSetEvaluator.validate checks final_state)
            + List.length (GoldenSetEvaluator.failures
                             (GoldenSetEvaluator.validate checks final_state))
            + match GoldenSetEvaluator.chk_confidence_score_min checks,
                    GoldenSetEvaluator.chk_confidence_score_max checks with
              | Some _, Some _ => 1
              | _, _ => 0
              end
            + GoldenSetEvaluator.chk_other checks
            = GoldenSetEvaluator.checks_total
                (GoldenSetEvaluator.validate checks final_state)).
  { unfold GoldenSetEvaluator.validate.
    cbn [GoldenSetEvaluator.checks_passed GoldenSetEvaluator.failures
         GoldenSetEvaluator.checks_total].
    rewrite !EvaluatorFacts.check_flag_tally, EvaluatorFacts.check_score_tally,
      !EvaluatorFacts.check_flag_tally.
    unfold GoldenSetEvaluator.len_checks. simpl.
    destruct (GoldenSetEvaluator.chk_confidence_score_min checks),
      (GoldenSetEvaluator.chk_confidence_score_max checks); simpl; lia. }
  split; [exact Htally|]. split.
  - unfold GoldenSetEvaluator.validate.
    cbn [GoldenSetEvaluator.passed GoldenSetEvaluator.failures].
    match goal with
    | |- context [GoldenSetEvaluator.nonempty ?l] => destruct l
    end; simpl; split; congruence.
  - intros Hboth. rewrite Hboth in Htally. lia.
Qed.

Lemma evaluator_tally_witness :
  GoldenSetEvaluator.checks_passed
    (GoldenSetEvaluator.validate
       {| GoldenSetEvaluator.chk_places_found := Some true;
          GoldenSetEvaluator.chk_duplicate_detected := None;
          GoldenSetEvaluator.chk_confidence_score_min := Some 0%Z;
          GoldenSetEvaluator.chk_confidence_score_max := Some 7%Z;
          GoldenSetEvaluator.chk_in_errors := None;
          GoldenSetEvaluator.chk_in_duplicates_log := None;
          GoldenSetEvaluator.chk_in_processed := None;
          GoldenSetEvaluator.chk_other := 0 |}
       (initial_state []))
  < GoldenSetEvaluator.checks_total
      (GoldenSetEvaluator.validate
         {| GoldenSetEvaluator.chk_places_found := Some true;
            GoldenSetEvaluator.chk_duplicate_detected := None;
            GoldenSetEvaluator.chk_confidence_score_min := Some 0%Z;
            GoldenSetEvaluator.chk_confidence_score_max := Some 7%Z;
            GoldenSetEvaluator.chk_in_errors := None;
            GoldenSetEvaluator.chk_in_duplicates_log := None;
            GoldenSetEvaluator.chk_in_processed := None;
            GoldenSetEvaluator.chk_other := 0 |}
         (initial_state [])).
Proof.
  apply evaluator_tally. reflexivity.
Defined.

Lemma last_scored_above (log : list DuplicateEntry) :
  Forall scored_above log ->
  log <> [] ->
  exists score,
    last (map dup_confidence_score log) None = Some score /\ (8 <= score)%Z.
Proof.
  induction 1 as [|d rest Hd Hrest IH]; intros Hne; [now contradiction Hne|].
  destruct rest as [|d' rest'].
  - exact Hd.
  - apply IH. discriminate.
Qed.

(** X18: on the final state of a run from the initial state the score that
    the evaluator compares with a test case's bounds is 8 or more whenever
    the duplicate log has an entry, and below 8 whenever it is read from the
    processed rows; and when the evaluator finds no duplicate detected, it
    finds no score either.  So a test case that expects an entry in the
    duplicate log can only meet an upper bound of 8 or more. *)
Theorem evaluator_reads_threshold `{Collaborators}
    (stop : Node -> bool) (rows : list RawRow) (fuel : nat)
    (s : PremiseState) (l : list Call) :
  run_until stop fuel N_parse_row (initial_state rows) = Finished s l ->
  (duplicate_log s <> [] ->
   exists score,
     GoldenSetEvaluator.extracted_score s = Some score /\ (8 <= score)%Z)
  /\ (duplicate_log s = [] ->
      forall score,
        GoldenSetEvaluator.extracted_score s = Some score -> (score < 8)%Z)
  /\ (GoldenSetEvaluator.duplicate_detected s = false ->
      GoldenSetEvaluator.extracted_score s = None).
Proof.
  intros Hrun.
  destruct (run_keeps_threshold _ _ _ _ _ _ Hrun eq_refl
              (Forall_nil _) (Forall_nil _)) as (Hrows & Hdups).
  unfold GoldenSetEvaluator.extracted_score, GoldenSetEvaluator.duplicate_detected.
  assert (Hfound : forall row,
             find (fun row => match _confidence_score row with
                              | Some _ => true
                              | None => false
                              end) (successful_rows s) = Some row ->
             exists score, _confidence_score row = Some score
                           /\ _duplicate_checked row = true
                           /\ In row (successful_rows s)
                           /\ (score < 8)%Z).
  { intros row Hfind. apply find_some in Hfind. destruct Hfind as (Hin & Hsome).
    pose proof (proj1 (Forall_forall _ _) Hrows row Hin) as Hbelow.
    unfold scored_below in Hbelow.
    destruct (_confidence_score row) as [score|]; [|discriminate Hsome].
    exists score. tauto. }
  split; [|split].
  - intros Hne. destruct (last_scored_above _ Hdups Hne) as (score & Hlast & Hge).
    destruct (duplicate_log s); [now contradiction Hne|]. eauto.
  - intros -> score.
    destruct (find _ (successful_rows s)) as [row|] eqn:Hfind; [|discriminate].
    destruct (Hfound row eq_refl) as (score' & Hscore & _ & _ & Hlt).
    rewrite Hscore. intros [= <-]. exact Hlt.
  - destruct (duplicate_log s); [|discriminate]. intros Hnone.
    destruct (find _ (successful_rows s)) as [row|] eqn:Hfind; [|reflexivity].
    destruct (Hfound row eq_refl) as (score & _ & Hchecked & Hin & _).
    assert (Hex : existsb _duplicate_checked (successful_rows s) = true)
      by (apply existsb_exists; eauto).
    congruence.
Qed.

Lemma evaluator_reads_threshold_witness :
  exists s l score,
    @run_until (town None [known_premise] 9) (Node_eqb N_END) 21 N_parse_row
               (initial_state [second_row; joes_row]) = Finished s l
    /\ GoldenSetEvaluator.extracted_score s = Some score
    /\ (8 <= score)%Z.
Proof.
  assert (E : exists s l,
             @run_until (town None [known_premise] 9) (Node_eqb N_END) 21 N_parse_row
                        (initial_state [second_row; joes_row]) = Finished s l
             /\ duplicate_log s <> [])
    by (do 2 eexists; split; [vm_compute; reflexivity | vm_compute; discriminate]).
  destruct E as (s & l & E & Hne).
  destruct (proj1 (@evaluator_reads_threshold (town None [known_premise] 9)
                     _ _ _ _ _ E) Hne) as (score & Hscore & Hge).
  exists s, l, score. auto.
Defined.
